(** * Verification of the tool-orchestration pipeline of the library desk agent

    The development embeds, file by file, the parts of [server/tools.py],
    [server/database.py] and [server/gemini_agent.py] that the specification
    talks about:

    - [Py]           exceptions and results of Python calls;
    - [Float]        the arithmetic of Python floats;
    - [Store]        the SQLite tables and [get_db_cursor];
    - [Tools]        [create_order_safe], [restock_book_tool],
                     [update_price_tool];
    - [OrderSpec]    the vocabulary of the specification of orders;
    - [Json]         the values of [json.loads] and a reference decoder;
    - [Extractor]    [GeminiAgent._parse_json_response];
    - [Executor]     [GeminiAgent.execute_tools] and the tool registry;
    - [Orchestrator] [GeminiAgent.process_request] and its stages;
    - [Queries]      [order_status_tool] and [inventory_summary_tool];
    - [Main]         [run_agent] of [server/main.py];
    - [Chat]         [chat_endpoint] and [get_session_tool_calls] of
                     [server/main.py].

    The definitions come first; the theorems follow, one section per
    component.

    Numbers: SQLite INTEGER columns and Python ints are [Z]; where a
    theorem depends on an integer fitting the 64 bits of SQLite, it says
    so ([int64]). Prices and totals (DECIMAL columns, Python floats) are
    binary64 numbers, held as the rationals they denote; the products and
    sums of the order transaction are rounded as binary64 rounds them
    ([Float]). *)

From Stdlib Require Import ZArith QArith Qabs String Ascii List Lia Bool.
From Stdlib Require SpecFloat.
From stdpp Require Import base option list gmap strings.

#[local] Set Warnings "-register-all".

Local Open Scope Z_scope.

(* ===================================================================== *)
(** ** Python results and exceptions *)
(* ===================================================================== *)

Module Py.

(** The subclasses of [Exception] that the modelled code can meet. *)
Inductive exn : Type :=
| OperationalError (msg : string)   (* sqlite3.OperationalError *)
| NameError (name : string)         (* unbound global name *)
| JSONDecodeError                   (* json.JSONDecodeError *)
| ValidationError (field : string)  (* pydantic, raised by [tool.run] *)
| TypeError
| AttributeError
| RecursionError                    (* maximum recursion depth exceeded *)
| OtherException (msg : string).

Inductive result (A : Type) : Type :=
| Ok (a : A)
| Raise (e : exn).
Arguments Ok {A} a.
Arguments Raise {A} e.

Definition bind {A B} (r : result A) (k : A -> result B) : result B :=
  match r with
  | Ok a => k a
  | Raise e => Raise e
  end.

(** [try: body except Exception as e: handler e] *)
Definition try_except {A} (body : result A) (handler : exn -> result A) : result A :=
  match body with
  | Ok a => Ok a
  | Raise e => handler e
  end.

Definition returns {A} (r : result A) : Prop := exists a, r = Ok a.

End Py.
Import Py.

(* ===================================================================== *)
(** ** Python floats *)
(* ===================================================================== *)

Module Float.

(** A Python float, like a REAL of SQLite, is an IEEE 754 binary64
    number: a significand of 53 bits, exponents down to -1074. A finite
    one is held as the rational it denotes; an operation gives the exact
    result rounded to the nearest binary64 number, ties to the even
    significand. The infinities (a result of 2^1024 or more) and NaN are
    outside the model. *)

(** The integer part of the binary logarithm of [n / d], for [0 < n]. *)
Definition floor_log2 (n : Z) (d : positive) : Z :=
  let e := Z.log2 n - Z.log2 (Zpos d) in
  if (if 0 <=? e then Zpos d * 2 ^ e <=? n else Zpos d <=? n * 2 ^ (- e))
  then e else e - 1.

(** [n / d] rounded to the nearest integer, ties to the even one, for
    [0 <= n] and [0 < d]. *)
Definition nearest_even (n d : Z) : Z :=
  let q := n / d in
  match 2 * (n mod d) ?= d with
  | Lt => q
  | Gt => q + 1
  | Eq => if Z.even q then q else q + 1
  end.

(** The binary64 number nearest to [x], in lowest terms: [u] is the
    exponent of the last bit of the significand. *)
Definition round64 (x : Q) : Q :=
  let n := Z.abs (Qnum x) in
  if n =? 0 then 0%Q
  else
    let u := Z.max (floor_log2 n (Qden x) - 52) (- 1074) in
    let m := if 0 <=? u then nearest_even n (Zpos (Qden x) * 2 ^ u)
             else nearest_even (n * 2 ^ (- u)) (Zpos (Qden x)) in
    let r := if 0 <=? u then inject_Z (m * 2 ^ u)
             else Qmake m (Z.to_pos (2 ^ (- u))) in
    Qred (if Qnum x <? 0 then - r else r)%Q.

(** [price * quantity] for a float and an int: the int is converted to
    the nearest float, the product is rounded. *)
Definition fmul (price : Q) (quantity : Z) : Q :=
  round64 (price * round64 (inject_Z quantity)).

(** [total + item_total] *)
Definition fadd (total item_total : Q) : Q := round64 (total + item_total).

(** A price that SQLite stores as an INTEGER (45.00 becomes 45) is read
    as a Python int, and ints multiply and add exactly: the same numbers
    as above as long as the amounts stay below 2^53. *)

(** The finite numbers of the specification of IEEE 754 in the Standard
    Library, to compare the rounding with. *)
Definition of_spec_float (f : SpecFloat.spec_float) : option Q :=
  match f with
  | SpecFloat.S754_zero _ => Some 0%Q
  | SpecFloat.S754_finite s m e =>
      let v := if 0 <=? e then inject_Z (Zpos m * 2 ^ e)
               else Qmake (Zpos m) (Z.to_pos (2 ^ (- e))) in
      Some (Qred (if s then - v else v)%Q)
  | _ => None
  end.

(** A binary64 number, given as [m * 2 ^ e], in that specification. *)
Definition to_spec_float (m e : Z) : SpecFloat.spec_float :=
  SpecFloat.binary_normalize 53 1024 m e false.

(** The double nearest to 0.1, the price of the counterexamples. *)
Definition tenth : Q := round64 (1 # 10).

End Float.
Import Float.

#[global] Arguments round64 : simpl never.
#[global] Arguments fmul : simpl never.
#[global] Arguments fadd : simpl never.

(* ===================================================================== *)
(** ** The store: tables of [database.py] and the cursor context manager *)
(* ===================================================================== *)

Module Store.

(** Row of [books] (isbn is the key of the map). *)
Record book : Type := mkBook {
  title : string;
  author : string;
  price : Q;
  stock : Z
}.

(** Row of [customers] (id is the key of the map). *)
Record customer : Type := mkCustomer {
  name : string;
  email : string
}.

(** Row of [orders]. *)
Record order : Type := mkOrder {
  order_id : Z;
  customer_id : Z;
  status : string;
  total_amount : Q
}.

(** Row of [order_items]. *)
Record order_item : Type := mkOrderItem {
  oi_order_id : Z;
  book_isbn : string;
  oi_quantity : Z;
  unit_price : Q
}.

(** The four tables the order transaction touches; [last_order_id] is the
    AUTOINCREMENT counter of [orders]. *)
Record database : Type := mkDb {
  books : gmap string book;
  customers : gmap Z customer;
  orders : list order;
  order_items : list order_item;
  last_order_id : Z
}.

(** What the storage layer does to one [with get_db_cursor()] block:
    nothing, or it raises [sqlite3.OperationalError] somewhere inside the
    block (connect, execute or commit). *)
Inductive storage_event : Type :=
| Quiet
| Locked                     (* "database is locked" *)
| Failing (msg : string).    (* any other OperationalError *)

(** ["database is locked" in str(e)], for the messages the model raises. *)
Definition database_is_locked : string := "database is locked".

(** [get_db_cursor]: the body runs on the connection's view of the data;
    leaving the block normally (also by [return]) commits, an exception
    rolls back and is re-raised. *)
Definition get_db_cursor {A} (ev : storage_event) (db : database)
    (body : database -> result A * database) : result A * database :=
  match ev with
  | Locked => (Raise (OperationalError database_is_locked), db)
  | Failing msg => (Raise (OperationalError msg), db)
  | Quiet =>
      match body db with
      | (Ok a, db') => (Ok a, db')            (* conn.commit() *)
      | (Raise e, _) => (Raise e, db)         (* conn.rollback(); raise *)
      end
  end.

(** [UPDATE books SET stock = stock + delta WHERE isbn = ?] *)
Definition add_stock (delta : Z) (b : book) : book :=
  mkBook (title b) (author b) (price b) (stock b + delta).

Definition update_stock (isbn : string) (delta : Z) (db : database) : database :=
  mkDb (alter (add_stock delta) isbn (books db)) (customers db)
       (orders db) (order_items db) (last_order_id db).

(** [UPDATE books SET price = ? WHERE isbn = ?] *)
Definition set_price (p : Q) (b : book) : book :=
  mkBook (title b) (author b) p (stock b).

Definition update_price (isbn : string) (p : Q) (db : database) : database :=
  mkDb (alter (set_price p) isbn (books db)) (customers db)
       (orders db) (order_items db) (last_order_id db).

(** [INSERT INTO orders (customer_id, total_amount, status)]; the result
    carries [cursor.lastrowid]. *)
Definition insert_order (cid : Z) (total : Q) (st : string) (db : database)
    : Z * database :=
  let oid := last_order_id db + 1 in
  (oid, mkDb (books db) (customers db)
             (orders db ++ [mkOrder oid cid st total])
             (order_items db) oid).

(** [INSERT INTO order_items (order_id, book_isbn, quantity, unit_price)] *)
Definition insert_order_item (oid : Z) (isbn : string) (q : Z) (p : Q)
    (db : database) : database :=
  mkDb (books db) (customers db) (orders db)
       (order_items db ++ [mkOrderItem oid isbn q p]) (last_order_id db).

(** [SELECT id FROM orders WHERE id = ?] *)
Definition select_order (oid : Z) (db : database) : option order :=
  find (fun o => order_id o =? oid) (orders db).

(** The integers SQLite stores in an INTEGER and [sqlite3] binds as a
    parameter: 64 bits, signed. An INTEGER that leaves them becomes a
    REAL, and a parameter outside them raises [OverflowError]: both are
    outside the model, and a theorem that depends on it asks for
    [int64]. *)
Definition int64 (z : Z) : Prop := - 2 ^ 63 <= z < 2 ^ 63.

(** The invariant of the data model: no stock is negative. *)
Definition stock_nonneg (db : database) : Prop :=
  forall isbn b, books db !! isbn = Some b -> 0 <= stock b.

End Store.
Import Store.

(* ===================================================================== *)
(** ** The catalogue operations of [tools.py] *)
(* ===================================================================== *)

Module Tools.

(** One element of [items]: a dict read with [item.get('isbn')] and
    [item.get('quantity')]; [None] is a missing key. *)
Record item : Type := mkItem {
  isbn : option string;
  quantity : option Z
}.

(** The dict appended to [order_items] by the validation loop. *)
Record order_line : Type := mkLine {
  ol_isbn : string;
  ol_title : string;
  ol_quantity : Z;
  ol_unit_price : Q;
  ol_item_total : Q
}.

(** The texts the three operations return, one constructor per f-string of
    the source, carrying the values the f-string interpolates. *)
Inductive reply : Type :=
| CustomerNotFound (cid : Z)          (* Error: Customer with ID .. not found. *)
| MissingField                        (* Error: Each item must have 'isbn' and 'quantity'. *)
| NonPositiveQuantity (isbn : string) (* Error: Quantity for ISBN .. must be positive. *)
| BookNotFound (isbn : string)        (* Error: Book with ISBN .. not found. *)
| NotEnoughStock (title : string) (available requested : Z)
                                      (* Error: Not enough stock for .. *)
| OrderNotVerified (oid : Z)          (* Error: Order #.. was not created successfully. *)
| OrderCreated (oid : Z) (customer_name : string) (total : Q)
               (lines : list order_line) (stocks : list (string * Z))
| ErrorAfterRetry (e : exn)           (* Error creating order after retry: .. *)
| DatabaseError (msg : string)        (* Database error: .. *)
| ErrorCreatingOrder (e : exn)        (* Error creating order: .. *)
| Restocked (title : string) (added previous new_stock : Z)
| ErrorRestocking (e : exn)           (* Error restocking book: .. *)
| PriceUpdated (title : string) (old_price new_price : Q)
| ErrorUpdatingPrice (e : exn).       (* Error updating book price: .. *)

(** The replies that report a created order, a restock or a new price. *)
Definition is_success (r : reply) : bool :=
  match r with
  | OrderCreated _ _ _ _ _ | Restocked _ _ _ _ | PriceUpdated _ _ _ => true
  | _ => false
  end.

(** Python truth value of [item.get(..)]: [None], the empty string and 0
    are false. *)
Definition truthy_str (s : option string) : bool :=
  match s with
  | Some s => negb (String.eqb s EmptyString)
  | None => false
  end.

Definition truthy_int (z : option Z) : bool :=
  match z with
  | Some z => negb (z =? 0)
  | None => false
  end.

Inductive validated : Type :=
| Rejected (r : reply)
| Accepted (total : Q) (lines : list order_line).

(** The loop [for item in items] of [create_order_safe] (lines 104-133):
    [total] is [total_amount], [acc] is [order_items]. Every SELECT reads
    the data as it is before the first write. *)
Fixpoint validate_items (db : database) (items : list item)
    (total : Q) (acc : list order_line) : validated :=
  match items with
  | [] => Accepted total acc
  | it :: rest =>
      if negb (truthy_str (isbn it)) || negb (truthy_int (quantity it))
      then Rejected MissingField
      else
        match isbn it, quantity it with
        | Some s, Some q =>
            if q <=? 0 then Rejected (NonPositiveQuantity s)
            else
              match books db !! s with
              | None => Rejected (BookNotFound s)
              | Some b =>
                  if stock b <? q
                  then Rejected (NotEnoughStock (title b) (stock b) q)
                  else
                    let item_total := fmul (price b) q in
                    validate_items db rest (fadd total item_total)
                      (acc ++ [mkLine s (title b) q (price b) item_total])
              end
        | _, _ => Rejected MissingField
        end
  end.

(** The loop [for item in order_items] of lines 143-153: one row of
    [order_items] and one stock update per line. *)
Fixpoint write_lines (oid : Z) (lines : list order_line) (db : database)
    : database :=
  match lines with
  | [] => db
  | l :: rest =>
      let db1 := insert_order_item oid (ol_isbn l) (ol_quantity l)
                                   (ol_unit_price l) db in
      let db2 := update_stock (ol_isbn l) (- ol_quantity l) db1 in
      write_lines oid rest db2
  end.

(** The loop of lines 172-175: the stock of every line is read again;
    subscripting a missing row raises [TypeError]. *)
Fixpoint read_stocks (db : database) (lines : list order_line)
    : result (list (string * Z)) :=
  match lines with
  | [] => Ok []
  | l :: rest =>
      match books db !! ol_isbn l with
      | None => Raise TypeError
      | Some b =>
          bind (read_stocks db rest) (fun tl => Ok ((title b, stock b) :: tl))
      end
  end.

(** The body of the [with get_db_cursor() as cursor] block of
    [create_order_safe] (lines 92-178). *)
Definition order_transaction (cid : Z) (items : list item) (db : database)
    : result reply * database :=
  match customers db !! cid with
  | None => (Ok (CustomerNotFound cid), db)
  | Some c =>
      match validate_items db items 0%Q [] with
      | Rejected r => (Ok r, db)
      | Accepted total lines =>
          let '(oid, db1) := insert_order cid total "completed" db in
          let db2 := write_lines oid lines db1 in
          match select_order oid db2 with
          | None => (Ok (OrderNotVerified oid), db2)
          | Some _ =>
              match read_stocks db2 lines with
              | Raise e => (Raise e, db2)
              | Ok stocks =>
                  (Ok (OrderCreated oid (name c) total lines stocks), db2)
              end
          end
      end
  end.

(** The names bound at module level in [tools.py] by its import
    statements (lines 1-10) and its own definitions. *)
Definition tools_globals : list string :=
  [ "sqlite3"; "logging"; "List"; "Dict"; "Any"; "Optional"; "Decimal";
    "datetime"; "tool"; "BaseModel"; "Field"; "get_db_cursor"; "logger";
    "FindBooksInput"; "CreateOrderInput"; "RestockBookInput";
    "UpdatePriceInput"; "OrderStatusInput"; "SearchKnowledgeInput";
    "find_books_tool"; "create_order_safe"; "create_order_tool";
    "restock_book_tool"; "update_price_tool"; "order_status_tool";
    "inventory_summary_tool"; "search_knowledge_base_tool";
    "list_customers_tool"; "test_tools" ]%string.

(** Evaluating a global name. *)
Definition lookup_global (globals : list string) (x : string) : result unit :=
  if existsb (String.eqb x) globals then Ok tt else Raise (NameError x).

(** [needle in haystack] on strings. *)
Definition contains (needle haystack : string) : bool :=
  match String.index 0 needle haystack with
  | Some _ => true
  | None => false
  end.

(** What a call of [create_order_safe] leaves behind: its result, the
    committed data and the number of transactions it opened. *)
Record outcome : Type := mkOutcome {
  out_result : result reply;
  out_db : database;
  out_attempts : nat
}.

(** [create_order_safe] (lines 88-191). [globals] is the module namespace,
    [depth] the number of Python frames left before [RecursionError],
    [evs] what the storage layer does to the successive transactions
    (quiet once the list is used up). An exception raised inside an
    [except] clause is not caught by the clauses next to it. *)
Fixpoint create_order_safe (globals : list string) (depth : nat)
    (evs : list storage_event) (cid : Z) (items : list item) (db : database)
    : outcome :=
  match depth with
  | O => mkOutcome (Raise RecursionError) db 0
  | S depth' =>
      match get_db_cursor (hd Quiet evs) db (order_transaction cid items) with
      | (Ok r, db') => mkOutcome (Ok r) db' 1
      | (Raise (OperationalError msg), db') =>
          if contains database_is_locked msg then
            (* time.sleep(0.1) *)
            match lookup_global globals "time" with
            | Raise e => mkOutcome (Raise e) db' 1
            | Ok _ =>
                let o := create_order_safe globals depth' (tl evs) cid items db' in
                mkOutcome
                  (try_except (out_result o) (fun e => Ok (ErrorAfterRetry e)))
                  (out_db o) (S (out_attempts o))
            end
          else mkOutcome (Ok (DatabaseError msg)) db' 1
      | (Raise e, db') => mkOutcome (Ok (ErrorCreatingOrder e)) db' 1
      end
  end.

(** [create_order_tool] (lines 198-201; the statements after its [return]
    are never reached). *)
Definition create_order_tool (depth : nat) (evs : list storage_event)
    (cid : Z) (items : list item) (db : database) : outcome :=
  create_order_safe tools_globals depth evs cid items db.

(** The [with] block of [restock_book_tool] (lines 309-333). *)
Definition restock_transaction (s : string) (q : Z) (db : database)
    : result reply * database :=
  match books db !! s with
  | None => (Ok (BookNotFound s), db)
  | Some b =>
      let db1 := update_stock s q db in
      match books db1 !! s with
      | None => (Raise TypeError, db1)
      | Some b' => (Ok (Restocked (title b) q (stock b) (stock b')), db1)
      end
  end.

(** [restock_book_tool] (lines 305-338). *)
Definition restock_book_tool (ev : storage_event) (s : string) (q : Z)
    (db : database) : reply * database :=
  match get_db_cursor ev db (restock_transaction s q) with
  | (Ok r, db') => (r, db')
  | (Raise e, db') => (ErrorRestocking e, db')
  end.

(** The [with] block of [update_price_tool] (lines 344-366). *)
Definition price_transaction (s : string) (p : Q) (db : database)
    : result reply * database :=
  match books db !! s with
  | None => (Ok (BookNotFound s), db)
  | Some b => (Ok (PriceUpdated (title b) (price b) p), update_price s p db)
  end.

(** [update_price_tool] (lines 340-371). *)
Definition update_price_tool (ev : storage_event) (s : string) (p : Q)
    (db : database) : reply * database :=
  match get_db_cursor ev db (price_transaction s p) with
  | (Ok r, db') => (r, db')
  | (Raise e, db') => (ErrorUpdatingPrice e, db')
  end.

(** Field constraints of the argument schemas (lines 27-33): [ge=1] on the
    restock quantity, [ge=0] on the new price. *)
Definition RestockBookInput (q : Z) : result Z :=
  if 1 <=? q then Ok q else Raise (ValidationError "quantity").

Definition UpdatePriceInput (p : Q) : result Q :=
  if Qle_bool 0 p then Ok p else Raise (ValidationError "new_price").

End Tools.
Import Tools.

(* ===================================================================== *)
(** ** Vocabulary of the specification of the order transaction *)
(* ===================================================================== *)

Module OrderSpec.

(** The quantity a request asks of item [s], over all its lines. *)
Fixpoint requested (s : string) (items : list item) : Z :=
  match items with
  | [] => 0
  | it :: rest =>
      (if decide (isbn it = Some s) then default 0 (quantity it) else 0)
      + requested s rest
  end.

(** Unit price times quantity of one line, at the catalogue's price, as
    a float. *)
Definition line_amount (db : database) (it : item) : Q :=
  match isbn it, quantity it with
  | Some s, Some q =>
      match books db !! s with
      | Some b => fmul (price b) q
      | None => 0%Q
      end
  | _, _ => 0%Q
  end.

(** The sum of the line amounts, added as floats in request order. *)
Definition order_total (db : database) (items : list item) : Q :=
  fold_left (fun acc it => fadd acc (line_amount db it)) items 0%Q.

(** The sum over the lines of unit price times quantity, as the
    specification words it: in exact arithmetic. *)
Definition exact_total (db : database) (items : list item) : Q :=
  fold_left
    (fun acc it =>
       match isbn it, quantity it with
       | Some s, Some q =>
           match books db !! s with
           | Some b => (acc + price b * inject_Z q)%Q
           | None => acc
           end
       | _, _ => acc
       end)
    items 0%Q.

(** The amount of a request: the sum over its lines of the magnitude of
    unit price times quantity, in exact arithmetic. *)
Definition order_volume (db : database) (items : list item) : Q :=
  fold_left
    (fun acc it =>
       match isbn it, quantity it with
       | Some s, Some q =>
           match books db !! s with
           | Some b => (acc + Qabs (price b) * inject_Z q)%Q
           | None => acc
           end
       | _, _ => acc
       end)
    items 0%Q.

(** A request whose numbers stay where SQLite and Python compute as the
    model does: the id of the new order and the stocks the order leaves
    fit the 64 bits of an INTEGER, and the amount stays below 2^53, where
    the ints that Python reads for integral prices and its floats
    agree. *)
Definition within_range (db : database) (items : list item) : Prop :=
  int64 (last_order_id db + 1) /\
  (forall s b, books db !! s = Some b -> int64 (stock b - requested s items)) /\
  (order_volume db items < inject_Z (2 ^ 53))%Q.

(** A line that names a catalogue item and asks a positive quantity of at
    most its stock. *)
Definition line_ok (db : database) (it : item) : Prop :=
  exists s q b,
    isbn it = Some s /\ s <> EmptyString /\ quantity it = Some q /\
    books db !! s = Some b /\ 0 < q /\ q <= stock b.

(** The three ways a line fails: it asks more than the stock, its item is
    missing, or its quantity is not positive. *)
Definition exceeds_stock (db : database) (it : item) : Prop :=
  exists s q b,
    isbn it = Some s /\ quantity it = Some q /\
    books db !! s = Some b /\ stock b < q.

Definition item_missing (db : database) (it : item) : Prop :=
  match isbn it with
  | Some s => books db !! s = None
  | None => True
  end.

Definition quantity_not_positive (it : item) : Prop :=
  match quantity it with
  | Some q => q <= 0
  | None => True
  end.

Definition line_fails (db : database) (it : item) : Prop :=
  exceeds_stock db it \/ item_missing db it \/ quantity_not_positive it.

Definition bad_request (db : database) (cid : Z) (items : list item) : Prop :=
  customers db !! cid = None \/ Exists (line_fails db) items.

(** The entry of [order_items] that the validation loop builds for a line. *)
Definition line_of (db : database) (it : item) : order_line :=
  let s := default EmptyString (isbn it) in
  let q := default 0 (quantity it) in
  match books db !! s with
  | Some b => mkLine s (title b) q (price b) (fmul (price b) q)
  | None => mkLine s EmptyString q 0%Q 0%Q
  end.

(** The quantity a list of accepted lines takes from item [s]. *)
Fixpoint taken (s : string) (lines : list order_line) : Z :=
  match lines with
  | [] => 0
  | l :: rest =>
      (if decide (ol_isbn l = s) then ol_quantity l else 0) + taken s rest
  end.

(** The catalogue of the scenarios of the specification: item X with
    stock 5 and price 10.00, one customer. *)
Definition scenario_db : database :=
  mkDb {[ "X"%string := mkBook "X" "an author" (10 # 1) 5 ]}
       {[ 1 := mkCustomer "a customer" "customer@example.org" ]}
       [] [] 0.

Definition line (s : string) (q : Z) : item := mkItem (Some s) (Some q).

(** The same catalogue with the item at the price 0.1, and with a second
    item whose ISBN is the empty string. *)
Definition tenth_db : database :=
  mkDb {[ "X"%string := mkBook "X" "an author" tenth 5 ]}
       {[ 1 := mkCustomer "a customer" "customer@example.org" ]}
       [] [] 0.

Definition nameless_db : database :=
  mkDb {[ EmptyString := mkBook "untitled" "an author" (10 # 1) 5 ]}
       {[ 1 := mkCustomer "a customer" "customer@example.org" ]}
       [] [] 0.

End OrderSpec.
Import OrderSpec.

(* ===================================================================== *)
(** ** Python values read from JSON, and texts *)
(* ===================================================================== *)

Module Json.

(** A text is the list of its characters (code points below 256). *)
Definition str : Type := list ascii.

Definition text (s : string) : str := list_ascii_of_string s.

(** The values [json.loads] builds: [None], [bool], [int], [float], [str],
    [list] and [dict] (keys in insertion order). *)
Inductive json : Type :=
| JNull
| JBool (b : bool)
| JInt (z : Z)
| JFloat (q : Q)
| JString (s : string)
| JArray (items : list json)
| JObject (members : list (string * json)).

(** The empty dict [{}]. *)
Definition empty_object : json := JObject [].

(** [d.get(key)] on the members of a dict. *)
Fixpoint dict_get (key : string) (members : list (string * json)) : option json :=
  match members with
  | [] => None
  | (k, v) :: rest => if String.eqb k key then Some v else dict_get key rest
  end.

(** [d[key] = v]: replaces the value of a present key in place, appends a
    new key. *)
Fixpoint dict_set (key : string) (v : json) (members : list (string * json))
    : list (string * json) :=
  match members with
  | [] => [(key, v)]
  | (k, v') :: rest =>
      if String.eqb k key then (k, v) :: rest
      else (k, v') :: dict_set key v rest
  end.

(** Python truth value. *)
Definition truthy (v : json) : bool :=
  match v with
  | JNull => false
  | JBool b => b
  | JInt z => negb (z =? 0)
  | JFloat q => negb (Qeq_bool q 0)
  | JString s => negb (String.eqb s EmptyString)
  | JArray l => match l with [] => false | _ => true end
  | JObject m => match m with [] => false | _ => true end
  end.

(** Lists and dicts cannot be hashed. *)
Definition hashable (v : json) : bool :=
  match v with
  | JArray _ | JObject _ => false
  | _ => true
  end.

Definition is_container (v : json) : bool :=
  match v with
  | JArray _ | JObject _ => true
  | _ => false
  end.

(** *** A reference decoder

    [json.loads] belongs to the standard library of Python; the extractor
    below takes the decoder as a parameter. [loads] is a decoder for the
    JSON grammar of RFC 8259 (numbers without fraction and exponent decode
    to [JInt], the others to [JFloat]; the last of two equal keys wins),
    used to evaluate the extractor on concrete texts. The tokens NaN and
    Infinity and escapes of code points above 255 are outside it. *)

Definition quote : ascii := ascii_of_nat 34.
Definition backslash : ascii := ascii_of_nat 92.

(** Reads a text written with ' in place of the double quote. *)
Definition js (s : string) : str :=
  map (fun c => if Ascii.eqb c "'" then quote else c) (list_ascii_of_string s).

Definition is_json_ws (c : ascii) : bool :=
  let n := nat_of_ascii c in
  (n =? 32)%nat || (n =? 9)%nat || (n =? 10)%nat || (n =? 13)%nat.

Fixpoint skip_ws (s : str) : str :=
  match s with
  | c :: rest => if is_json_ws c then skip_ws rest else s
  | [] => []
  end.

Definition digit_of (c : ascii) : option Z :=
  let n := nat_of_ascii c in
  if (48 <=? n)%nat && (n <=? 57)%nat then Some (Z.of_nat n - 48) else None.

(** Leading digits of [s]: their value from accumulator [acc], their
    number, and the rest of the text. *)
Fixpoint read_digits (s : str) (acc : Z) (n : nat) : Z * nat * str :=
  match s with
  | c :: rest =>
      match digit_of c with
      | Some d => read_digits rest (10 * acc + d) (S n)
      | None => (acc, n, s)
      end
  | [] => (acc, n, [])
  end.

Definition pow10 (e : Z) : Q :=
  if 0 <=? e then inject_Z (10 ^ e) else (1 # Z.to_pos (10 ^ (- e)))%Q.

(** number = [-] int [frac] [exp] *)
Definition read_number (s : str) : option (json * str) :=
  let '(neg, s1) := match s with
                    | "-"%char :: r => (true, r)
                    | _ => (false, s)
                    end in
  let int_part :=
    match s1 with
    | "0"%char :: r => Some (0, r)
    | c :: _ =>
        match digit_of c with
        | Some _ => let '(v, _, r) := read_digits s1 0 0 in Some (v, r)
        | None => None
        end
    | [] => None
    end in
  match int_part with
  | None => None
  | Some (iv, s2) =>
      let frac :=
        match s2 with
        | "."%char :: r =>
            let '(v, n, r') := read_digits r iv 0 in
            match n with
            | O => None
            | _ => Some (Some (v, Z.of_nat n), r')
            end
        | _ => Some (None, s2)
        end in
      match frac with
      | None => None
      | Some (fr, s3) =>
          let expo :=
            match s3 with
            | c :: r =>
                if Ascii.eqb c "e" || Ascii.eqb c "E" then
                  let '(eneg, r1) := match r with
                                     | "-"%char :: r' => (true, r')
                                     | "+"%char :: r' => (false, r')
                                     | _ => (false, r)
                                     end in
                  let '(v, n, r2) := read_digits r1 0 0 in
                  match n with
                  | O => None
                  | _ => Some (Some (if eneg then - v else v), r2)
                  end
                else Some (None, s3)
            | [] => Some (None, s3)
            end in
          match expo with
          | None => None
          | Some (ex, s4) =>
              let sign (z : Z) := if neg then - z else z in
              match fr, ex with
              | None, None => Some (JInt (sign iv), s4)
              | _, _ =>
                  let '(mant, scale) := match fr with
                                        | Some (v, n) => (v, n)
                                        | None => (iv, 0)
                                        end in
                  let e := match ex with Some e => e | None => 0 end in
                  Some (JFloat (inject_Z (sign mant) * pow10 (e - scale))%Q, s4)
              end
          end
      end
  end.

Definition hex_of (c : ascii) : option nat :=
  let n := nat_of_ascii c in
  if (48 <=? n)%nat && (n <=? 57)%nat then Some (n - 48)%nat
  else if (97 <=? n)%nat && (n <=? 102)%nat then Some (n - 87)%nat
  else if (65 <=? n)%nat && (n <=? 70)%nat then Some (n - 55)%nat
  else None.

(** The characters of a string literal after its opening quote. *)
Fixpoint read_string (s : str) (acc : list ascii) : option (string * str) :=
  match s with
  | [] => None
  | c :: rest =>
      if Ascii.eqb c quote then Some (string_of_list_ascii (rev acc), rest)
      else if Ascii.eqb c backslash then
        match rest with
        | e :: rest' =>
            let plain (d : ascii) := read_string rest' (d :: acc) in
            if Ascii.eqb e quote then plain quote
            else if Ascii.eqb e backslash then plain backslash
            else if Ascii.eqb e "/" then plain "/"%char
            else if Ascii.eqb e "b" then plain (ascii_of_nat 8)
            else if Ascii.eqb e "f" then plain (ascii_of_nat 12)
            else if Ascii.eqb e "n" then plain (ascii_of_nat 10)
            else if Ascii.eqb e "r" then plain (ascii_of_nat 13)
            else if Ascii.eqb e "t" then plain (ascii_of_nat 9)
            else if Ascii.eqb e "u" then
              match rest' with
              | h1 :: h2 :: h3 :: h4 :: rest'' =>
                  match hex_of h1, hex_of h2, hex_of h3, hex_of h4 with
                  | Some 0%nat, Some 0%nat, Some a, Some b =>
                      read_string rest'' (ascii_of_nat (16 * a + b) :: acc)
                  | _, _, _, _ => None
                  end
              | _ => None
              end
            else None
        | [] => None
        end
      else if (nat_of_ascii c <? 32)%nat then None
      else read_string rest (c :: acc)
  end.

Fixpoint strip_prefix (p s : str) : option str :=
  match p, s with
  | [], _ => Some s
  | a :: p', b :: s' => if Ascii.eqb a b then strip_prefix p' s' else None
  | _ :: _, [] => None
  end.

(** elements = value *( "," value ) "]" *)
Fixpoint read_elements (fuel : nat) (value : str -> option (json * str))
    (s : str) (acc : list json) : option (list json * str) :=
  match fuel with
  | O => None
  | S fuel' =>
      match value s with
      | Some (v, r) =>
          match skip_ws r with
          | ","%char :: r' => read_elements fuel' value r' (acc ++ [v])
          | "]"%char :: r' => Some (acc ++ [v], r')
          | _ => None
          end
      | None => None
      end
  end.

(** members = string ":" value *( "," string ":" value ) "}" *)
Fixpoint read_members (fuel : nat) (value : str -> option (json * str))
    (s : str) (acc : list (string * json))
    : option (list (string * json) * str) :=
  match fuel with
  | O => None
  | S fuel' =>
      match skip_ws s with
      | c :: r =>
          if Ascii.eqb c quote then
            match read_string r [] with
            | Some (k, r1) =>
                match skip_ws r1 with
                | ":"%char :: r2 =>
                    match value r2 with
                    | Some (v, r3) =>
                        match skip_ws r3 with
                        | ","%char :: r4 =>
                            read_members fuel' value r4 (dict_set k v acc)
                        | "}"%char :: r4 => Some (dict_set k v acc, r4)
                        | _ => None
                        end
                    | None => None
                    end
                | _ => None
                end
            | None => None
            end
          else None
      | [] => None
      end
  end.

(** value, with leading whitespace *)
Fixpoint read_value (fuel : nat) (s : str) : option (json * str) :=
  match fuel with
  | O => None
  | S fuel' =>
      match skip_ws s with
      | [] => None
      | c :: r =>
          if Ascii.eqb c "[" then
            match skip_ws r with
            | "]"%char :: r' => Some (JArray [], r')
            | _ =>
                match read_elements fuel' (read_value fuel') r [] with
                | Some (l, r') => Some (JArray l, r')
                | None => None
                end
            end
          else if Ascii.eqb c "{" then
            match skip_ws r with
            | "}"%char :: r' => Some (JObject [], r')
            | _ =>
                match read_members fuel' (read_value fuel') r [] with
                | Some (m, r') => Some (JObject m, r')
                | None => None
                end
            end
          else if Ascii.eqb c quote then
            match read_string r [] with
            | Some (k, r') => Some (JString k, r')
            | None => None
            end
          else
            match strip_prefix (text "true") (c :: r) with
            | Some r' => Some (JBool true, r')
            | None =>
                match strip_prefix (text "false") (c :: r) with
                | Some r' => Some (JBool false, r')
                | None =>
                    match strip_prefix (text "null") (c :: r) with
                    | Some r' => Some (JNull, r')
                    | None => read_number (c :: r)
                    end
                end
            end
      end
  end.

(** One value, then nothing but whitespace. *)
Definition loads (s : str) : result json :=
  match read_value (S (length s)) s with
  | Some (v, r) =>
      match skip_ws r with
      | [] => Ok v
      | _ => Raise JSONDecodeError
      end
  | None => Raise JSONDecodeError
  end.

End Json.
Import Json.

(* ===================================================================== *)
(** ** The response extractor: [GeminiAgent._parse_json_response] *)
(* ===================================================================== *)

Module Extractor.

(** [str.isspace] on code points below 256. *)
Definition is_space (c : ascii) : bool :=
  let n := nat_of_ascii c in
  ((9 <=? n)%nat && (n <=? 13)%nat) || ((28 <=? n)%nat && (n <=? 32)%nat)
  || (n =? 133)%nat || (n =? 160)%nat.

Fixpoint lstrip (s : str) : str :=
  match s with
  | c :: rest => if is_space c then lstrip rest else s
  | [] => []
  end.

Definition rstrip (s : str) : str := rev (lstrip (rev s)).

(** [s.strip()] *)
Definition strip (s : str) : str := rstrip (lstrip s).

(** [s.startswith(p)] *)
Fixpoint startswith (p s : str) : bool :=
  match p, s with
  | [], _ => true
  | a :: p', b :: s' => Ascii.eqb a b && startswith p' s'
  | _ :: _, [] => false
  end.

(** [s.endswith(p)] *)
Definition endswith (p s : str) : bool := startswith (rev p) (rev s).

Definition fence : str := text "```".
Definition fence_json : str := text "```json".

(** Lines 325-332: strip, drop a leading [```json], drop a trailing
    [```], strip again. *)
Definition clean (t : str) : str :=
  let cleaned_text := strip t in
  let cleaned_text :=
    if startswith fence_json cleaned_text then drop 7 cleaned_text
    else cleaned_text in
  let cleaned_text :=
    if endswith fence cleaned_text
    then take (length cleaned_text - 3) cleaned_text
    else cleaned_text in
  strip cleaned_text.

(** [s.find(c)]: the index of the first [c]; [None] stands for -1. *)
Fixpoint find_char (c : ascii) (s : str) : option nat :=
  match s with
  | [] => None
  | d :: rest =>
      if Ascii.eqb d c then Some O
      else match find_char c rest with
           | Some i => Some (S i)
           | None => None
           end
  end.

(** The two loops of lines 349-367, on the characters from index [i] on:
    [count] is [bracket_count] (or [brace_count]); the result is
    [end_idx], when the loop assigns it. *)
Fixpoint scan (opening closing : ascii) (rest : str) (i : nat) (count : Z)
    : option nat :=
  match rest with
  | [] => None
  | c :: rest' =>
      if Ascii.eqb c opening then scan opening closing rest' (S i) (count + 1)
      else if Ascii.eqb c closing then
        if count - 1 =? 0 then Some (i + 1)%nat
        else scan opening closing rest' (S i) (count - 1)
      else scan opening closing rest' (S i) count
  end.

(** Lines 342-344: the array start is looked for first, the object start
    only when the text has no array start. *)
Definition find_start (cleaned_text : str) : option nat :=
  match find_char "[" cleaned_text with
  | Some i => Some i
  | None => find_char "{" cleaned_text
  end.

(** Lines 346-370: [json_str], when the scan reaches the balancing
    bracket. *)
Definition bracket_slice (cleaned_text : str) : option str :=
  match find_start cleaned_text with
  | None => None
  | Some start_idx =>
      let end_idx :=
        match cleaned_text !! start_idx with
        | Some c =>
            if Ascii.eqb c "["
            then scan "[" "]" (drop start_idx cleaned_text) start_idx 0
            else scan "{" "}" (drop start_idx cleaned_text) start_idx 0
        | None => None
        end in
      match end_idx with
      | Some e =>
          if (start_idx <? e)%nat
          then Some (take (e - start_idx) (drop start_idx cleaned_text))
          else None
      | None => None
      end
  end.

Section WithDecoder.

(** [json.loads]: a value, [JSONDecodeError], or another exception. *)
Variable json_loads : str -> result json.

(** The statements of the outer [try] block (lines 324-375). *)
Definition parse_body (t : str) : result json :=
  let cleaned_text := clean t in
  match json_loads cleaned_text with
  | Ok parsed => Ok parsed
  | Raise JSONDecodeError =>
      match bracket_slice cleaned_text with
      | Some json_str => json_loads json_str
      | None => Ok empty_object
      end
  | Raise e => Raise e
  end.

(** [_parse_json_response] (lines 321-380). *)
Definition _parse_json_response (t : str) : result json :=
  try_except (parse_body t) (fun _ => Ok empty_object).

(** A text from which the extractor gets a value out of the decoder:
    either the cleaned text decodes, or its bracketed slice does. *)
Definition decodes (s : str) : bool :=
  match json_loads s with
  | Ok _ => true
  | Raise _ => false
  end.

Definition extractable (t : str) : bool :=
  decodes (clean t)
  || match json_loads (clean t), bracket_slice (clean t) with
     | Raise JSONDecodeError, Some json_str => decodes json_str
     | _, _ => false
     end.

(** All the slices [s[i:j]] of a text that begin with a bracket and decode
    to a list or a dict, with their bounds. *)
Definition embedded_containers (s : str) : list (nat * nat * json) :=
  flat_map (fun i =>
    flat_map (fun len =>
      let slice := take len (drop i s) in
      match head slice, last slice, json_loads slice with
      | Some a, Some z, Ok v =>
          if negb (is_json_ws a) && negb (is_json_ws z) && is_container v
          then [(i, (i + len)%nat, v)] else []
      | _, _, _ => []
      end) (seq 1 (length s - i)))
    (seq 0 (length s)).

(** All the slices [s[i:j]] of a text that begin with a bracket. *)
Definition bracketed_slices (s : str) : list str :=
  flat_map (fun i =>
    match s !! i with
    | Some c =>
        if Ascii.eqb c "[" || Ascii.eqb c "{"
        then map (fun len => take len (drop i s)) (seq 1 (length s - i))
        else []
    | None => []
    end)
    (seq 0 (length s)).

(** A text in which the decoder finds nothing: it accepts neither the
    cleaned text as a whole nor any slice of it that begins with a
    bracket. *)
Definition nothing_decodes (t : str) : bool :=
  negb (decodes (clean t))
  && forallb (fun slice => negb (decodes slice)) (bracketed_slices (clean t)).

End WithDecoder.

(** *** Vocabulary of the round-trip property *)

(** Opening brackets minus closing brackets. *)
Definition nesting (opening closing : ascii) (s : str) : Z :=
  Z.of_nat (count_occ ascii_dec s opening)
  - Z.of_nat (count_occ ascii_dec s closing).

(** [c in s] *)
Definition occurs (c : ascii) (s : str) : bool := existsb (Ascii.eqb c) s.

(** A bracketed block: it starts with the opening bracket, its brackets
    balance, and they balance in no shorter non-empty prefix. *)
Definition block (opening closing : ascii) (s : str) : bool :=
  match s with
  | c :: _ => Ascii.eqb c opening
  | [] => false
  end
  && (nesting opening closing s =? 0)
  && forallb (fun k => 0 <? nesting opening closing (take k s))
             (seq 1 (length s - 1)).

(** An opening bracket that is never balanced: every non-empty prefix
    has more opening than closing brackets. *)
Definition unclosed (opening closing : ascii) (s : str) : bool :=
  forallb (fun k => 0 <? nesting opening closing (take k s))
          (seq 1 (length s)).

(** A text without white space at either end. *)
Definition trimmed (s : str) : bool :=
  match head s, last s with
  | Some a, Some z => negb (is_space a) && negb (is_space z)
  | _, _ => true
  end.

(** The round-trip property as the specification words it: a text with
    exactly one embedded list or dict is extracted to that value. *)
Definition round_trip (json_loads : str -> result json) : Prop :=
  forall t i j v,
    embedded_containers json_loads t = [(i, j, v)] ->
    _parse_json_response json_loads t = Ok v.

End Extractor.
Import Extractor.

(* ===================================================================== *)
(** ** The operation executor: [GeminiAgent.execute_tools] *)
(* ===================================================================== *)

Module Executor.

(** A tool decision is a dict; so is every operation result. *)
Definition decision : Type := list (string * json).

Section WithTools.

(** [world] is what the tools act on, [output] the text a tool returns. *)
Context {world output : Type}.

(** [tool.run(parameters)]: a text or an exception, and the world after. *)
Definition tool : Type := json -> world -> result output * world.

(** [self.tools] (lines 38-47). *)
Definition registry : Type := list (string * tool).

(** The texts the executor puts in a result, one constructor per f-string
    of lines 137, 167 and 184, and the text of the tool itself. *)
Inductive message : Type :=
| ToolOutput (o : output)
| NonPositiveRestock (quantity : option json)
      (* Cannot use restock_book with non-positive quantity: .. *)
| ErrorExecuting (tool_name : string) (e : exn)
      (* Error executing tool ..: .. *)
| UnknownTool (tool_name : option json).
      (* Unknown tool: .. *)

(** The dict appended to [results]. *)
Record tool_result : Type := mkResult {
  tr_tool_name : option json;
  tr_result : message;
  tr_success : bool
}.

(** The dict appended to [self.tool_usage_history]. *)
Record usage_record : Type := mkUsage {
  ur_tool_name : string;
  ur_parameters : json;
  ur_result : message;
  ur_success : bool
}.

(** The mutable part of the agent: its usage history and the world its
    tools act on. *)
Record agent : Type := mkAgent {
  tool_usage_history : list usage_record;
  state : world
}.

Fixpoint registry_get (name : string) (tools : registry) : option tool :=
  match tools with
  | [] => None
  | (k, t) :: rest => if String.eqb k name then Some t else registry_get name rest
  end.

(** [tool_name in self.tools]: only a string equals a key; hashing a list
    or a dict raises [TypeError]. The result carries the key and
    [self.tools[tool_name]]. *)
Definition registered (tools : registry) (tool_name : option json)
    : result (option (string * tool)) :=
  match tool_name with
  | None => Ok None
  | Some (JString s) =>
      Ok (match registry_get s tools with
          | Some t => Some (s, t)
          | None => None
          end)
  | Some v => if hashable v then Ok None else Raise TypeError
  end.

(** [parameters.get(key, default)]; only a dict has [get]. *)
Definition params_get (parameters : json) (key : string) (dflt : json)
    : result json :=
  match parameters with
  | JObject m => Ok (default dflt (dict_get key m))
  | _ => Raise AttributeError
  end.

(** [v <= 0]; [bool] is an [int], other types do not compare with 0. *)
Definition le_zero (v : json) : result bool :=
  match v with
  | JInt z => Ok (z <=? 0)
  | JBool b => Ok (negb b)
  | JFloat q => Ok (Qle_bool q 0)
  | _ => Raise TypeError
  end.

(** The condition of line 136. *)
Definition restock_rejected (name : string) (parameters : json) : result bool :=
  if String.eqb name "restock_book"
  then bind (params_get parameters "quantity" (JInt 0)) le_zero
  else Ok false.

(** [parameters.get('quantity')] in the message of line 137. *)
Definition quantity_of (parameters : json) : option json :=
  match parameters with
  | JObject m => dict_get "quantity" m
  | _ => None
  end.

(** The [except] clause of lines 166-182. *)
Definition on_exception (tool_name : option json) (name : string)
    (parameters : json) (e : exn) (a : agent) : tool_result * agent :=
  let error_msg := ErrorExecuting name e in
  (mkResult tool_name error_msg false,
   mkAgent (tool_usage_history a ++ [mkUsage name parameters error_msg false])
           (state a)).

(** One turn of the loop of lines 127-190. The exception of the result,
    if any, is one that leaves [execute_tools]. *)
Definition execute_tool (tools : registry) (tool_decision : decision)
    (a : agent) : result tool_result * agent :=
  let tool_name := dict_get "tool_name" tool_decision in
  let parameters := default (JObject []) (dict_get "parameters" tool_decision) in
  match registered tools tool_name with
  | Raise e => (Raise e, a)
  | Ok None => (Ok (mkResult tool_name (UnknownTool tool_name) false), a)
  | Ok (Some (name, run)) =>
      match restock_rejected name parameters with
      | Raise e =>
          let '(r, a') := on_exception tool_name name parameters e a in (Ok r, a')
      | Ok true =>
          (Ok (mkResult tool_name (NonPositiveRestock (quantity_of parameters))
                        false), a)
      | Ok false =>
          match run parameters (state a) with
          | (Ok tool_out, w') =>
              (Ok (mkResult tool_name (ToolOutput tool_out) true),
               mkAgent (tool_usage_history a
                        ++ [mkUsage name parameters (ToolOutput tool_out) true])
                       w')
          | (Raise e, w') =>
              let '(r, a') :=
                on_exception tool_name name parameters e
                             (mkAgent (tool_usage_history a) w') in
              (Ok r, a')
          end
      end
  end.

(** The loop; [results] is the list built so far. *)
Fixpoint execute_loop (tools : registry) (tool_decisions : list decision)
    (results : list tool_result) (a : agent)
    : result (list tool_result) * agent :=
  match tool_decisions with
  | [] => (Ok results, a)
  | td :: rest =>
      match execute_tool tools td a with
      | (Ok r, a') => execute_loop tools rest (results ++ [r]) a'
      | (Raise e, a') => (Raise e, a')
      end
  end.

(** [execute_tools] (lines 123-192). *)
Definition execute_tools (tools : registry) (tool_decisions : list decision)
    (a : agent) : result (list tool_result) * agent :=
  execute_loop tools tool_decisions [] a.

(** *** Vocabulary of the specification *)

(** The calls for which the executor appends a usage record: those that
    name a registered tool and are not turned down by the restock check. *)
Definition recorded (tools : registry) (td : decision) : bool :=
  match registered tools (dict_get "tool_name" td) with
  | Ok (Some (name, _)) =>
      match restock_rejected name
              (default (JObject []) (dict_get "parameters" td)) with
      | Ok true => false
      | _ => true
      end
  | _ => false
  end.

(** The calls whose tool name can be looked up in the registry. *)
Definition well_named (td : decision) : bool :=
  match dict_get "tool_name" td with
  | Some v => hashable v
  | None => true
  end.

End WithTools.

Arguments tool : clear implicits.
Arguments registry : clear implicits.
Arguments message : clear implicits.
Arguments tool_result : clear implicits.
Arguments usage_record : clear implicits.
Arguments agent : clear implicits.

(** *** The tools of the agent *)

(** The data and what the storage layer will do to the transactions to
    come. *)
Record world : Type := mkWorld {
  world_db : database;
  world_events : list storage_event
}.

(** The text of a tool: a reply of the three catalogue operations, or the
    report of a read-only tool. *)
Inductive output (report : Type) : Type :=
| Reply (r : reply)
| Report (r : report).
Arguments Reply {report} r.
Arguments Report {report} r.

(** How [tool.run] reads the arguments of a call against the argument
    schema: the conversions of pydantic are not part of the repository. *)
Record readers : Type := mkReaders {
  as_int : json -> result Z;
  as_str : json -> result string;
  as_float : json -> result Q;
  as_items : json -> result (list item)
}.

(** A required field ([Field(...)]) of the arguments. *)
Definition required {A} (read : json -> result A) (field : string)
    (parameters : json) : result A :=
  match parameters with
  | JObject m =>
      match dict_get field m with
      | Some v => read v
      | None => Raise (ValidationError field)
      end
  | _ => Raise (ValidationError field)
  end.

Section AgentTools.

Context {report : Type}.
Variable rd : readers.
Variable depth : nat.

(** [create_order_tool.run]: [CreateOrderInput], then the function. *)
Definition run_create_order : tool world (output report) := fun parameters w =>
  match required (as_int rd) "customer_id" parameters,
        required (as_items rd) "items" parameters with
  | Ok cid, Ok items =>
      let o := create_order_tool depth (world_events w) cid items (world_db w) in
      (match out_result o with
       | Ok r => Ok (Reply r)
       | Raise e => Raise e
       end,
       mkWorld (out_db o) (drop (out_attempts o) (world_events w)))
  | Raise e, _ => (Raise e, w)
  | _, Raise e => (Raise e, w)
  end.

(** [restock_book_tool.run]: [RestockBookInput], then the function. *)
Definition run_restock_book : tool world (output report) := fun parameters w =>
  match required (as_str rd) "isbn" parameters,
        bind (required (as_int rd) "quantity" parameters) RestockBookInput with
  | Ok s, Ok q =>
      let '(r, db') := restock_book_tool (hd Quiet (world_events w)) s q (world_db w) in
      (Ok (Reply r), mkWorld db' (tl (world_events w)))
  | Raise e, _ => (Raise e, w)
  | _, Raise e => (Raise e, w)
  end.

(** [update_price_tool.run]: [UpdatePriceInput], then the function. *)
Definition run_update_price : tool world (output report) := fun parameters w =>
  match required (as_str rd) "isbn" parameters,
        bind (required (as_float rd) "new_price" parameters) UpdatePriceInput with
  | Ok s, Ok p =>
      let '(r, db') := update_price_tool (hd Quiet (world_events w)) s p (world_db w) in
      (Ok (Reply r), mkWorld db' (tl (world_events w)))
  | Raise e, _ => (Raise e, w)
  | _, Raise e => (Raise e, w)
  end.

(** The five tools that only read ([find_books], [order_status],
    [inventory_summary], [search_knowledge_base], [list_customers]) are
    taken as they come. *)
Variable read_only : string -> tool world (output report).

(** [self.tools] as [__init__] builds it. *)
Definition agent_tools : registry world (output report) :=
  [ ("find_books", read_only "find_books");
    ("create_order", run_create_order);
    ("restock_book", run_restock_book);
    ("update_price", run_update_price);
    ("order_status", read_only "order_status");
    ("inventory_summary", read_only "inventory_summary");
    ("search_knowledge_base", read_only "search_knowledge_base");
    ("list_customers", read_only "list_customers") ]%string.

End AgentTools.

(** *** Vocabulary of the specification of validation failures *)

(** The three operations on the catalogue. *)
Definition catalogue_operation (name : string) : bool :=
  String.eqb name "create_order" || String.eqb name "restock_book"
  || String.eqb name "update_price".

(** The parameters of a call read against the argument schema of its
    operation: the error of the first field that is refused. *)
Definition read_arguments (rd : readers) (name : string) (parameters : json)
    : result unit :=
  if String.eqb name "create_order" then
    bind (required (as_int rd) "customer_id" parameters) (fun _ =>
    bind (required (as_items rd) "items" parameters) (fun _ => Ok tt))
  else if String.eqb name "restock_book" then
    bind (required (as_str rd) "isbn" parameters) (fun _ =>
    bind (bind (required (as_int rd) "quantity" parameters) RestockBookInput)
         (fun _ => Ok tt))
  else if String.eqb name "update_price" then
    bind (required (as_str rd) "isbn" parameters) (fun _ =>
    bind (bind (required (as_float rd) "new_price" parameters) UpdatePriceInput)
         (fun _ => Ok tt))
  else Ok tt.

(** A call whose parameters the schema accepts and whose handler finds
    the failure itself: an order that is a bad request (customer or item
    not found, quantity not positive, stock too low), a restock or a price
    update of a book that the catalogue does not have. *)
Inductive turned_down (rd : readers) (db : database) : string -> json -> Prop :=
| order_turned_down parameters cid items :
    required (as_int rd) "customer_id" parameters = Ok cid ->
    required (as_items rd) "items" parameters = Ok items ->
    bad_request db cid items ->
    turned_down rd db "create_order" parameters
| restock_turned_down parameters s q :
    restock_rejected "restock_book" parameters = Ok false ->
    required (as_str rd) "isbn" parameters = Ok s ->
    bind (required (as_int rd) "quantity" parameters) RestockBookInput = Ok q ->
    books db !! s = None ->
    turned_down rd db "restock_book" parameters
| price_turned_down parameters s p :
    required (as_str rd) "isbn" parameters = Ok s ->
    bind (required (as_float rd) "new_price" parameters) UpdatePriceInput = Ok p ->
    books db !! s = None ->
    turned_down rd db "update_price" parameters.

(** Readers that accept the JSON value of the declared type and nothing
    else, and a read-only tool that reports its name: enough to run the
    executor on well-typed calls. The items of an order are read as the
    model holds them, with a string for ISBN and an integer for quantity;
    [CreateOrderInput] itself lets any dict through, and an item with a
    quantity of another type is outside the model. *)
Definition item_of_json (v : json) : result item :=
  match v with
  | JObject m =>
      match dict_get "isbn" m, dict_get "quantity" m with
      | (None | Some (JString _)), (None | Some (JInt _)) =>
          Ok (mkItem (match dict_get "isbn" m with
                      | Some (JString s) => Some s
                      | _ => None
                      end)
                     (match dict_get "quantity" m with
                      | Some (JInt q) => Some q
                      | _ => None
                      end))
      | _, _ => Raise (ValidationError "items")
      end
  | _ => Raise (ValidationError "items")
  end.

Fixpoint items_of_json (l : list json) : result (list item) :=
  match l with
  | [] => Ok []
  | v :: rest =>
      bind (item_of_json v) (fun it =>
      bind (items_of_json rest) (fun its => Ok (it :: its)))
  end.

Definition typed_readers : readers :=
  mkReaders
    (fun v => match v with JInt z => Ok z | _ => Raise (ValidationError "int") end)
    (fun v => match v with JString s => Ok s | _ => Raise (ValidationError "str") end)
    (fun v => match v with
              | JFloat q => Ok q
              | JInt z => Ok (inject_Z z)
              | _ => Raise (ValidationError "float")
              end)
    (fun v => match v with
              | JArray l => items_of_json l
              | _ => Raise (ValidationError "items")
              end).

Definition naming_tool : string -> tool world (output string) :=
  fun name _ w => (Ok (Report name), w).

Definition scenario_tools : registry world (output string) :=
  agent_tools typed_readers 100 naming_tool.

(** Result [r] put in front of what the rest of the loop returns. *)
Definition prepend {world output : Type} (r : tool_result output)
    (x : result (list (tool_result output)) * agent world output)
    : result (list (tool_result output)) * agent world output :=
  (match fst x with
   | Ok l => Ok (r :: l)
   | Raise e => Raise e
   end, snd x).

(** A call, written as the planning answer writes it. *)
Definition call (name : string) (parameters : list (string * json)) : decision :=
  [("tool_name", JString name); ("parameters", JObject parameters)]%string.

Definition order_call (cid : Z) (s : string) (q : Z) : decision :=
  call "create_order"
    [("customer_id", JInt cid);
     ("items", JArray [JObject [("isbn", JString s); ("quantity", JInt q)]])]%string.

(** The agent of the scenarios: no usage yet, the scenario catalogue, a
    quiet storage layer. *)
Definition scenario_agent : agent world (output string) :=
  mkAgent [] (mkWorld scenario_db []).

End Executor.
Import Executor.

(* ===================================================================== *)
(** ** The request orchestrator: [GeminiAgent.process_request] *)
(* ===================================================================== *)

Module Orchestrator.

Section Pipeline.

Context {world output : Type}.

(** [json.loads] and [self.tools]. *)
Variable json_loads : str -> result json.
Variable tools : registry world output.

(** The three prompts, by the values their f-strings interpolate. *)
Inductive prompt : Type :=
| AnalysisPrompt (user_request : str)
| ParameterPrompt (user_request : str) (tools_list : string)
| FinalPrompt (user_request : str) (reasoning : json)
              (tool_results : list (tool_result output)).

(** The completion service: [self.model.generate_content(prompt).text]. *)
Variable generate_content : prompt -> result str.

(** [str(e)]. *)
Variable exn_str : exn -> string.

(** The test of lines 274-275 on the text of a result: whether it
    mentions a locked or busy database. *)
Variable mentions_lock : message output -> bool.

(** [d.setdefault(key, v)] *)
Definition setdefault (key : string) (v : json) (members : list (string * json))
    : list (string * json) :=
  match dict_get key members with
  | Some _ => members
  | None => members ++ [(key, v)]
  end.

(** [analyze_request] (lines 54-121). *)
Definition analyze_request (user_request : str) : list (string * json) :=
  let body :=
    bind (generate_content (AnalysisPrompt user_request)) (fun response_text =>
    bind (_parse_json_response json_loads response_text) (fun analysis_result =>
      let analysis_result :=
        match analysis_result with
        | JArray (first :: _) => first
        | JArray [] => empty_object
        | v => v
        end in
      let members :=
        match analysis_result with
        | JObject m => m
        | _ => []
        end in
      Ok (setdefault "action_type" (JString "other")
         (setdefault "reasoning" (JString "Analysis completed")
         (setdefault "tools_needed" (JArray [])
         (setdefault "needs_tools" (JBool false) members)))))) in
  match body with
  | Ok members => members
  | Raise e =>
      [ ("needs_tools", JBool false);
        ("tools_needed", JArray []);
        ("reasoning", JString ("Error during analysis: " ++ exn_str e));
        ("action_type", JString "error") ]%string
  end.

(** The strings [", ".join(tools_needed)] iterates over: the elements of
    a list, the characters of a string, the keys of a dict; joining
    anything else raises [TypeError]. *)
Fixpoint all_strings (l : list json) : result (list string) :=
  match l with
  | [] => Ok []
  | JString s :: rest => bind (all_strings rest) (fun names => Ok (s :: names))
  | _ :: _ => Raise TypeError
  end.

Definition join_names (tools_needed : json) : result string :=
  match tools_needed with
  | JArray l => bind (all_strings l) (fun names => Ok (String.concat ", " names))
  | JString s =>
      Ok (String.concat ", "
            (map (fun c => String c EmptyString) (list_ascii_of_string s)))
  | JObject m => Ok (String.concat ", " (map fst m))
  | _ => Raise TypeError
  end.

(** [[t.get('tool_name') for t in tool_decisions]] of line 261: every
    element must have [get]. *)
Fixpoint all_dicts (l : list json) : result (list decision) :=
  match l with
  | [] => Ok []
  | JObject m :: rest => bind (all_dicts rest) (fun tds => Ok (m :: tds))
  | _ :: _ => Raise AttributeError
  end.

(** [determine_tool_parameters] (lines 194-266); the join of line 199 is
    outside the [try]. *)
Definition determine_tool_parameters (user_request : str) (tools_needed : json)
    : result (list decision) :=
  if negb (truthy tools_needed) then Ok []
  else
    bind (join_names tools_needed) (fun tools_list =>
      let body :=
        bind (generate_content (ParameterPrompt user_request tools_list))
             (fun response_text =>
        bind (_parse_json_response json_loads response_text)
             (fun tool_decisions =>
          let tool_decisions :=
            match tool_decisions with
            | JNull => []
            | JObject m => [JObject m]
            | JArray l => l
            | _ => []
            end in
          all_dicts tool_decisions)) in
      Ok (match body with
          | Ok tool_decisions => tool_decisions
          | Raise _ => []
          end)).

(** The final text of a turn. *)
Inductive final_text : Type :=
| HighTraffic            (* I'm experiencing high database traffic .. *)
| Synthesised (t : str)  (* response.text.strip() *)
| Apology                (* I apologize, but I encountered an error .. *)
| Errored (e : exn).     (* I encountered an error while processing your
                            request: ... Please try again. *)

(** [generate_final_response] (lines 268-319). *)
Definition generate_final_response (user_request : str)
    (tool_results : list (tool_result output))
    (analysis : list (string * json)) : final_text :=
  if existsb (fun r => mentions_lock (tr_result r)) tool_results
  then HighTraffic
  else
    match generate_content
            (FinalPrompt user_request
               (default (JString "N/A") (dict_get "reasoning" analysis))
               tool_results) with
    | Ok response_text => Synthesised (strip response_text)
    | Raise _ => Apology
    end.

(** The value of the key [analysis] of a response. *)
Inductive analysis_value : Type :=
| Analysis (members : list (string * json))
| AnalysisError (e : exn).        (* {"error": str(e)} *)

(** The dict [process_request] returns. *)
Record response : Type := mkResponse {
  final_response : final_text;
  analysis : analysis_value;
  tools_used : list decision;
  tool_results : list (tool_result output);
  needed_tools : json
}.

(** The statements of the [try] block of [process_request]
    (lines 388-416). *)
Definition pipeline (user_request : str) (a : agent world output)
    : result response * agent world output :=
  let analysis := analyze_request user_request in
  let needs_tools := default (JBool false) (dict_get "needs_tools" analysis) in
  let tools_needed := default (JArray []) (dict_get "tools_needed" analysis) in
  let finish tool_decisions tool_results a' :=
    (Ok (mkResponse
           (generate_final_response user_request tool_results analysis)
           (Analysis analysis) tool_decisions tool_results needs_tools), a') in
  if truthy needs_tools && truthy tools_needed then
    match determine_tool_parameters user_request tools_needed with
    | Raise e => (Raise e, a)
    | Ok [] => finish [] [] a
    | Ok tool_decisions =>
        match execute_tools tools tool_decisions a with
        | (Ok tool_results, a') => finish tool_decisions tool_results a'
        | (Raise e, a') => (Raise e, a')
        end
    end
  else finish [] [] a.

(** The dict of the [except] clause (lines 418-426). *)
Definition error_response (e : exn) : response :=
  mkResponse (Errored e) (AnalysisError e) [] [] (JBool false).

(** [process_request] (lines 381-426). *)
Definition process_request (user_request : str) (a : agent world output)
    : result response * agent world output :=
  match pipeline user_request a with
  | (Ok r, a') => (Ok r, a')
  | (Raise e, a') => (Ok (error_response e), a')
  end.

End Pipeline.

Arguments prompt : clear implicits.
Arguments response : clear implicits.

(** A completion service for the scenarios: it answers the analysis
    prompt with [analysis_text] and the planning prompt with [plan_text],
    and fails on the synthesis prompt. *)
Definition scripted {output : Type} (analysis_text plan_text : str)
    : prompt output -> result str :=
  fun p =>
    match p with
    | AnalysisPrompt _ => Ok analysis_text
    | ParameterPrompt _ _ => Ok plan_text
    | FinalPrompt _ _ _ => Raise (OtherException "service unavailable")
    end.

End Orchestrator.
Import Orchestrator.

(* ===================================================================== *)
(** ** The read-only operations of [tools.py] *)
(* ===================================================================== *)

Module Queries.

(** A row of the join of [order_items] with [books] (lines 403-408). *)
Record status_item : Type := mkStatusItem {
  si_book_title : string;
  si_book_author : string;
  si_book_isbn : string;
  si_quantity : Z;
  si_unit_price : Q
}.

(** The texts [order_status_tool] returns, by the values their f-strings
    interpolate. The order date, a timestamp the storage layer sets, is
    not part of the model; the text shows the status in upper case. *)
Inductive status_reply : Type :=
| OrderNotFound (order_id : Z) (max_order_id : option Z)
      (* Order #.. not found. The highest order ID in the system is .. *)
| OrderDetailsMissing (order_id : Z)
      (* Error: Order #.. exists but couldn't retrieve details. *)
| OrderHasNoItems (order_id : Z)
      (* Error: Order #.. exists but has no items. *)
| OrderStatus (order_id : Z) (customer_name customer_email status : string)
              (total_amount : Q) (items : list status_item)
| ErrorCheckingStatus (e : exn).
      (* Error checking order status: .. *)

(** [SELECT MAX(id) FROM orders]: NULL on an empty table. *)
Fixpoint max_order_id (os : list order) : option Z :=
  match os with
  | [] => None
  | o :: rest =>
      Some (match max_order_id rest with
            | Some m => Z.max (order_id o) m
            | None => order_id o
            end)
  end.

(** [SELECT oi.*, b.title, b.author FROM order_items oi JOIN books b ON
    oi.book_isbn = b.isbn WHERE oi.order_id = ?]. The query has no ORDER
    BY: the rows are listed here as [order_items] holds them, and what is
    proved of them does not depend on their order. *)
Definition order_rows (oid : Z) (db : database) : list status_item :=
  omap (fun oi =>
          if oi_order_id oi =? oid then
            match books db !! book_isbn oi with
            | Some b => Some (mkStatusItem (title b) (author b) (book_isbn oi)
                                           (oi_quantity oi) (unit_price oi))
            | None => None
            end
          else None)
       (order_items db).

(** The [with] block of [order_status_tool] (lines 377-429). *)
Definition status_transaction (oid : Z) (db : database)
    : result status_reply * database :=
  match select_order oid db with
  | None => (Ok (OrderNotFound oid (max_order_id (orders db))), db)
  | Some o =>
      match customers db !! customer_id o with
      | None => (Ok (OrderDetailsMissing oid), db)
      | Some c =>
          match order_rows oid db with
          | [] => (Ok (OrderHasNoItems oid), db)
          | items =>
              (Ok (OrderStatus oid (name c) (email c) (status o)
                               (total_amount o) items), db)
          end
      end
  end.

(** [order_status_tool] (lines 373-434). *)
Definition order_status_tool (ev : storage_event) (oid : Z) (db : database)
    : status_reply * database :=
  match get_db_cursor ev db (status_transaction oid) with
  | (Ok r, db') => (r, db')
  | (Raise e, db') => (ErrorCheckingStatus e, db')
  end.

(** The order ids handed out so far do not exceed the AUTOINCREMENT
    counter, in [orders] and in [order_items]. *)
Definition ids_in_range (db : database) : Prop :=
  Forall (fun o => order_id o <= last_order_id db) (orders db) /\
  Forall (fun oi => oi_order_id oi <= last_order_id db) (order_items db).

(** The row [order_status_tool] shows for an accepted line. *)
Definition status_item_of (db : database) (it : item) : status_item :=
  let l := line_of db it in
  match books db !! ol_isbn l with
  | Some b => mkStatusItem (title b) (author b) (ol_isbn l) (ol_quantity l)
                           (ol_unit_price l)
  | None => mkStatusItem EmptyString EmptyString (ol_isbn l) (ol_quantity l)
                         (ol_unit_price l)
  end.

(** [SELECT COUNT( * ), SUM(stock), .. FROM books] (lines 441-449), with
    the value the text shows for a NULL: [summary[..] or 0]. The two
    amounts of money of the text, [SUM(price * stock)] and [AVG(price)],
    which SQLite computes in floating point, are not part of the model. *)
Definition count_books (bs : gmap string book) : Z := Z.of_nat (size bs).

Definition sum_stock (bs : gmap string book) : Z :=
  map_fold (fun _ b acc => stock b + acc) 0 bs.

(** What the text of [inventory_summary_tool] shows, the two amounts
    apart. The two listings are kept as the rows they hold, by ISBN: the
    order of the lines of the text ([ORDER BY stock], [ORDER BY title])
    is not part of the model. *)
Record summary : Type := mkSummary {
  total_books : Z;
  total_copies : Z;
  low_stock : gmap string book;      (* WHERE stock < 5 *)
  out_of_stock : gmap string book;   (* WHERE stock = 0 *)
  sufficient : bool                  (* All books have sufficient stock levels. *)
}.

Inductive summary_reply : Type :=
| InventorySummary (s : summary)
| ErrorGeneratingSummary (e : exn).   (* Error generating inventory summary: .. *)

(** The [with] block of [inventory_summary_tool] (lines 440-492). *)
Definition summary_transaction (db : database)
    : result summary_reply * database :=
  let low := filter (fun kb => stock kb.2 < 5) (books db) in
  let out := filter (fun kb => stock kb.2 = 0) (books db) in
  (Ok (InventorySummary
         (mkSummary (count_books (books db)) (sum_stock (books db))
                    low out
                    (bool_decide (low = ∅) && bool_decide (out = ∅)))), db).

(** [inventory_summary_tool] (lines 436-498). *)
Definition inventory_summary_tool (ev : storage_event) (db : database)
    : summary_reply * database :=
  match get_db_cursor ev db summary_transaction with
  | (Ok r, db') => (r, db')
  | (Raise e, db') => (ErrorGeneratingSummary e, db')
  end.


End Queries.
Import Queries.

(* ===================================================================== *)
(** ** Invariants of the catalogue *)
(* ===================================================================== *)

Module Invariants.

(** The scenario catalogue after an order of one copy of its item. *)
Definition sold_db : database :=
  out_db (create_order_tool 1 [] 1 [line "X" 1] scenario_db).

(** No price is negative. *)
Definition price_nonneg (db : database) : Prop :=
  forall s b, books db !! s = Some b -> (0 <= price b)%Q.

(** No two rows of [orders] have the same id. *)
Definition order_ids_unique (db : database) : Prop :=
  NoDup (map order_id (orders db)).

End Invariants.
Import Invariants.

(* ===================================================================== *)
(** ** The caller of the agent: [run_agent] of [main.py] *)
(* ===================================================================== *)

Module Main.

(** The number a Python value is, for the values that compare as
    numbers: [bool] is an [int]. *)
Definition number_of (v : json) : option Q :=
  match v with
  | JBool b => Some (if b then 1 else 0)%Q
  | JInt z => Some (inject_Z z)
  | JFloat q => Some q
  | _ => None
  end.

(** [x == y] on the values of [json.loads]: numbers by value, strings
    and lists element by element, dicts key by key whatever the order of
    the keys. *)
Fixpoint py_eq (x y : json) {struct x} : bool :=
  match x, y with
  | JNull, JNull => true
  | JString s, JString s' => String.eqb s s'
  | JArray l, JArray l' =>
      (fix go (l l' : list json) : bool :=
         match l, l' with
         | [], [] => true
         | a :: l, b :: l' => py_eq a b && go l l'
         | _, _ => false
         end) l l'
  | JObject m, JObject m' =>
      Nat.eqb (length m) (length m')
      && (fix go (m : list (string * json)) : bool :=
            match m with
            | [] => true
            | (k, v) :: m =>
                match dict_get k m' with
                | Some v' => py_eq v v'
                | None => false
                end && go m
            end) m
  | _, _ =>
      match number_of x, number_of y with
      | Some p, Some q => Qeq_bool p q
      | _, _ => false
      end
  end.

(** The same on the result of [d.get(key)], where a missing key and the
    value [None] are both [None]. *)
Definition py_eq_opt (x y : option json) : bool :=
  py_eq (default JNull x) (default JNull y).

Section RunAgent.

Context {world output : Type}.

(** The value of the key [output] of a tool call: the text of the paired
    result, or the default of [tool_result.get("result", "No output")]. *)
Inductive call_output : Type :=
| OutputOf (m : message output)
| NoOutput.

(** The dict appended to [tool_calls_for_response] (lines 99-104). *)
Record tool_call : Type := mkToolCall {
  tc_tool_name : option json;
  tc_input_args : json;
  tc_output : call_output;
  tc_success : bool
}.

(** The value of the key [message] of what [run_agent] returns. *)
Inductive agent_message : Type :=
| FinalResponse (t : final_text)
| AgentError (e : exn).   (* I encountered an error while processing your
                             request: .. *)

(** The dict [run_agent] returns; for the key [analysis], [None] stands
    for the dict of the [except] clause, which holds the error text. *)
Record agent_response : Type := mkAgentResponse {
  ar_message : agent_message;
  ar_tool_calls : list tool_call;
  ar_analysis : option analysis_value
}.

(** [next((tr for tr in tool_results if tr.get("tool_name") == tool_name),
    {})] (lines 93-97). *)
Definition paired_result (tool_results : list (tool_result output))
    (tool_name : option json) : option (tool_result output) :=
  find (fun tr => py_eq_opt (tr_tool_name tr) tool_name) tool_results.

(** The loop of lines 91-104. *)
Definition tool_calls_for_response (r : response output) : list tool_call :=
  map (fun tool_decision =>
         let tool_name := dict_get "tool_name" tool_decision in
         let input_args :=
           default (JObject []) (dict_get "parameters" tool_decision) in
         match paired_result (tool_results r) tool_name with
         | Some tr =>
             mkToolCall tool_name input_args (OutputOf (tr_result tr))
                        (tr_success tr)
         | None => mkToolCall tool_name input_args NoOutput false
         end)
      (tools_used r).

Variable json_loads : str -> result json.
Variable tools : registry world output.
Variable generate_content : prompt output -> result str.
Variable exn_str : exn -> string.
Variable mentions_lock : message output -> bool.

(** [run_agent] (lines 71-119), on the agent [get_gemini_agent]
    returns. *)
Definition run_agent (user_message : str) (a : agent world output)
    : agent_response * agent world output :=
  match process_request json_loads tools generate_content exn_str
                        mentions_lock user_message a with
  | (Ok r, a') =>
      (mkAgentResponse (FinalResponse (final_response r))
                       (tool_calls_for_response r)
                       (Some (analysis r)), a')
  | (Raise e, a') => (mkAgentResponse (AgentError e) [] None, a')
  end.

End RunAgent.

Arguments call_output : clear implicits.
Arguments tool_call : clear implicits.
Arguments agent_response : clear implicits.

(** The index of the first call of a plan whose tool name is the string
    [s]. *)
Fixpoint first_call_of (s : string) (tds : list decision) : option nat :=
  match tds with
  | [] => None
  | td :: rest =>
      match dict_get "tool_name" td with
      | Some (JString s') =>
          if String.eqb s' s then Some O else S <$> first_call_of s rest
      | _ => S <$> first_call_of s rest
      end
  end.

End Main.
Import Main.

(* ===================================================================== *)
(** ** The chat endpoints of [main.py] *)
(* ===================================================================== *)

Module Chat.

(** What an endpoint answers: its response model, or
    [HTTPException(status_code, detail)]. *)
Inductive http (A : Type) : Type :=
| Answer (a : A)
| HTTPException (status_code : Z) (e : option exn).
Arguments Answer {A} a.
Arguments HTTPException {A} status_code e.

Section WithOutput.

Context {output : Type}.

(** The content of a row of [messages]: the text of the user, or the
    message of the agent. *)
Inductive content : Type :=
| UserText (t : str)
| AssistantText (m : agent_message).

(** Row of [messages], without its timestamp. *)
Record message_row : Type := mkMessage {
  m_id : Z;
  m_session_id : string;
  m_role : string;
  m_content : content
}.

(** Row of [tool_calls], without its id and timestamp: [input_args] holds
    the value [json.dumps] writes, [tc_row_output] the value [str]
    renders. *)
Record tool_call_row : Type := mkToolCallRow {
  tc_session_id : string;
  tc_message_id : Z;
  tc_row_tool_name : json;
  tc_row_input_args : json;
  tc_row_output : call_output output
}.

(** The tables of the chat: [sessions] (id to title), [messages] with its
    AUTOINCREMENT counter, and [tool_calls]. *)
Record chat_db : Type := mkChatDb {
  sessions : gmap string str;
  messages : list message_row;
  tool_call_rows : list tool_call_row;
  last_message_id : Z
}.

(** [get_db_cursor], on the tables of the chat. *)
Definition chat_cursor {A} (ev : storage_event) (c : chat_db)
    (body : chat_db -> result A * chat_db) : result A * chat_db :=
  match ev with
  | Locked => (Raise (OperationalError database_is_locked), c)
  | Failing msg => (Raise (OperationalError msg), c)
  | Quiet =>
      match body c with
      | (Ok a, c') => (Ok a, c')
      | (Raise e, _) => (Raise e, c)
      end
  end.

(** [INSERT INTO messages (session_id, role, content)]; the result
    carries [cursor.lastrowid]. *)
Definition insert_message (sid role : string) (ct : content) (c : chat_db)
    : Z * chat_db :=
  let mid := last_message_id c + 1 in
  (mid, mkChatDb (sessions c) (messages c ++ [mkMessage mid sid role ct])
                 (tool_call_rows c) mid).

(** The first [with] block of [chat_endpoint] (lines 311-325). *)
Definition save_user_message (sid : string) (message : str) (c : chat_db)
    : result Z * chat_db :=
  let c1 :=
    match sessions c !! sid with
    | Some _ => c
    | None => mkChatDb (<[sid := text "New Conversation"]> (sessions c))
                       (messages c) (tool_call_rows c) (last_message_id c)
    end in
  let '(mid, c2) := insert_message sid "user" (UserText message) c1 in
  (Ok mid, c2).

(** The value bound to the column [tool_name], which is NOT NULL:
    [tool_call.get("tool_name", "unknown")] is [None] when the call has
    no tool name, since the key is there. [sqlite3] binds [None], ints of
    at most 64 bits, floats and strings, and nothing else. *)
Definition tool_name_column (tool_name : option json) : result json :=
  match tool_name with
  | None | Some JNull =>
      Raise (OtherException "NOT NULL constraint failed: tool_calls.tool_name")
  | Some (JInt z) =>
      if (- 2 ^ 63 <=? z) && (z <? 2 ^ 63) then Ok (JInt z)
      else Raise (OtherException
                    "Python int too large to convert to SQLite INTEGER")
  | Some v =>
      if hashable v then Ok v
      else Raise (OtherException "type is not supported")
  end.

(** The loop of lines 340-354. *)
Fixpoint save_tool_calls (sid : string) (mid : Z)
    (tool_calls : list (tool_call output)) (c : chat_db)
    : result unit * chat_db :=
  match tool_calls with
  | [] => (Ok tt, c)
  | tc :: rest =>
      match tool_name_column (tc_tool_name tc) with
      | Raise e => (Raise e, c)
      | Ok name =>
          save_tool_calls sid mid rest
            (mkChatDb (sessions c) (messages c)
               (tool_call_rows c
                ++ [mkToolCallRow sid mid name (tc_input_args tc) (tc_output tc)])
               (last_message_id c))
      end
  end.

(** The row the loop writes for a call, when its tool name can be
    bound. *)
Definition row_of (sid : string) (mid : Z) (tc : tool_call output)
    : option tool_call_row :=
  match tool_name_column (tc_tool_name tc) with
  | Ok name =>
      Some (mkToolCallRow sid mid name (tc_input_args tc) (tc_output tc))
  | Raise _ => None
  end.

(** The calls whose tool name the column accepts. *)
Definition storable (tc : tool_call output) : Prop :=
  exists name, tool_name_column (tc_tool_name tc) = Ok name.

(** The data after the first transaction of a turn. *)
Definition with_user_message (sid : string) (message : str) (c : chat_db)
    : chat_db :=
  snd (save_user_message sid message c).

(** [request.message[:30] + "..." if len(request.message) > 30 else
    request.message] (line 363). *)
Definition session_title (message : str) : str :=
  if (30 <? length message)%nat then take 30 message ++ text "..."
  else message.

(** [SELECT COUNT( * ) FROM messages WHERE session_id = ? AND role = 'user'] *)
Definition user_message_count (sid : string) (c : chat_db) : nat :=
  length (List.filter
            (fun m => String.eqb (m_session_id m) sid
                      && String.eqb (m_role m) "user")
            (messages c)).

(** The second [with] block (lines 331-367). *)
Definition save_assistant_response (sid : string) (message : str)
    (r : agent_response output) (c : chat_db) : result Z * chat_db :=
  let '(mid, c1) :=
    insert_message sid "assistant" (AssistantText (ar_message r)) c in
  match save_tool_calls sid mid (ar_tool_calls r) c1 with
  | (Raise e, c2) => (Raise e, c2)
  | (Ok _, c2) =>
      let c3 :=
        if (user_message_count sid c2 =? 1)%nat
        then mkChatDb (alter (fun _ => session_title message) sid (sessions c2))
                      (messages c2) (tool_call_rows c2) (last_message_id c2)
        else c2 in
      (Ok mid, c3)
  end.

(** [ChatResponse]. *)
Record chat_response : Type := mkChatResponse {
  cr_message : agent_message;
  cr_session_id : string;
  cr_tool_calls : list (tool_call output)
}.

Context {world : Type}.
Variable json_loads : str -> result json.
Variable tools : registry world output.
Variable generate_content : prompt output -> result str.
Variable exn_str : exn -> string.
Variable mentions_lock : message output -> bool.

(** [chat_endpoint] (lines 302-378): [ev1] and [ev3] are what the
    storage layer does to its two transactions. *)
Definition chat_endpoint (ev1 ev3 : storage_event) (sid : string)
    (message : str) (c : chat_db) (a : agent world output)
    : http chat_response * chat_db * agent world output :=
  match chat_cursor ev1 c (save_user_message sid message) with
  | (Raise e, c1) => (HTTPException 500 (Some e), c1, a)
  | (Ok _, c1) =>
      let '(agent_response, a') :=
        run_agent json_loads tools generate_content exn_str mentions_lock
                  message a in
      match chat_cursor ev3 c1
              (save_assistant_response sid message agent_response) with
      | (Raise e, c3) => (HTTPException 500 (Some e), c3, a')
      | (Ok _, c3) =>
          (Answer (mkChatResponse (ar_message agent_response) sid
                                  (ar_tool_calls agent_response)), c3, a')
      end
  end.

(** The columns of [tool_calls] as [create_tables] declares them
    ([database.py], lines 126-137). *)
Definition tool_calls_columns : list string :=
  [ "id"; "session_id"; "message_id"; "tool_name"; "input_args"; "output";
    "timestamp" ]%string.

(** [SELECT * FROM table WHERE .. ORDER BY column ASC]: a column the
    table does not have makes the statement fail. *)
Definition select_order_by {A} (columns : list string) (column : string)
    (rows : list A) : result (list A) :=
  if existsb (String.eqb column) columns then Ok rows
  else Raise (OperationalError ("no such column: " ++ column)).

(** The [with] block of [get_session_tool_calls] (lines 276-295); the
    exception that stands for [HTTPException(404)] is told apart by its
    text. *)
Definition session_not_found : exn := OtherException "Session not found".

Definition tool_calls_transaction (sid : string) (c : chat_db)
    : result (list tool_call_row) * chat_db :=
  match sessions c !! sid with
  | None => (Raise session_not_found, c)
  | Some _ =>
      (select_order_by tool_calls_columns "created_at"
         (List.filter (fun row => String.eqb (tc_session_id row) sid)
                      (tool_call_rows c)), c)
  end.

(** [get_session_tool_calls] (lines 272-299). *)
Definition get_session_tool_calls (ev : storage_event) (sid : string)
    (c : chat_db) : http (list tool_call_row) :=
  match chat_cursor ev c (tool_calls_transaction sid) with
  | (Ok rows, _) => Answer rows
  | (Raise (OtherException "Session not found"), _) => HTTPException 404 None
  | (Raise e, _) => HTTPException 500 (Some e)
  end.

End WithOutput.

Arguments content : clear implicits.
Arguments message_row : clear implicits.
Arguments tool_call_row : clear implicits.
Arguments chat_db : clear implicits.
Arguments chat_response : clear implicits.

(** The chat tables of the scenarios: no session yet. *)
Definition empty_chat : chat_db (output string) := mkChatDb ∅ [] [] 0.

(** Completion services of the scenarios: a plan of two restocks, a plan
    of one order, and a plan whose only call has no tool name. *)
Definition two_restocks : prompt (output string) -> result str :=
  scripted
    (js "{'needs_tools': true, 'tools_needed': ['restock_book']}")
    (js "[{'tool_name': 'restock_book', 'parameters': {'isbn':'X','quantity':3}}, {'tool_name': 'restock_book', 'parameters': {'isbn':'X','quantity':2}}]").

Definition one_order : prompt (output string) -> result str :=
  scripted
    (js "{'needs_tools': true, 'tools_needed': ['create_order']}")
    (js "[{'tool_name': 'create_order', 'parameters': {'customer_id': 1, 'items': [{'isbn':'X','quantity':2}]}}]").

Definition nameless_plan : prompt (output string) -> result str :=
  scripted
    (js "{'needs_tools': true, 'tools_needed': ['restock_book']}")
    (js "[{'parameters': {'isbn':'X','quantity':3}}]").

End Chat.
Import Chat.

(* ===================================================================== *)
(** * The order transaction *)
(* ===================================================================== *)

Section OrderTransaction.

Implicit Types (db : database) (items : list item) (it : item).

Lemma truthy_str_Some s : s <> EmptyString -> truthy_str (Some s) = true.
Proof.
  intros Hs. unfold truthy_str. destruct (String.eqb_spec s EmptyString); [congruence|done].
Qed.

Lemma truthy_int_Some q : q <> 0 -> truthy_int (Some q) = true.
Proof.
  intros Hq. unfold truthy_int. destruct (Z.eqb_spec q 0); [congruence|done].
Qed.

(** One step of the validation loop on an acceptable line. *)
Lemma validate_items_step db it rest total acc :
  line_ok db it ->
  validate_items db (it :: rest) total acc =
  validate_items db rest (fadd total (line_amount db it)) (acc ++ [line_of db it]).
Proof.
  intros (s & q & b & Hs & Hne & Hq & Hb & Hpos & Hle).
  destruct it as [i qo]; simpl in Hs, Hq; subst.
  unfold line_amount, line_of; cbn [validate_items isbn quantity default].
  rewrite truthy_str_Some by done.
  rewrite truthy_int_Some by lia. cbn [negb orb].
  destruct (Z.leb_spec q 0); [lia|].
  simpl. rewrite Hb.
  destruct (Z.ltb_spec (stock b) q); [lia|]. done.
Qed.

Lemma validate_items_accepts db items :
  Forall (line_ok db) items ->
  forall total acc,
    validate_items db items total acc =
    Accepted (fold_left (fun a it => fadd a (line_amount db it)) items total)
             (acc ++ map (line_of db) items).
Proof.
  induction 1 as [|it rest Hit _ IH]; intros total acc.
  - simpl. by rewrite app_nil_r.
  - rewrite validate_items_step by done. rewrite IH. simpl.
    by rewrite <- app_assoc.
Qed.

(** A failing line anywhere in the request stops the validation loop. *)
Lemma validate_items_rejects db items :
  Exists (line_fails db) items ->
  forall total acc, exists r, validate_items db items total acc = Rejected r.
Proof.
  induction items as [|it rest IH]; intros Hex total acc.
  - inversion Hex.
  - assert (Hhead : (exists r, validate_items db (it :: rest) total acc = Rejected r)
                    \/ (exists t a, validate_items db (it :: rest) total acc
                                    = validate_items db rest t a /\ ~ line_fails db it)).
    { destruct it as [[s|] [q|]]; try (left; simpl; rewrite ?orb_true_r; eauto; fail).
      cbn [validate_items isbn quantity].
      destruct (negb (truthy_str (Some s)) || negb (truthy_int (Some q)));
        [eauto|].
      destruct (Z.leb_spec q 0); [eauto|].
      destruct (books db !! s) as [b|] eqn:Hb; [|eauto].
      destruct (Z.ltb_spec (stock b) q); [eauto|].
      right. do 2 eexists. split; [reflexivity|].
      unfold line_fails, exceeds_stock, item_missing, quantity_not_positive; simpl.
      intros [(s' & q' & b' & Hs' & Hq' & Hb' & Hlt) | [Hm | Hq]].
      - simplify_eq. lia.
      - congruence.
      - lia. }
    destruct Hhead as [?|(t & a & -> & Hnf)]; [done|].
    apply IH. by inversion Hex; subst.
Qed.

(** The writes of the second loop touch only [books] and [order_items]. *)
Lemma write_lines_orders oid lines db :
  orders (write_lines oid lines db) = orders db.
Proof. revert db. induction lines as [|l rest IH]; intros db; simpl; [done|]. by rewrite IH. Qed.

Lemma write_lines_customers oid lines db :
  customers (write_lines oid lines db) = customers db.
Proof. revert db. induction lines as [|l rest IH]; intros db; simpl; [done|]. by rewrite IH. Qed.

Lemma add_stock_add a b' (b : book) :
  add_stock a (add_stock b' b) = add_stock (b' + a) b.
Proof. destruct b; unfold add_stock; simpl. f_equal. lia. Qed.

Lemma add_stock_0 (b : book) : add_stock 0 b = b.
Proof. destruct b; unfold add_stock; simpl. f_equal. lia. Qed.

Lemma write_lines_books oid lines db s :
  books (write_lines oid lines db) !! s
  = add_stock (- taken s lines) <$> books db !! s.
Proof.
  revert db. induction lines as [|l rest IH]; intros db; simpl.
  - destruct (books db !! s) as [b|]; simpl; [|done]. by rewrite add_stock_0.
  - rewrite IH. simpl. rewrite lookup_alter.
    destruct (decide (ol_isbn l = s)) as [->|Hne].
    + destruct (books db !! s) as [b|]; simpl; [|done].
      rewrite add_stock_add. do 2 f_equal. lia.
    + do 2 f_equal.
Qed.

Lemma taken_line_of db items s :
  Forall (line_ok db) items ->
  taken s (map (line_of db) items) = requested s items.
Proof.
  induction 1 as [|it rest Hit _ IH]; simpl; [done|].
  rewrite IH. f_equal.
  destruct Hit as (s' & q & b & Hs & _ & Hq & Hb & _).
  unfold line_of. rewrite Hs, Hq. simpl. rewrite Hb. simpl.
  destruct (decide (s' = s)), (decide (Some s' = Some s)); congruence.
Qed.

Lemma select_order_inserted cid total st db lines :
  let '(oid, db1) := insert_order cid total st db in
  is_Some (select_order oid (write_lines oid lines db1)).
Proof.
  simpl. unfold select_order. rewrite write_lines_orders. simpl.
  induction (orders db) as [|o os IH]; simpl.
  - rewrite Z.eqb_refl. eauto.
  - destruct (order_id o =? last_order_id db + 1); eauto.
Qed.

Lemma read_stocks_ok db lines :
  Forall (fun l => is_Some (books db !! ol_isbn l)) lines ->
  exists stocks, read_stocks db lines = Ok stocks.
Proof.
  induction 1 as [|l rest [b Hb] _ [tl IH]]; simpl; eauto.
  rewrite Hb, IH. simpl. eauto.
Qed.


Lemma line_of_in_catalogue db items :
  Forall (line_ok db) items ->
  Forall (fun l => is_Some (books db !! ol_isbn l)) (map (line_of db) items).
Proof.
  induction 1 as [|it rest (s & q & b & Hs & _ & Hq & Hb & _) _ IH]; simpl;
    constructor; [|done].
  unfold line_of. rewrite Hs. simpl. rewrite Hb. simpl. eauto.
Qed.

Lemma validate_items_rejected_is_error db items :
  forall total acc r,
    validate_items db items total acc = Rejected r -> is_success r = false.
Proof.
  induction items as [|[[s|] [q|]] rest IH]; intros total acc r; simpl;
    rewrite ?orb_true_r; try (intros [= <-]; done).
  destruct (negb _ || negb _); [intros [= <-]; done|].
  destruct (q <=? 0); [intros [= <-]; done|].
  destruct (books db !! s) as [b|]; [|intros [= <-]; done].
  destruct (stock b <? q); [intros [= <-]; done|]. apply IH.
Qed.

(** A bad request leaves the transaction body before its first write. *)
Lemma order_transaction_bad db cid items :
  bad_request db cid items ->
  exists r, order_transaction cid items db = (Ok r, db) /\ is_success r = false.
Proof.
  intros [Hc|Hex]; unfold order_transaction.
  - rewrite Hc. eauto.
  - destruct (customers db !! cid) as [c|]; [|eauto].
    destruct (validate_items_rejects db items Hex 0%Q []) as [r Hr].
    rewrite Hr. eauto using validate_items_rejected_is_error.
Qed.

(** Whatever the storage layer does and however often the call recurses,
    a transaction body that writes nothing yields a call that writes
    nothing and reports no success. *)
Lemma create_order_safe_idle globals cid items db r :
  order_transaction cid items db = (Ok r, db) -> is_success r = false ->
  forall depth evs,
    out_db (create_order_safe globals depth evs cid items db) = db /\
    forall r', out_result (create_order_safe globals depth evs cid items db) = Ok r' ->
               is_success r' = false.
Proof.
  intros Hbody Hr. induction depth as [|depth IH]; intros evs; simpl.
  - split; [done|]. intros r' [=].
  - destruct (hd Quiet evs) as [| |msg]; simpl.
    + rewrite Hbody. simpl. split; [done|]. by intros r' [= <-].
    + change (contains database_is_locked database_is_locked) with true.
      cbn match.
      destruct (lookup_global globals "time"); simpl.
      * destruct (IH (tl evs)) as [Hdb Hres]. split; [done|].
        intros r'. destruct (out_result _); simpl; [auto|]. by intros [= <-].
      * split; [done|]. intros r' [=].
    + destruct (contains database_is_locked msg).
      * destruct (lookup_global globals "time"); simpl.
        -- destruct (IH (tl evs)) as [Hdb Hres]. split; [done|].
           intros r'. destruct (out_result _); simpl; [auto|]. by intros [= <-].
        -- split; [done|]. intros r' [=].
      * simpl. split; [done|]. by intros r' [= <-].
Qed.

(** C1. An order request with a missing customer, or with a line whose
    item is missing, whose quantity is not positive or whose quantity
    exceeds the current stock, creates no order row, inserts no order
    line and leaves every stock as it was; no success is reported. *)
Theorem C1_failed_order_changes_nothing depth evs db cid items :
  bad_request db cid items ->
  orders (out_db (create_order_tool depth evs cid items db)) = orders db /\
  order_items (out_db (create_order_tool depth evs cid items db)) = order_items db /\
  books (out_db (create_order_tool depth evs cid items db)) = books db /\
  forall r, out_result (create_order_tool depth evs cid items db) = Ok r ->
            is_success r = false.
Proof.
  intros Hbad. destruct (order_transaction_bad db cid items Hbad) as (r & Hbody & Hr).
  unfold create_order_tool.
  destruct (create_order_safe_idle tools_globals cid items db r Hbody Hr depth evs)
    as [-> Hres].
  auto.
Qed.

Lemma C1_witness :
  bad_request scenario_db 1 [line "X" 6] /\
  orders (out_db (create_order_tool 3 [] 1 [line "X" 6] scenario_db)) = [] /\
  books (out_db (create_order_tool 3 [] 1 [line "X" 6] scenario_db)) !! "X"%string
  = Some (mkBook "X" "an author" (10 # 1) 5).
Proof.
  assert (Hbad : bad_request scenario_db 1 [line "X" 6]).
  { right. apply Exists_cons_hd. left.
    exists "X"%string, 6, (mkBook "X" "an author" (10 # 1) 5).
    repeat split; try reflexivity; simpl; lia. }
  split; [exact Hbad|].
  destruct (C1_failed_order_changes_nothing 3 [] scenario_db 1 [line "X" 6] Hbad)
    as (Ho & _ & Hb & _).
  split; [exact Ho|]. rewrite Hb. reflexivity.
Defined.

(** The transaction body on an acceptable request. *)
Lemma order_transaction_ok db cid items c :
  customers db !! cid = Some c ->
  Forall (line_ok db) items ->
  exists stocks db',
    order_transaction cid items db
    = (Ok (OrderCreated (last_order_id db + 1) (name c) (order_total db items)
                        (map (line_of db) items) stocks), db') /\
    orders db' = orders db ++ [mkOrder (last_order_id db + 1) cid "completed"
                                       (order_total db items)] /\
    forall s, books db' !! s = add_stock (- requested s items) <$> books db !! s.
Proof.
  intros Hc Hok. unfold order_transaction. rewrite Hc.
  rewrite (validate_items_accepts db items Hok). simpl app.
  fold (order_total db items).
  pose proof (select_order_inserted cid (order_total db items) "completed" db
                (map (line_of db) items)) as Hsel.
  cbn [insert_order] in *.
  destruct Hsel as [o Hsel]. rewrite Hsel.
  set (db1 := mkDb _ _ _ _ _) in *.
  assert (Hbooks : forall s, books (write_lines (last_order_id db + 1)
                                      (map (line_of db) items) db1) !! s
                             = add_stock (- requested s items) <$> books db !! s).
  { intros s. rewrite write_lines_books. by rewrite taken_line_of. }
  destruct (read_stocks_ok (write_lines (last_order_id db + 1)
                              (map (line_of db) items) db1)
              (map (line_of db) items)) as [stocks Hst].
  { eapply Forall_impl; [apply line_of_in_catalogue, Hok|].
    intros l [b Hb]. simpl in Hb. rewrite Hbooks, Hb. simpl. eauto. }
  rewrite Hst. do 2 eexists. split; [reflexivity|].
  split; [by rewrite write_lines_orders|done].
Qed.

Lemma requested_absent s items :
  Forall (fun it => isbn it <> Some s) items -> requested s items = 0.
Proof.
  induction 1 as [|it rest Hit _ IH]; simpl; [done|].
  rewrite IH. by destruct (decide (isbn it = Some s)).
Qed.

(** The catalogue after an accepted order. *)
Lemma books_after_order depth evs db cid items c :
  customers db !! cid = Some c ->
  Forall (line_ok db) items ->
  hd Quiet evs = Quiet ->
  forall s,
    books (out_db (create_order_tool (S depth) evs cid items db)) !! s
    = add_stock (- requested s items) <$> books db !! s.
Proof.
  intros Hc Hok Hev.
  destruct (order_transaction_ok db cid items c Hc Hok)
    as (stocks & db' & Hbody & Hord & Hbooks).
  unfold create_order_tool. cbn [create_order_safe]. rewrite Hev.
  cbn [get_db_cursor]. rewrite Hbody. cbn. done.
Qed.

(** One row of [order_items] per accepted line, in request order. *)
Lemma write_lines_order_items oid lines db :
  order_items (write_lines oid lines db)
  = order_items db
    ++ map (fun l => mkOrderItem oid (ol_isbn l) (ol_quantity l) (ol_unit_price l))
           lines.
Proof.
  revert db. induction lines as [|l rest IH]; intros db; simpl.
  - by rewrite app_nil_r.
  - rewrite IH. simpl. by rewrite <- app_assoc.
Qed.

Lemma order_lines_inserted depth evs db cid items c :
  customers db !! cid = Some c ->
  Forall (line_ok db) items ->
  hd Quiet evs = Quiet ->
  order_items (out_db (create_order_tool (S depth) evs cid items db))
  = order_items db
    ++ map (fun l => mkOrderItem (last_order_id db + 1) (ol_isbn l)
                                 (ol_quantity l) (ol_unit_price l))
           (map (line_of db) items).
Proof.
  intros Hc Hok Hev.
  unfold create_order_tool. cbn [create_order_safe]. rewrite Hev.
  cbn [get_db_cursor]. unfold order_transaction. rewrite Hc.
  rewrite (validate_items_accepts db items Hok). simpl app.
  pose proof (select_order_inserted cid
                (fold_left (fun a it => fadd a (line_amount db it)) items 0%Q)
                "completed" db (map (line_of db) items)) as Hsel.
  cbn [insert_order] in *. destruct Hsel as [o Hsel]. rewrite Hsel.
  destruct (read_stocks _ _) as [stocks|e] eqn:Hrd; cbn.
  - by rewrite write_lines_order_items.
  - exfalso.
    destruct (order_transaction_ok db cid items c Hc Hok)
      as (stocks & db' & Hbody & _).
    unfold order_transaction in Hbody. rewrite Hc in Hbody.
    rewrite (validate_items_accepts db items Hok) in Hbody. simpl app in Hbody.
    cbn [insert_order] in Hbody. rewrite Hsel, Hrd in Hbody. congruence.
Qed.

(** C2, as amended. For an existing customer and a request whose every
    line names a catalogue item by a non-empty ISBN and asks a positive
    quantity of at most its current stock, with numbers in the range of
    SQLite and Python ([within_range]), on a storage layer that does not
    fail, the order is created. Its recorded total is the sum over the
    lines of unit price times quantity as Python computes it: every
    product and every partial sum, taken in request order, is rounded to
    binary64. One row of [order_items] is inserted per line, in request
    order, with the quantity of the line and the unit price of the
    catalogue; the stock of every item goes down by exactly the quantity
    requested of it, and the items the request does not name keep their
    rows. *)
Theorem C2_valid_order_succeeds depth evs db cid items c :
  customers db !! cid = Some c ->
  Forall (line_ok db) items ->
  within_range db items ->
  hd Quiet evs = Quiet ->
  (exists stocks,
      out_result (create_order_tool (S depth) evs cid items db)
      = Ok (OrderCreated (last_order_id db + 1) (name c)
                         (order_total db items) (map (line_of db) items)
                         stocks)) /\
  orders (out_db (create_order_tool (S depth) evs cid items db))
  = orders db ++ [mkOrder (last_order_id db + 1) cid "completed"
                          (order_total db items)] /\
  order_items (out_db (create_order_tool (S depth) evs cid items db))
  = order_items db
    ++ map (fun l => mkOrderItem (last_order_id db + 1) (ol_isbn l)
                                 (ol_quantity l) (ol_unit_price l))
           (map (line_of db) items) /\
  (forall s b, books db !! s = Some b ->
     books (out_db (create_order_tool (S depth) evs cid items db)) !! s
     = Some (mkBook (title b) (author b) (price b)
                    (stock b - requested s items))) /\
  (forall s, Forall (fun it => isbn it <> Some s) items ->
     books (out_db (create_order_tool (S depth) evs cid items db)) !! s
     = books db !! s).
Proof.
  intros Hc Hok _ Hev.
  pose proof (order_lines_inserted depth evs db cid items c Hc Hok Hev) as Hoi.
  destruct (order_transaction_ok db cid items c Hc Hok)
    as (stocks & db' & Hbody & Hord & Hbooks).
  revert Hoi. unfold create_order_tool. cbn [create_order_safe]. rewrite Hev.
  cbn [get_db_cursor]. rewrite Hbody. cbn. intros Hoi.
  split; [eauto|]. split; [done|]. split; [exact Hoi|]. split.
  - intros s b Hb. rewrite Hbooks, Hb. simpl. unfold add_stock.
    do 2 f_equal.
  - intros s Hs. rewrite Hbooks, (requested_absent s items Hs).
    destruct (books db !! s) as [b|]; simpl; [|done]. by rewrite add_stock_0.
Qed.

Lemma C2_witness :
  total_amount <$> last (orders (out_db
      (create_order_tool 1 [] 1 [line "X" 3] scenario_db))) = Some (30 # 1)%Q /\
  order_items (out_db (create_order_tool 1 [] 1 [line "X" 3] scenario_db))
  = [mkOrderItem 1 "X" 3 (10 # 1)] /\
  stock <$> books (out_db (create_order_tool 1 [] 1 [line "X" 3] scenario_db))
              !! "X"%string = Some 2.
Proof.
  assert (Hc : customers scenario_db !! 1
               = Some (mkCustomer "a customer" "customer@example.org"))
    by reflexivity.
  assert (Hok : Forall (line_ok scenario_db) [line "X" 3]).
  { repeat constructor.
    exists "X"%string, 3, (mkBook "X" "an author" (10 # 1) 5).
    repeat split; try reflexivity; try discriminate; simpl; lia. }
  assert (Hrange : within_range scenario_db [line "X" 3]).
  { split; [unfold int64; simpl; lia|]. split; [|reflexivity].
    intros s b. unfold scenario_db; simpl.
    intros [<- <-]%lookup_singleton_Some. unfold int64. simpl. lia. }
  destruct (C2_valid_order_succeeds 0 [] scenario_db 1 [line "X" 3] _ Hc Hok
              Hrange eq_refl)
    as (_ & Ho & Hoi & Hb & _).
  split; [|split].
  - rewrite Ho. vm_compute. reflexivity.
  - rewrite Hoi. reflexivity.
  - rewrite (Hb "X"%string (mkBook "X" "an author" (10 # 1) 5) eq_refl).
    reflexivity.
Defined.

(** C2, counterexample. Three copies of an item whose price is 0.1 (the
    double nearest to one tenth): the request is acceptable and the order
    is created, but the recorded total, 0.30000000000000004, is not the
    sum over the lines of unit price times quantity, which is three times
    that double. *)
Lemma C2_counterexample :
  customers tenth_db !! 1 = Some (mkCustomer "a customer" "customer@example.org") /\
  (exists b, books tenth_db !! "X"%string = Some b /\ 0 < 3 <= stock b) /\
  (order_volume tenth_db [line "X" 3] < inject_Z (2 ^ 53))%Q /\
  orders (out_db (create_order_tool 1 [] 1 [line "X" 3] tenth_db))
  = [mkOrder 1 1 "completed" (1351079888211149 # 4503599627370496)] /\
  exact_total tenth_db [line "X" 3]
  = (10808639105689191 # 36028797018963968)%Q /\
  ~ (1351079888211149 # 4503599627370496
     == 10808639105689191 # 36028797018963968)%Q.
Proof.
  split; [reflexivity|]. split.
  - eexists. split; [reflexivity|]. simpl. lia.
  - split; [reflexivity|].
    split; [vm_compute; reflexivity|]. split; [vm_compute; reflexivity|].
    unfold Qeq. simpl. lia.
Qed.

(** A line that names its item by the empty string is refused as a line
    without ISBN, also when the catalogue has such an item in stock: the
    amended statement asks for a non-empty ISBN. *)
Lemma empty_isbn_is_refused :
  (exists b, books nameless_db !! EmptyString = Some b /\ 0 < 3 <= stock b) /\
  out_result (create_order_tool 1 [] 1 [line EmptyString 3] nameless_db)
  = Ok MissingField /\
  out_db (create_order_tool 1 [] 1 [line EmptyString 3] nameless_db)
  = nameless_db.
Proof.
  split; [eexists; split; [reflexivity|simpl; lia]|].
  split; reflexivity.
Qed.

(** The rounding agrees with the specification of IEEE 754 of the
    Standard Library where the order arithmetic of the scenarios goes:
    0.1 times 3, 47.49 times 3, and 0.1 plus 0.2. *)
Example round64_samples :
  Some (fmul tenth 3)
  = of_spec_float (SpecFloat.SFmul 53 1024
                     (to_spec_float 3602879701896397 (-55))
                     (to_spec_float 3 0)) /\
  Some (fmul (round64 (4749 # 100)) 3)
  = of_spec_float (SpecFloat.SFmul 53 1024
                     (to_spec_float 6683623321994527 (-47))
                     (to_spec_float 3 0)) /\
  Some (fadd tenth (round64 (2 # 10)))
  = of_spec_float (SpecFloat.SFadd 53 1024
                     (to_spec_float 3602879701896397 (-55))
                     (to_spec_float 3602879701896397 (-54))) /\
  tenth = (3602879701896397 # 36028797018963968)%Q /\
  round64 (4749 # 100) = (6683623321994527 # 140737488355328)%Q.
Proof. repeat split; vm_compute; reflexivity. Qed.

(** *** The stock invariant *)

Lemma stock_nonneg_alter db s f :
  stock_nonneg db ->
  (forall b, books db !! s = Some b -> 0 <= stock (f b)) ->
  forall s' b', alter f s (books db) !! s' = Some b' -> 0 <= stock b'.
Proof.
  intros Hinv Hf s' b'. rewrite lookup_alter.
  destruct (decide (s = s')) as [<-|Hne].
  - destruct (books db !! s) as [b|] eqn:Hb; simpl; [|done].
    intros [= <-]. eauto.
  - apply Hinv.
Qed.

(** Restocking through the tool's argument schema keeps every stock
    non-negative. *)
Lemma restock_preserves_stock_nonneg ev s q q' db :
  RestockBookInput q = Ok q' ->
  stock_nonneg db ->
  stock_nonneg (snd (restock_book_tool ev s q' db)).
Proof.
  unfold RestockBookInput. destruct (Z.leb_spec 1 q); [|done].
  intros [= <-] Hinv. unfold restock_book_tool, restock_transaction.
  destruct ev; simpl; try done.
  destruct (books db !! s) as [b|] eqn:Hb; simpl; [|done].
  rewrite lookup_alter_eq, Hb. simpl.
  intros s' b'. apply stock_nonneg_alter; [done|].
  intros b0 Hb0. simpl. specialize (Hinv s b0 Hb0). lia.
Qed.

(** A price update never touches a stock. *)
Lemma update_price_preserves_stock_nonneg ev s p db :
  stock_nonneg db ->
  stock_nonneg (snd (update_price_tool ev s p db)).
Proof.
  intros Hinv. unfold update_price_tool, price_transaction.
  destruct ev; simpl; try done.
  destruct (books db !! s) as [b|] eqn:Hb; simpl; [|done].
  intros s' b'. apply stock_nonneg_alter; [done|].
  intros b0 Hb0. simpl. eauto.
Qed.

(** An accepted order keeps the invariant when no item is asked, over all
    the lines that name it, for more than its stock. *)
Lemma create_order_preserves_stock_nonneg depth evs db cid items c :
  customers db !! cid = Some c ->
  Forall (line_ok db) items ->
  hd Quiet evs = Quiet ->
  (forall s b, books db !! s = Some b -> requested s items <= stock b) ->
  stock_nonneg (out_db (create_order_tool (S depth) evs cid items db)).
Proof.
  intros Hc Hok Hev Hreq s b'.
  rewrite (books_after_order depth evs db cid items c Hc Hok Hev). destruct (books db !! s) as [b|] eqn:Hb; simpl; [|done].
  intros [= <-]. simpl. specialize (Hreq s b Hb). lia.
Qed.

(** C3. The order of two lines of 3 units of item X, whose stock is 5,
    passes the per-line stock check twice and is created; the two stock
    updates leave X with stock -1, so order creation does not preserve
    the invariant that no stock is negative. *)
Theorem C3_duplicate_lines_break_stock_invariant :
  stock_nonneg scenario_db /\
  Forall (line_ok scenario_db) [line "X" 3; line "X" 3] /\
  is_success <$> (match out_result (create_order_tool 1 [] 1
                                      [line "X" 3; line "X" 3] scenario_db) with
                  | Ok r => Some r
                  | Raise _ => None
                  end) = Some true /\
  stock <$> books (out_db (create_order_tool 1 [] 1 [line "X" 3; line "X" 3]
                             scenario_db)) !! "X"%string = Some (-1) /\
  ~ stock_nonneg (out_db (create_order_tool 1 [] 1 [line "X" 3; line "X" 3]
                            scenario_db)).
Proof.
  split.
  { intros s b. unfold scenario_db; simpl.
    intros [_ <-]%lookup_singleton_Some. simpl. lia. }
  split.
  { repeat constructor;
      exists "X"%string, 3, (mkBook "X" "an author" (10 # 1) 5);
      repeat split; try reflexivity; try discriminate; simpl; lia. }
  split; [reflexivity|]. split; [reflexivity|].
  intros Hinv.
  specialize (Hinv "X"%string (mkBook "X" "an author" (10 # 1) (-1)) eq_refl).
  simpl in Hinv. lia.
Qed.

(** *** Lock contention *)

(** C6. When the first transaction of an order meets a locked database,
    the handler evaluates [time.sleep] in a module that never imports
    [time]: the call raises [NameError] after one attempt, whatever the
    storage layer would have done to a retry. No retry takes place. *)
Theorem C6_lock_is_not_retried depth evs cid items db :
  create_order_tool (S depth) (Locked :: evs) cid items db
  = mkOutcome (Raise (NameError "time")) db 1.
Proof. reflexivity. Qed.

(** The scenario of the specification: locked on the first attempt, quiet
    afterwards, an order that a quiet storage layer accepts. *)
Example lock_then_quiet_scenario :
  out_result (create_order_tool 5 [Locked; Quiet] 1 [line "X" 3] scenario_db)
  = Raise (NameError "time") /\
  is_success <$> (match out_result (create_order_tool 5 [Quiet] 1 [line "X" 3]
                                      scenario_db) with
                  | Ok r => Some r
                  | Raise _ => None
                  end) = Some true.
Proof. split; reflexivity. Qed.

(** The only exception the transaction body itself can raise comes from
    subscripting a missing row. *)
Lemma read_stocks_raises db lines e :
  read_stocks db lines = Raise e -> e = TypeError.
Proof.
  induction lines as [|l rest IH]; simpl; [done|].
  destruct (books db !! ol_isbn l); [|by intros [= <-]].
  destruct (read_stocks db rest); simpl; [done|]. intros [= <-]. by apply IH.
Qed.

Lemma order_transaction_raises cid items db e db' :
  order_transaction cid items db = (Raise e, db') -> e = TypeError.
Proof.
  unfold order_transaction.
  destruct (customers db !! cid); [|done].
  destruct (validate_items db items 0%Q []); [done|]. simpl.
  destruct (select_order _ _); [|done].
  destruct (read_stocks _ _) eqn:Hrd; [done|].
  intros [= <- _]. eauto using read_stocks_raises.
Qed.

(** Were [time] bound, the handler would call the whole function again,
    handler included: a database that stays locked for [n] transactions is
    tried [n + 1] times, not at most twice. *)
Lemma create_order_safe_retries_while_locked globals cid items db :
  lookup_global globals "time" = Ok tt ->
  forall n depth evs,
    (n < depth)%nat ->
    hd Quiet evs = Quiet ->
    out_attempts (create_order_safe globals depth (repeat Locked n ++ evs)
                                    cid items db)
    = S n.
Proof.
  intros Htime. induction n as [|n IH]; intros depth evs Hd Hev.
  - destruct depth as [|depth]; [lia|]. simpl. rewrite Hev. simpl.
    destruct (order_transaction cid items db) as [[r|e] db'] eqn:Hbody;
      simpl; [done|].
    by rewrite (order_transaction_raises _ _ _ _ _ Hbody).
  - destruct depth as [|depth]; [lia|]. simpl.
    change (contains database_is_locked database_is_locked) with true.
    cbn match. rewrite Htime. simpl. rewrite IH; [done|lia|done].
Qed.

End OrderTransaction.

(* ===================================================================== *)
(** * Cleaning a response: white space and code fences *)
(* ===================================================================== *)

Section Cleaning.

Implicit Types (s ws body : list ascii).

Lemma head_rev s : head (rev s) = last s.
Proof. rewrite rev_alt. apply head_reverse. Qed.

Lemma lstrip_all_space ws : forallb is_space ws = true -> lstrip ws = [].
Proof.
  induction ws as [|c ws IH]; simpl; [done|].
  intros [-> Hws]%andb_true_iff. auto.
Qed.

(** [lstrip] removes leading white space up to the first other
    character. *)
Lemma lstrip_app ws s :
  forallb is_space ws = true ->
  match head s with Some c => is_space c = false | None => True end ->
  lstrip (ws ++ s) = s.
Proof.
  intros Hws Hs. induction ws as [|c ws IH]; simpl.
  - destruct s as [|d s]; simpl in *; [done|]. by rewrite Hs.
  - simpl in Hws. apply andb_true_iff in Hws as [-> Hws]. auto.
Qed.

Lemma rstrip_app s ws :
  forallb is_space ws = true ->
  match last s with Some c => is_space c = false | None => True end ->
  rstrip (s ++ ws) = s.
Proof.
  intros Hws Hs. unfold rstrip. rewrite rev_app_distr, lstrip_app.
  - apply rev_involutive.
  - rewrite forallb_forall in *. intros c Hc. apply Hws. by apply in_rev.
  - by rewrite head_rev.
Qed.

(** [strip] returns the trimmed text between two runs of white space. *)
Lemma strip_app ws1 s ws2 :
  forallb is_space ws1 = true ->
  forallb is_space ws2 = true ->
  trimmed s = true ->
  strip (ws1 ++ s ++ ws2) = s.
Proof.
  intros H1 H2 Hs. unfold strip.
  destruct s as [|c s].
  - simpl. rewrite lstrip_all_space; [done|].
    rewrite forallb_app. by rewrite H1, H2.
  - unfold trimmed in Hs. simpl head in Hs.
    destruct (last (c :: s)) as [z|] eqn:Hz;
      [|by apply last_None in Hz].
    apply andb_true_iff in Hs as [Hc Hl].
    rewrite lstrip_app; [|done|simpl; by destruct (is_space c)].
    apply rstrip_app; [done|]. rewrite Hz. by destruct (is_space z).
Qed.

Lemma strip_trimmed s : trimmed s = true -> strip s = s.
Proof.
  intros Hs. pose proof (strip_app [] s [] eq_refl eq_refl Hs) as H.
  simpl in H. by rewrite app_nil_r in H.
Qed.

Lemma startswith_app p s : startswith p (p ++ s) = true.
Proof.
  induction p as [|c p IH]; simpl; [done|]. by rewrite Ascii.eqb_refl, IH.
Qed.

Lemma endswith_app p s : endswith p (s ++ p) = true.
Proof. unfold endswith. rewrite rev_app_distr. apply startswith_app. Qed.

(** A text that is not fenced: cleaning strips the white space around
    it. *)
Lemma clean_plain ws1 body ws2 :
  forallb is_space ws1 = true ->
  forallb is_space ws2 = true ->
  trimmed body = true ->
  startswith fence_json body = false ->
  endswith fence body = false ->
  clean (ws1 ++ body ++ ws2) = body.
Proof.
  intros H1 H2 Hb Hs He. unfold clean.
  rewrite (strip_app ws1 body ws2 H1 H2 Hb), Hs, He.
  by apply strip_trimmed.
Qed.

(** A text between a [```json] marker and a closing [```] marker, white
    space allowed around the markers: cleaning returns the text. *)
Lemma clean_fenced ws1 ws2 body ws3 ws4 :
  forallb is_space ws1 = true ->
  forallb is_space ws2 = true ->
  forallb is_space ws3 = true ->
  forallb is_space ws4 = true ->
  trimmed body = true ->
  clean (ws1 ++ (fence_json ++ ws2 ++ body ++ ws3 ++ fence) ++ ws4) = body.
Proof.
  intros H1 H2 H3 H4 Hb. unfold clean.
  rewrite (strip_app ws1 _ ws4 H1 H4).
  2:{ unfold trimmed. rewrite !app_assoc, last_app. reflexivity. }
  rewrite startswith_app.
  rewrite (drop_app_length' fence_json) by reflexivity.
  replace (ws2 ++ body ++ ws3 ++ fence) with ((ws2 ++ body ++ ws3) ++ fence)
    by (by rewrite <- !app_assoc).
  rewrite endswith_app.
  rewrite take_app_length'
    by (rewrite (length_app _ fence); change (length fence) with 3%nat; lia).
  by apply strip_app.
Qed.

(** A planning answer in a fenced block. *)
Example fenced_answer :
  _parse_json_response loads
    (text "```json" ++ [ascii_of_nat 10] ++ js "[{'tool_name':'list_customers'}]"
     ++ [ascii_of_nat 10] ++ text "```")
  = Ok (JArray [JObject [("tool_name", JString "list_customers")]]).
Proof. vm_compute. reflexivity. Qed.

End Cleaning.

(* ===================================================================== *)
(** * The response extractor *)
(* ===================================================================== *)

Section ExtractorFacts.

Implicit Types (s pre body post l : str) (c opening closing : ascii).

Lemma find_char_absent c s : c ∉ s -> find_char c s = None.
Proof.
  induction s as [|d s IH]; simpl; [done|].
  intros Hnin. apply not_elem_of_cons in Hnin as [Hne Hnin].
  destruct (Ascii.eqb_spec d c); [congruence|]. by rewrite IH.
Qed.

Lemma find_char_first c pre rest :
  c ∉ pre -> find_char c (pre ++ c :: rest) = Some (length pre).
Proof.
  induction pre as [|d pre IH]; simpl; intros Hnin.
  - by rewrite Ascii.eqb_refl.
  - apply not_elem_of_cons in Hnin as [Hne Hnin].
    destruct (Ascii.eqb_spec d c); [congruence|]. by rewrite IH.
Qed.

Lemma nesting_cons opening closing c l :
  nesting opening closing (c :: l)
  = nesting opening closing l
    + (if Ascii.eqb c opening then 1 else 0)
    - (if Ascii.eqb c closing then 1 else 0).
Proof.
  unfold nesting. simpl.
  destruct (ascii_dec c opening), (ascii_dec c closing);
    destruct (Ascii.eqb_spec c opening), (Ascii.eqb_spec c closing);
    try congruence; lia.
Qed.

(** The scan stops at the end of a block: general step, for a positive
    count. *)
Lemma scan_reaches_end opening closing post :
  opening <> closing ->
  forall l i count,
    0 < count ->
    count + nesting opening closing l = 0 ->
    (forall k, (k < length l)%nat ->
               0 < count + nesting opening closing (take k l)) ->
    scan opening closing (l ++ post) i count = Some (i + length l)%nat.
Proof.
  intros Hoc. induction l as [|c l IH]; intros i count Hpos Htot Hpre.
  - unfold nesting in Htot. simpl in Htot. lia.
  - rewrite nesting_cons in Htot. simpl.
    assert (Hstep : forall k, (k < length l)%nat ->
              0 < count + (if Ascii.eqb c opening then 1 else 0)
                  - (if Ascii.eqb c closing then 1 else 0)
                  + nesting opening closing (take k l)).
    { intros k Hk. specialize (Hpre (S k)). simpl in Hpre.
      rewrite nesting_cons in Hpre. lia. }
    destruct (Ascii.eqb_spec c opening) as [->|Hno].
    + rewrite (proj2 (Ascii.eqb_neq opening closing) Hoc) in *.
      rewrite IH; [f_equal; lia|lia|lia|].
      intros k Hk. specialize (Hstep k Hk). lia.
    + destruct (Ascii.eqb_spec c closing) as [->|Hnc].
      * destruct (Z.eqb_spec (count - 1) 0) as [Hz|Hz].
        -- destruct l as [|d l]; [simpl; f_equal; lia|].
           specialize (Hstep 0%nat). simpl in Hstep.
           unfold nesting in Hstep. simpl in Hstep. lia.
        -- rewrite IH; [f_equal; lia|lia|lia|].
           intros k Hk. specialize (Hstep k Hk). lia.
      * rewrite IH; [f_equal; lia|lia|lia|].
        intros k Hk. specialize (Hstep k Hk). lia.
Qed.

Lemma block_spec opening closing s :
  block opening closing s = true ->
  head s = Some opening /\
  nesting opening closing s = 0 /\
  forall k, (0 < k < length s)%nat -> 0 < nesting opening closing (take k s).
Proof.
  unfold block. rewrite !andb_true_iff, forallb_forall.
  intros [[Hhd Htot] Hpre]. split; [|split].
  - destruct s as [|c s]; [done|]. simpl. f_equal. by apply Ascii.eqb_eq.
  - lia.
  - intros k Hk. specialize (Hpre k). rewrite in_seq in Hpre.
    apply Z.ltb_lt, Hpre. lia.
Qed.

Lemma unclosed_spec opening closing s :
  unclosed opening closing s = true ->
  forall k, (0 < k <= length s)%nat -> 0 < nesting opening closing (take k s).
Proof.
  unfold unclosed. rewrite forallb_forall. intros Hpre k Hk.
  apply Z.ltb_lt, Hpre, in_seq. lia.
Qed.

Lemma occurs_false c s : occurs c s = false -> c ∉ s.
Proof.
  unfold occurs. induction s as [|d s IH]; simpl.
  - intros _. apply not_elem_of_nil.
  - intros [Hd Hs]%orb_false_iff. apply not_elem_of_cons. split; [|auto].
    by apply Ascii.eqb_neq.
Qed.

(** From a block's opening bracket, the scan returns the index after the
    block. *)
Lemma scan_block opening closing body post i :
  opening <> closing ->
  block opening closing body = true ->
  scan opening closing (body ++ post) i 0 = Some (i + length body)%nat.
Proof.
  intros Hoc (Hhd & Htot & Hpre)%block_spec.
  destruct body as [|c body]; [done|]. simpl in Hhd. injection Hhd as ->.
  simpl. rewrite Ascii.eqb_refl.
  rewrite nesting_cons, Ascii.eqb_refl,
    (proj2 (Ascii.eqb_neq opening closing) Hoc) in Htot.
  rewrite (scan_reaches_end opening closing post Hoc); [f_equal; lia|lia|lia|].
  intros k Hk. specialize (Hpre (S k)). simpl in Hpre.
  rewrite nesting_cons, Ascii.eqb_refl,
    (proj2 (Ascii.eqb_neq opening closing) Hoc) in Hpre. lia.
Qed.
(** While every prefix keeps a bracket open, the scan assigns no
    [end_idx]. *)
Lemma scan_never_closes opening closing :
  opening <> closing ->
  forall l i count,
    0 <= count ->
    (forall k, (0 < k <= length l)%nat ->
               0 < count + nesting opening closing (take k l)) ->
    scan opening closing l i count = None.
Proof.
  intros Hoc. induction l as [|c l IH]; intros i count Hpos Hpre; [done|].
  simpl.
  assert (Hhead := Hpre 1%nat). simpl in Hhead. rewrite take_0 in Hhead.
  rewrite nesting_cons in Hhead. unfold nesting at 1 in Hhead. simpl in Hhead.
  assert (Hstep : forall k, (0 < k <= length l)%nat ->
            0 < count + (if Ascii.eqb c opening then 1 else 0)
                - (if Ascii.eqb c closing then 1 else 0)
                + nesting opening closing (take k l)).
  { intros k Hk. specialize (Hpre (S k)). simpl in Hpre.
    rewrite nesting_cons in Hpre. lia. }
  destruct (Ascii.eqb_spec c opening) as [->|Hno].
  - rewrite (proj2 (Ascii.eqb_neq opening closing) Hoc) in *.
    apply IH; [lia|]. intros k Hk. specialize (Hstep k Hk). lia.
  - destruct (Ascii.eqb_spec c closing) as [->|Hnc].
    + destruct (Z.eqb_spec (count - 1) 0); [lia|].
      apply IH; [lia|]. intros k Hk. specialize (Hstep k Hk). lia.
    + apply IH; [lia|]. intros k Hk. specialize (Hstep k Hk). lia.
Qed.

Lemma open_bracket_ne : "["%char <> "]"%char.
Proof. discriminate. Qed.

Lemma open_brace_ne : "{"%char <> "}"%char.
Proof. discriminate. Qed.

Lemma head_cons_inv (s : str) c : head s = Some c -> exists s', s = c :: s'.
Proof. destruct s as [|d s]; [done|]. intros [= ->]. eauto. Qed.

(** The slice the fallback scan takes when an array block follows prose
    without an array start. *)
Lemma bracket_slice_array pre body post :
  occurs "[" pre = false ->
  block "[" "]" body = true ->
  bracket_slice (pre ++ body ++ post) = Some body.
Proof.
  intros Hpre%occurs_false Hblock.
  destruct (block_spec _ _ _ Hblock) as ([body' ->]%head_cons_inv & _ & _).
  unfold bracket_slice, find_start, str in *.
  change (pre ++ ("["%char :: body') ++ post)
    with (pre ++ "["%char :: (body' ++ post)).
  rewrite (find_char_first _ _ _ Hpre). cbn beta iota.
  rewrite list_lookup_middle by done. cbn beta iota.
  rewrite Ascii.eqb_refl, drop_app_length.
  change ("["%char :: body' ++ post) with (("["%char :: body') ++ post).
  rewrite (scan_block _ _ _ _ _ open_bracket_ne Hblock).
  destruct (Nat.ltb_spec (length pre) (length pre + length ("["%char :: body')));
    [|simpl in *; lia].
  f_equal. replace (length pre + _ - length pre)%nat
    with (length ("["%char :: body')) by lia.
  apply take_app_length.
Qed.

(** The same for an object block, in a text without any array start. *)
Lemma bracket_slice_object pre body post :
  occurs "[" (pre ++ body ++ post) = false ->
  occurs "{" pre = false ->
  block "{" "}" body = true ->
  bracket_slice (pre ++ body ++ post) = Some body.
Proof.
  intros Hnone%occurs_false Hpre%occurs_false Hblock.
  destruct (block_spec _ _ _ Hblock) as ([body' ->]%head_cons_inv & _ & _).
  unfold bracket_slice, find_start, str in *.
  rewrite (find_char_absent _ _ Hnone).
  change (pre ++ ("{"%char :: body') ++ post)
    with (pre ++ "{"%char :: (body' ++ post)).
  rewrite (find_char_first _ _ _ Hpre). cbn beta iota.
  rewrite list_lookup_middle by done. cbn beta iota.
  change (Ascii.eqb "{" "[") with false. cbn match.
  rewrite drop_app_length.
  change ("{"%char :: body' ++ post) with (("{"%char :: body') ++ post).
  rewrite (scan_block _ _ _ _ _ open_brace_ne Hblock).
  destruct (Nat.ltb_spec (length pre) (length pre + length ("{"%char :: body')));
    [|simpl in *; lia].
  f_equal. replace (length pre + _ - length pre)%nat
    with (length ("{"%char :: body')) by lia.
  apply take_app_length.
Qed.

(** No slice is taken when the first array start is never balanced. *)
Lemma bracket_slice_unclosed pre rest :
  occurs "[" pre = false ->
  head rest = Some "["%char ->
  unclosed "[" "]" rest = true ->
  bracket_slice (pre ++ rest) = None.
Proof.
  intros Hpre%occurs_false [rest' ->]%head_cons_inv Hun.
  unfold bracket_slice, find_start, str in *.
  rewrite (find_char_first _ _ _ Hpre). cbn beta iota.
  rewrite list_lookup_middle by done. cbn beta iota.
  rewrite Ascii.eqb_refl, drop_app_length.
  rewrite (scan_never_closes _ _ open_bracket_ne); [done|lia|].
  intros k Hk. pose proof (unclosed_spec _ _ _ Hun k Hk). lia.
Qed.

(** *** The slice of the fallback scan *)

Lemma find_char_Some c s i :
  find_char c s = Some i ->
  exists pre rest, s = pre ++ c :: rest /\ length pre = i /\ occurs c pre = false.
Proof.
  revert i. induction s as [|d s IH]; intros i; simpl; [done|].
  destruct (Ascii.eqb_spec d c) as [->|Hne].
  - intros [= <-]. by exists [], s.
  - destruct (find_char c s) as [j|]; [|done]. intros [= <-].
    destruct (IH j eq_refl) as (pre & rest & -> & <- & Hpre).
    exists (d :: pre), rest. repeat split. unfold occurs in *. simpl.
    rewrite Hpre. destruct (Ascii.eqb_spec c d); [congruence|done].
Qed.

Lemma find_char_None c s : find_char c s = None -> occurs c s = false.
Proof.
  induction s as [|d s IH]; simpl; [done|].
  destruct (Ascii.eqb_spec d c) as [->|Hne]; [done|].
  destruct (find_char c s); [done|]. intros _. unfold occurs in *. simpl.
  rewrite IH by done. destruct (Ascii.eqb_spec c d); [congruence|done].
Qed.

(** Where the scan stops, the brackets balance for the first time. *)
Lemma scan_sound opening closing :
  opening <> closing ->
  forall l i count e,
    0 < count ->
    scan opening closing l i count = Some e ->
    exists k,
      e = (i + k)%nat /\ (0 < k <= length l)%nat /\
      count + nesting opening closing (take k l) = 0 /\
      forall j, (j < k)%nat -> 0 < count + nesting opening closing (take j l).
Proof.
  intros Hoc. induction l as [|c l IH]; intros i count e Hpos; simpl; [done|].
  assert (Hcons : forall count',
            0 < count' ->
            count' = count + (if Ascii.eqb c opening then 1 else 0)
                     - (if Ascii.eqb c closing then 1 else 0) ->
            scan opening closing l (S i) count' = Some e ->
            exists k,
              e = (i + k)%nat /\ (0 < k <= S (length l))%nat /\
              count + nesting opening closing (take k (c :: l)) = 0 /\
              forall j, (j < k)%nat ->
                        0 < count + nesting opening closing (take j (c :: l))).
  { intros count' Hpos' Hc' Hscan.
    destruct (IH (S i) count' e Hpos' Hscan) as (k & -> & Hk & Htot & Hpre).
    exists (S k). split; [lia|]. split; [lia|]. simpl.
    rewrite nesting_cons. split; [lia|].
    intros [|j] Hj; simpl.
    - unfold nesting. simpl. lia.
    - rewrite nesting_cons. specialize (Hpre j). lia. }
  destruct (Ascii.eqb_spec c opening) as [->|Hno].
  - rewrite (proj2 (Ascii.eqb_neq opening closing) Hoc) in Hcons.
    apply Hcons; lia.
  - destruct (Ascii.eqb_spec c closing) as [->|Hnc].
    + destruct (Z.eqb_spec (count - 1) 0) as [Hz|Hz].
      * intros [= <-]. exists 1%nat. split; [lia|]. split; [simpl; lia|].
        simpl. rewrite take_0, nesting_cons, Ascii.eqb_refl.
        rewrite (proj2 (Ascii.eqb_neq closing opening)) by congruence.
        unfold nesting. simpl. split; [lia|].
        intros j Hj. replace j with 0%nat by lia. simpl. lia.
      * apply Hcons; lia.
    + apply Hcons; lia.
Qed.

Lemma block_intro opening closing s :
  head s = Some opening ->
  nesting opening closing s = 0 ->
  (forall k, (0 < k < length s)%nat -> 0 < nesting opening closing (take k s)) ->
  block opening closing s = true.
Proof.
  intros Hhd Htot Hpre. unfold block. rewrite !andb_true_iff. repeat split.
  - destruct s as [|c s]; [done|]. injection Hhd as ->. apply Ascii.eqb_refl.
  - by apply Z.eqb_eq.
  - apply forallb_forall. intros k Hk%in_seq. apply Z.ltb_lt, Hpre. lia.
Qed.

(** From an opening bracket, what the scan delimits is a block. *)
Lemma scan_block_sound opening closing l i e :
  opening <> closing ->
  head l = Some opening ->
  scan opening closing l i 0 = Some e ->
  exists k, e = (i + k)%nat /\ (0 < k <= length l)%nat /\
            block opening closing (take k l) = true.
Proof.
  intros Hoc [l' ->]%head_cons_inv. simpl. rewrite Ascii.eqb_refl.
  intros Hscan.
  destruct (scan_sound opening closing Hoc l' (S i) 1 e ltac:(lia) Hscan)
    as (k & -> & Hk & Htot & Hpre).
  exists (S k). split; [lia|]. split; [simpl; lia|].
  apply block_intro.
  - done.
  - simpl. rewrite nesting_cons, Ascii.eqb_refl,
      (proj2 (Ascii.eqb_neq opening closing) Hoc). lia.
  - intros j Hj. rewrite length_take in Hj. simpl in Hj.
    rewrite take_take. replace (j `min` S k)%nat with j by lia.
    destruct j as [|j]; [lia|]. simpl.
    rewrite nesting_cons, Ascii.eqb_refl,
      (proj2 (Ascii.eqb_neq opening closing) Hoc).
    specialize (Hpre j). lia.
Qed.

(** What the fallback scan slices is the first bracketed block. *)
Lemma bracket_slice_sound s json_str :
  bracket_slice s = Some json_str ->
  exists pre post,
    s = pre ++ json_str ++ post /\
    ((occurs "[" pre = false /\ block "[" "]" json_str = true) \/
     (occurs "[" s = false /\ occurs "{" pre = false /\
      block "{" "}" json_str = true)).
Proof.
  unfold bracket_slice, find_start, str in *.
  destruct (find_char "[" s) as [i|] eqn:Hfa.
  - destruct (find_char_Some _ _ _ Hfa) as (pre & rest & -> & <- & Hpre).
    cbn beta iota. rewrite list_lookup_middle by done.
    cbn beta iota. rewrite Ascii.eqb_refl, drop_app_length.
    destruct (scan "[" "]" ("["%char :: rest) (length pre) 0) as [e|] eqn:Hscan;
      [|done].
    destruct (scan_block_sound "[" "]" ("["%char :: rest) _ _
                open_bracket_ne eq_refl Hscan)
      as (k & -> & Hk & Hblock).
    destruct (Nat.ltb_spec (length pre) (length pre + k)); [|lia].
    intros [= <-]. exists pre, (drop k ("["%char :: rest)).
    replace (length pre + k - length pre)%nat with k by lia.
    rewrite take_drop. split; [done|]. by left.
  - pose proof (find_char_None _ _ Hfa) as Hnone.
    destruct (find_char "{" s) as [i|] eqn:Hfo; [|done].
    destruct (find_char_Some _ _ _ Hfo) as (pre & rest & -> & <- & Hpre).
    cbn beta iota. rewrite list_lookup_middle by done.
    cbn beta iota. change (Ascii.eqb "{" "[") with false. cbn match.
    rewrite drop_app_length.
    destruct (scan "{" "}" ("{"%char :: rest) (length pre) 0) as [e|] eqn:Hscan;
      [|done].
    destruct (scan_block_sound "{" "}" ("{"%char :: rest) _ _
                open_brace_ne eq_refl Hscan)
      as (k & -> & Hk & Hblock).
    destruct (Nat.ltb_spec (length pre) (length pre + k)); [|lia].
    intros [= <-]. exists pre, (drop k ("{"%char :: rest)).
    replace (length pre + k - length pre)%nat with k by lia.
    rewrite take_drop. split; [done|]. by right.
Qed.

Section WithDecoder.

Variable json_loads : str -> result json.

(** What the extractor returns, by cases on the decoder. *)
Lemma extractor_direct t v :
  json_loads (clean t) = Ok v -> _parse_json_response json_loads t = Ok v.
Proof. intros H. unfold _parse_json_response, parse_body. by rewrite H. Qed.


Lemma extractor_no_slice t :
  decodes json_loads (clean t) = false ->
  bracket_slice (clean t) = None ->
  _parse_json_response json_loads t = Ok empty_object.
Proof.
  unfold decodes, _parse_json_response, parse_body. intros H1 H2.
  destruct (json_loads (clean t)) as [v|e]; [done|].
  rewrite H2. by destruct e.
Qed.


(** A slice that begins with a bracket is one of the bracketed slices. *)
Lemma bracketed_slices_intro pre c body post :
  c = "["%char \/ c = "{"%char ->
  In (c :: body) (bracketed_slices (pre ++ (c :: body) ++ post)).
Proof.
  intros Hc. unfold bracketed_slices, str in *. apply in_flat_map.
  exists (length pre). split.
  - apply in_seq. rewrite !length_app. simpl. lia.
  - change ((c :: body) ++ post) with (c :: (body ++ post)).
    rewrite list_lookup_middle by done.
    replace (Ascii.eqb c "[" || Ascii.eqb c "{") with true
      by (by destruct Hc as [->| ->]).
    apply in_map_iff. exists (length (c :: body)). split.
    + rewrite drop_app_length.
      change (c :: body ++ post) with ((c :: body) ++ post).
      by rewrite take_app_length.
    + apply in_seq. rewrite length_app. cbn [length]. rewrite length_app. lia.
Qed.

(** C8, as amended. The extractor returns on every text, whatever the
    decoder does. It returns the empty object on every text in which the
    decoder finds nothing: it accepts neither the cleaned text as a whole
    nor any slice of it that begins with a bracket. A cleaned text that
    decodes as a whole is returned as its value, whatever the value: also
    a number, a string or null, which hold no object and no array. *)
Theorem C8_extractor_total_and_defaults t :
  returns (_parse_json_response json_loads t) /\
  (nothing_decodes json_loads t = true ->
   _parse_json_response json_loads t = Ok empty_object) /\
  (forall v, json_loads (clean t) = Ok v ->
             _parse_json_response json_loads t = Ok v).
Proof.
  split; [|split].
  - unfold returns, _parse_json_response, parse_body.
    destruct (json_loads (clean t)) as [v|e]; simpl; [eauto|].
    destruct e; simpl; eauto.
    destruct (bracket_slice (clean t)) as [json_str|]; simpl; [|eauto].
    destruct (json_loads json_str) as [v|e]; simpl; eauto.
  - unfold nothing_decodes. intros [Hwhole Hslices]%andb_true_iff.
    unfold _parse_json_response, parse_body. unfold decodes in Hwhole.
    destruct (json_loads (clean t)) as [v|e]; [done|].
    destruct e; simpl; try done.
    destruct (bracket_slice (clean t)) as [json_str|] eqn:Hslice; [|done].
    destruct (bracket_slice_sound _ _ Hslice) as (pre & post & Hs & Hblock).
    assert (Hin : In json_str (bracketed_slices (clean t))).
    { rewrite Hs.
      destruct Hblock as [[_ Hb]|(_ & _ & Hb)];
        apply andb_true_iff in Hb as [[Hhd _]%andb_true_iff _];
        destruct json_str as [|c body]; try discriminate;
        apply Ascii.eqb_eq in Hhd as ->;
        apply bracketed_slices_intro; auto. }
    rewrite forallb_forall in Hslices. specialize (Hslices _ Hin).
    unfold decodes in Hslices.
    by destruct (json_loads json_str).
  - apply extractor_direct.
Qed.

(** C10. In the fallback scan (the cleaned text does not decode as a
    whole), an array start anywhere in the text is where the scan starts,
    whether or not an object start precedes it; and when no closing
    bracket balances the first array start, the extractor returns the
    empty object, whatever complete object the text holds. *)
Theorem C10_unclosed_array_start_wins t pre rest :
  decodes json_loads (clean t) = false ->
  clean t = pre ++ rest ->
  occurs "[" pre = false ->
  head rest = Some "["%char ->
  unclosed "[" "]" rest = true ->
  find_start (clean t) = Some (length pre) /\
  _parse_json_response json_loads t = Ok empty_object.
Proof.
  intros Hdirect Hc Hpre Hhd Hun. split.
  - rewrite Hc. destruct (head_cons_inv _ _ Hhd) as [rest' ->].
    unfold find_start. by rewrite (find_char_first _ _ _ (occurs_false _ _ Hpre)).
  - apply extractor_no_slice; [done|].
    rewrite Hc. by apply bracket_slice_unclosed.
Qed.

End WithDecoder.

(** The scenario of the specification. *)
Example extractor_scenario :
  _parse_json_response loads
    (js "Sure! [{'tool_name':'restock_book','parameters':{'isbn':'X','quantity':2}}] Done.")
  = Ok (JArray [JObject [("tool_name", JString "restock_book");
                         ("parameters", JObject [("isbn", JString "X");
                                                 ("quantity", JInt 2)])]]).
Proof. vm_compute. reflexivity. Qed.


(** The round-trip property fails for the reference decoder. *)
Lemma round_trip_fails : ~ round_trip loads.
Proof.
  intros H.
  specialize (H (js "note [sic] {'a':1}") 11%nat 18%nat (JObject [("a", JInt 1)])).
  assert (He : embedded_containers loads (js "note [sic] {'a':1}")
               = [(11%nat, 18%nat, JObject [("a", JInt 1)])])
    by (vm_compute; reflexivity).
  specialize (H He). vm_compute in H. discriminate.
Qed.

(** The analysis answer in the format the prompt asks for, after a word of
    prose: the extractor returns the list of tool names, not the answer. *)
Example analysis_answer_after_prose :
  _parse_json_response loads
    (js "Here: {'needs_tools': true, 'tools_needed': ['find_books']}")
  = Ok (JArray [JString "find_books"]).
Proof. vm_compute. reflexivity. Qed.


Lemma C8_witness :
  nothing_decodes loads (text "I could not find any [book.") = true /\
  _parse_json_response loads (text "I could not find any [book.")
  = Ok empty_object.
Proof.
  assert (H : nothing_decodes loads (text "I could not find any [book.") = true)
    by (vm_compute; reflexivity).
  split; [exact H|].
  exact (proj1 (proj2 (C8_extractor_total_and_defaults loads _)) H).
Defined.

(** C8, counterexample. The text [42] holds no JSON object and no JSON
    array, and the extractor returns the number 42, not the empty
    object. *)
Lemma C8_counterexample :
  embedded_containers loads (text "42") = [] /\
  occurs "[" (text "42") = false /\ occurs "{" (text "42") = false /\
  _parse_json_response loads (text "42") = Ok (JInt 42) /\
  JInt 42 <> empty_object.
Proof. repeat split; try (vm_compute; reflexivity). discriminate. Qed.

Lemma C10_witness :
  embedded_containers loads (js "{'a':[ {'b':1}")
  = [(7%nat, 14%nat, JObject [("b", JInt 1)])] /\
  find_start (clean (js "{'a':[ {'b':1}")) = Some 5%nat /\
  _parse_json_response loads (js "{'a':[ {'b':1}") = Ok empty_object.
Proof.
  split; [vm_compute; reflexivity|].
  apply (C10_unclosed_array_start_wins loads (js "{'a':[ {'b':1}")
           (js "{'a':") (js "[ {'b':1}"));
    vm_compute; reflexivity.
Defined.

End ExtractorFacts.

(* ===================================================================== *)
(** * The operation executor *)
(* ===================================================================== *)

Section ExecutorFacts.

Context {world output : Type}.
Implicit Types (tools : registry world output) (td : decision)
  (a : agent world output).

(** A call with a tool name that can be looked up is completed: it yields
    a result, and the usage history grows by one record if the call is a
    recorded one, by none otherwise. *)
Lemma execute_tool_completes tools td a :
  well_named td = true ->
  exists r new,
    execute_tool tools td a
    = (Ok r, mkAgent (tool_usage_history a ++ new)
                     (state (snd (execute_tool tools td a)))) /\
    length new = (if recorded tools td then 1 else 0)%nat.
Proof.
  unfold well_named, execute_tool, recorded, registered.
  assert (Hnone : forall (r : tool_result output),
            exists r0 new, (Ok r, a) = (Ok r0, mkAgent (tool_usage_history a ++ new)
                                                       (state a)) /\ length new = 0%nat).
  { intros r. exists r, []. rewrite app_nil_r. by destruct a. }
  destruct (dict_get "tool_name" td) as [v|]; intros Hn; [|apply Hnone].
  destruct v as [|b|z|q|s|l|m]; simpl in Hn; try discriminate; try apply Hnone.
  destruct (registry_get s tools) as [run|]; [|apply Hnone].
  destruct (restock_rejected s _) as [[|]|e]; simpl.
  - apply Hnone.
  - destruct (run _ (state a)) as [[o|e] w']; simpl; eexists _, [_]; eauto.
  - eexists _, [_]; eauto.
Qed.

Lemma execute_loop_acc tools tds results a :
  execute_loop tools tds results a
  = (match fst (execute_loop tools tds [] a) with
     | Ok l => Ok (results ++ l)
     | Raise e => Raise e
     end, snd (execute_loop tools tds [] a)).
Proof.
  revert results a. induction tds as [|td tds IH]; intros results a; simpl.
  - by rewrite app_nil_r.
  - destruct (execute_tool tools td a) as [[r|e] a']; [|done].
    rewrite (IH (results ++ [r])), (IH ([] ++ [r])). simpl.
    destruct (fst (execute_loop tools tds [] a')); [|done].
    by rewrite <- app_assoc.
Qed.

(** A completed call does not stop the loop: the calls after it are
    executed on the agent it leaves. *)
Lemma execute_tools_cons tools td tds a r a' :
  execute_tool tools td a = (Ok r, a') ->
  execute_tools tools (td :: tds) a = prepend r (execute_tools tools tds a').
Proof.
  intros H. unfold execute_tools, prepend. simpl. rewrite H.
  rewrite execute_loop_acc. simpl. by destruct (fst _).
Qed.

(** The history after a batch: one record per recorded call, appended. *)
Lemma execute_tools_history tools tds :
  forallb well_named tds = true ->
  forall a, exists results new,
    execute_tools tools tds a
    = (Ok results, mkAgent (tool_usage_history a ++ new)
                           (state (snd (execute_tools tools tds a)))) /\
    length results = length tds /\
    length new = length (List.filter (recorded tools) tds).
Proof.
  induction tds as [|td tds IH]; intros Hn a.
  - exists [], []. rewrite app_nil_r. by destruct a.
  - simpl in Hn. apply andb_true_iff in Hn as [Htd Htds].
    destruct (execute_tool_completes tools td a Htd) as (r & new1 & Hstep & Hlen1).
    rewrite (execute_tools_cons _ _ _ _ _ _ Hstep).
    destruct (IH Htds (mkAgent (tool_usage_history a ++ new1)
                               (state (snd (execute_tool tools td a)))))
      as (results & new2 & Hrest & Hlenr & Hlen2).
    rewrite Hrest. unfold prepend. simpl.
    exists (r :: results), (new1 ++ new2). rewrite app_assoc.
    split; [done|]. split; [simpl; lia|].
    rewrite length_app, Hlen1, Hlen2.
    destruct (recorded tools td); simpl; lia.
Qed.

(** C4, as amended. For a list of N calls whose tool names can be looked
    up, the executor returns N results and appends to the usage history
    exactly one record for every call that names a registered tool and is
    not turned down by the restock check: at most N records, and N only
    if every call is such a call. *)
Theorem C4_history_grows_by_recorded_calls tools tds a :
  forallb well_named tds = true ->
  exists results a',
    execute_tools tools tds a = (Ok results, a') /\
    length results = length tds /\
    (length (tool_usage_history a')
     = length (tool_usage_history a)
       + length (List.filter (recorded tools) tds))%nat /\
    (length (tool_usage_history a')
     <= length (tool_usage_history a) + length tds)%nat.
Proof.
  intros Hn.
  destruct (execute_tools_history tools tds Hn a)
    as (results & new & Hrun & Hlenr & Hlen).
  eexists _, _. split; [exact Hrun|]. split; [done|]. simpl.
  rewrite length_app, Hlen. split; [done|].
  pose proof (filter_length_le (recorded tools) tds). lia.
Qed.

(** The success flag of a result is set exactly when the tool returned. *)
Lemma success_iff_tool_returned tools td a r a' :
  execute_tool tools td a = (Ok r, a') ->
  tr_success r = true <-> exists o, tr_result r = ToolOutput o.
Proof.
  unfold execute_tool.
  destruct (registered tools _) as [[[name run]|]|e]; [| |done].
  - destruct (restock_rejected name _) as [[|]|e]; simpl.
    + intros [= <- _]. simpl. split; [done|]. by intros [o [=]].
    + destruct (run _ (state a)) as [[o|e] w']; intros [= <- _]; simpl.
      * split; eauto.
      * split; [done|]. by intros [o [=]].
    + intros [= <- _]. simpl. split; [done|]. by intros [o [=]].
  - intros [= <- _]. simpl. split; [done|]. by intros [o [=]].
Qed.

End ExecutorFacts.

(** C4, counterexample. A call of an unregistered tool and a restock of
    0 copies: two calls, two failed results, and a usage history that has
    not grown by two: it is still empty. *)
Lemma C4_counterexample :
  fst (execute_tools scenario_tools
         [call "no_such_tool" [];
          call "restock_book" [("isbn", JString "X"); ("quantity", JInt 0)]]
         scenario_agent)
  = Ok [mkResult (Some (JString "no_such_tool"))
                 (UnknownTool (Some (JString "no_such_tool"))) false;
        mkResult (Some (JString "restock_book"))
                 (NonPositiveRestock (Some (JInt 0))) false] /\
  tool_usage_history scenario_agent = [] /\
  tool_usage_history
    (snd (execute_tools scenario_tools
            [call "no_such_tool" [];
             call "restock_book" [("isbn", JString "X"); ("quantity", JInt 0)]]
            scenario_agent)) = [].
Proof. repeat split; reflexivity. Qed.

Lemma C4_witness :
  length (tool_usage_history (snd (execute_tools scenario_tools
            [call "no_such_tool" []; call "list_customers" []; order_call 1 "X" 6]
            scenario_agent))) = 2%nat.
Proof.
  destruct (C4_history_grows_by_recorded_calls scenario_tools
              [call "no_such_tool" []; call "list_customers" []; order_call 1 "X" 6]
              scenario_agent eq_refl) as (results & a' & Hrun & _ & Hlen & _).
  rewrite Hrun. simpl. rewrite Hlen. reflexivity.
Defined.

Section CatalogueCalls.

Context {report : Type}.
Variables (rd : readers) (depth : nat)
  (read_only : string -> tool world (output report)).

(** The tools of the three catalogue operations raise what the reading
    of the parameters raises, and leave the world as it is. *)
Lemma refused_arguments_raise name parameters w e :
  catalogue_operation name = true ->
  read_arguments rd name parameters = Raise e ->
  exists run,
    registry_get name (agent_tools rd (S depth) read_only) = Some run /\
    run parameters w = (Raise e, w).
Proof.
  unfold catalogue_operation, read_arguments. intros Hop.
  destruct (String.eqb_spec name "create_order") as [->|Hn1].
  { intros H. eexists. split; [reflexivity|]. unfold run_create_order.
    destruct (required (as_int rd) "customer_id" parameters) as [cid|e1];
      simpl in H; [|congruence].
    destruct (required (as_items rd) "items" parameters) as [items|e2];
      simpl in H; [discriminate|congruence]. }
  destruct (String.eqb_spec name "restock_book") as [->|Hn2].
  { intros H. eexists. split; [reflexivity|]. unfold run_restock_book.
    destruct (required (as_str rd) "isbn" parameters) as [s|e1];
      simpl in H; [|congruence].
    destruct (bind (required (as_int rd) "quantity" parameters) RestockBookInput)
      as [q|e2]; simpl in H; [discriminate|congruence]. }
  destruct (String.eqb_spec name "update_price") as [->|Hn3]; [|done].
  intros H. eexists. split; [reflexivity|]. unfold run_update_price.
  destruct (required (as_str rd) "isbn" parameters) as [s|e1];
    simpl in H; [|congruence].
  destruct (bind (required (as_float rd) "new_price" parameters) UpdatePriceInput)
    as [p|e2]; simpl in H; [discriminate|congruence].
Qed.

(** A call that its handler turns down returns the reason of the handler
    and leaves the data as they are. *)
Lemma turned_down_returns name parameters w :
  turned_down rd (world_db w) name parameters ->
  hd Quiet (world_events w) = Quiet ->
  exists run r w',
    registry_get name (agent_tools rd (S depth) read_only) = Some run /\
    restock_rejected name parameters = Ok false /\
    run parameters w = (Ok (Reply r), w') /\
    is_success r = false /\ world_db w' = world_db w.
Proof.
  intros [parameters' cid items Hcid Hitems Hbad
         |parameters' s q Hpre Hs Hq Hb
         |parameters' s p Hs Hp Hb] Hev.
  - destruct (order_transaction_bad _ _ _ Hbad) as (r & Hbody & Hr).
    eexists _, r, _. split; [reflexivity|]. split; [reflexivity|].
    unfold run_create_order. rewrite Hcid, Hitems.
    unfold create_order_tool. cbn [create_order_safe]. rewrite Hev.
    cbn [get_db_cursor]. rewrite Hbody. cbn. done.
  - eexists _, (BookNotFound s), _. split; [reflexivity|].
    split; [exact Hpre|].
    unfold run_restock_book. rewrite Hs, Hq, Hev.
    unfold restock_book_tool, restock_transaction. cbn [get_db_cursor].
    rewrite Hb. done.
  - eexists _, (BookNotFound s), _. split; [reflexivity|].
    split; [reflexivity|].
    unfold run_update_price. rewrite Hs, Hp, Hev.
    unfold update_price_tool, price_transaction. cbn [get_db_cursor].
    rewrite Hb. done.
Qed.

(** C5, as amended. A validation failure of a call of one of the three
    catalogue operations never stops the batch and never changes the
    data, and the success flag of its result tells who found it. When the
    argument schema refuses the parameters (a field is missing or has a
    value the schema does not take), the result carries success = false
    and the text of the executor. When the parameters are accepted and
    the handler itself finds the failure (customer or item not found,
    quantity not positive, stock too low; a restock or a price update of
    a book that is not in the catalogue), on a storage layer that does
    not fail, the result carries the reason of the handler as its text,
    with success = true. *)
Theorem C5_validation_failures td tds a name :
  dict_get "tool_name" td = Some (JString name) ->
  (forall e,
      catalogue_operation name = true ->
      read_arguments rd name (default (JObject []) (dict_get "parameters" td))
      = Raise e ->
      exists m a',
        (forall o, m <> ToolOutput o) /\
        world_db (state a') = world_db (state a) /\
        execute_tools (agent_tools rd (S depth) read_only) (td :: tds) a
        = prepend (mkResult (Some (JString name)) m false)
                  (execute_tools (agent_tools rd (S depth) read_only) tds a')) /\
  (turned_down rd (world_db (state a)) name
               (default (JObject []) (dict_get "parameters" td)) ->
   hd Quiet (world_events (state a)) = Quiet ->
   exists r a',
     is_success r = false /\
     world_db (state a') = world_db (state a) /\
     execute_tools (agent_tools rd (S depth) read_only) (td :: tds) a
     = prepend (mkResult (Some (JString name)) (ToolOutput (Reply r)) true)
               (execute_tools (agent_tools rd (S depth) read_only) tds a')).
Proof.
  intros Hname. split.
  - intros e Hop Hread.
    destruct (refused_arguments_raise name _ (state a) e Hop Hread)
      as (run & Hrun & Hraise).
    assert (Hstep : exists m a',
               (forall o, m <> ToolOutput o) /\
               world_db (state a') = world_db (state a) /\
               execute_tool (agent_tools rd (S depth) read_only) td a
               = (Ok (mkResult (Some (JString name)) m false), a')).
    { unfold execute_tool. rewrite Hname. cbn [registered]. rewrite Hrun.
      destruct (restock_rejected name _) as [[|]|e0].
      - eexists _, _. split; [|split; [|reflexivity]]; done.
      - rewrite Hraise. cbn. eexists _, _.
        split; [|split; [|reflexivity]]; done.
      - cbn. eexists _, _. split; [|split; [|reflexivity]]; done. }
    destruct Hstep as (m & a' & Hm & Hw & Hstep).
    exists m, a'. split; [done|]. split; [done|].
    by apply execute_tools_cons.
  - intros Hdown Hev.
    destruct (turned_down_returns name _ (state a) Hdown Hev)
      as (run & r & w' & Hrun & Hpre & Hret & Hr & Hw).
    exists r. eexists. split; [done|].
    split; [|apply execute_tools_cons; unfold execute_tool; rewrite Hname;
             cbn [registered]; rewrite Hrun, Hpre, Hret; reflexivity].
    done.
Qed.

End CatalogueCalls.

(** C5, counterexample. The order of 6 units of X, whose stock is 5: the
    handler returns its insufficient-stock reason and the executor flags
    the result as a success. *)
Lemma C5_counterexample :
  fst (execute_tools scenario_tools [order_call 1 "X" 6] scenario_agent)
  = Ok [mkResult (Some (JString "create_order"))
                 (ToolOutput (Reply (NotEnoughStock "X" 5 6))) true].
Proof. reflexivity. Qed.

(** A price update without its new price, and a restock of a book that
    the catalogue does not have, each followed by another call. *)
Lemma C5_witness :
  (exists m a',
      (forall o, m <> ToolOutput o) /\
      world_db (state a') = scenario_db /\
      execute_tools scenario_tools
        [call "update_price" [("isbn", JString "X")]; call "list_customers" []]
        scenario_agent
      = prepend (mkResult (Some (JString "update_price")) m false)
                (execute_tools scenario_tools [call "list_customers" []] a')) /\
  (exists r a',
      is_success r = false /\
      world_db (state a') = scenario_db /\
      execute_tools scenario_tools
        [call "restock_book" [("isbn", JString "Y"); ("quantity", JInt 2)];
         call "list_customers" []]
        scenario_agent
      = prepend (mkResult (Some (JString "restock_book"))
                          (ToolOutput (Reply r)) true)
                (execute_tools scenario_tools [call "list_customers" []] a')).
Proof.
  split.
  - exact (proj1 (C5_validation_failures typed_readers 99 naming_tool
                    (call "update_price" [("isbn", JString "X")])
                    [call "list_customers" []] scenario_agent
                    "update_price" eq_refl)
             (ValidationError "new_price") eq_refl eq_refl).
  - refine (proj2 (C5_validation_failures typed_readers 99 naming_tool
                     (call "restock_book"
                           [("isbn", JString "Y"); ("quantity", JInt 2)])
                     [call "list_customers" []] scenario_agent
                     "restock_book" eq_refl) _ eq_refl).
    apply (restock_turned_down typed_readers scenario_db _ "Y" 2);
      reflexivity.
Defined.

(* ===================================================================== *)
(** * The request orchestrator *)
(* ===================================================================== *)

Section OrchestratorFacts.

Context {world output : Type}.
Variables (json_loads : str -> result json)
  (tools : registry world output)
  (generate_content : prompt output -> result str)
  (exn_str : exn -> string)
  (mentions_lock : message output -> bool).

(** The stages that catch their own exceptions cannot fail; what can
    leave the [try] block is what the join of the tool names or the
    executor raises. *)
Lemma pipeline_raises user_request a e :
  fst (pipeline json_loads tools generate_content exn_str mentions_lock
                user_request a) = Raise e ->
  e = TypeError.
Proof.
  unfold pipeline.
  set (an := analyze_request _ _ _ _).
  destruct (truthy _ && truthy _); [|done].
  destruct (determine_tool_parameters _ _ _ _) as [[|td tds]|e'] eqn:Hd; simpl.
  - done.
  - destruct (execute_tools tools (td :: tds) a) as [[res|e'] a'] eqn:Hx;
      simpl; [done|]. intros [= ->].
    clear Hd. unfold execute_tools in Hx.
    assert (Hloop : forall l acc (a0 a1 : agent world output) e0,
              execute_loop tools l acc a0 = (Raise e0, a1) -> e0 = TypeError).
    { induction l as [|d l IH]; intros acc a0 a1 e0; simpl; [done|].
      destruct (execute_tool tools d a0) as [[r|e1] a2] eqn:Hstep.
      - apply IH.
      - intros [= <- _]. unfold execute_tool in Hstep.
        destruct (registered tools _) as [[[name run]|]|e2] eqn:Hreg.
        + destruct (restock_rejected name _) as [[|]|e3]; simpl in Hstep;
            try done.
          destruct (run _ (state a0)) as [[o|e4] w']; done.
        + done.
        + injection Hstep as <- _. unfold registered in Hreg.
          destruct (dict_get "tool_name" d) as [v|]; [|done].
          destruct v as [|b|z|q|s|l0|m]; simpl in Hreg; congruence. }
    eauto.
  - intros [= <-]. unfold determine_tool_parameters in Hd.
    destruct (negb _); [done|].
    destruct (default _ _) as [|b|z|q|s|l|m]; simpl in Hd; try congruence.
    assert (Hall : forall l0 e0, all_strings l0 = Raise e0 -> e0 = TypeError).
    { induction l0 as [|v l0 IH]; intros e0; simpl; [done|].
      destruct v as [|b'|z'|q'|s'|l'|m']; try (by intros [= <-]).
      destruct (all_strings l0) eqn:Hl0; simpl; [done|]. intros [= <-]. eauto. }
    destruct (all_strings l) eqn:Hl; simpl in Hd; [done|].
    injection Hd as <-. eauto.
Qed.

(** C9. The entry point returns a response for every request, whatever
    the completion service, the decoder and the tools do; and when an
    exception leaves a stage of the pipeline, the response is the
    apologetic message with the error reason, an empty list of operation
    calls, an empty list of results and the needs-operations flag false. *)
Theorem C9_entry_point_never_raises user_request a :
  (exists r,
      fst (process_request json_loads tools generate_content exn_str
                           mentions_lock user_request a) = Ok r) /\
  (forall e,
      fst (pipeline json_loads tools generate_content exn_str mentions_lock
                    user_request a) = Raise e ->
      fst (process_request json_loads tools generate_content exn_str
                           mentions_lock user_request a)
      = Ok (mkResponse (Errored e) (AnalysisError e) [] [] (JBool false))).
Proof.
  unfold process_request.
  destruct (pipeline _ _ _ _ _ _ _) as [[r|e] a']; simpl.
  - split; [eauto|]. intros e [=].
  - split; [eauto|]. by intros e' [= <-].
Qed.

End OrchestratorFacts.

(** An analysis answer whose list of tool names holds a number makes the
    join of line 199 raise; the turn ends with the error response. *)
Lemma C9_witness :
  fst (process_request loads scenario_tools
         (scripted (js "{'needs_tools': true, 'tools_needed': [1]}") (js "[]"))
         (fun _ => "error"%string) (fun _ => false)
         (text "sell a book") scenario_agent)
  = Ok (mkResponse (Errored TypeError) (AnalysisError TypeError) [] []
                   (JBool false)).
Proof.
  apply (proj2 (C9_entry_point_never_raises loads scenario_tools
                  (scripted (js "{'needs_tools': true, 'tools_needed': [1]}")
                            (js "[]"))
                  (fun _ => "error"%string) (fun _ => false)
                  (text "sell a book") scenario_agent)).
  vm_compute. reflexivity.
Defined.

(** A turn that runs to its end: the order of 3 units of X is planned,
    executed and reported. *)
Example process_request_scenario :
  tools_used <$> (match fst (process_request loads scenario_tools
         (scripted (js "{'needs_tools': true, 'tools_needed': ['create_order']}")
                   (js "[{'tool_name': 'create_order', 'parameters': {'customer_id': 1, 'items': [{'isbn':'X','quantity':3}]}}]"))
         (fun _ => "error"%string) (fun _ => false)
         (text "sell a book") scenario_agent) with
                  | Ok r => Some r
                  | Raise _ => None
                  end)
  = Some [order_call 1 "X" 3].
Proof. vm_compute. reflexivity. Qed.

(* ===================================================================== *)
(** * Further properties of the catalogue operations *)
(* ===================================================================== *)

Section CatalogueOperations.

Implicit Types (db : database) (items : list item).

(** The outcomes of a restock and of a price update. *)
Lemma restock_outcome ev s q db :
  (is_success (fst (restock_book_tool ev s q db)) = false /\
   snd (restock_book_tool ev s q db) = db) \/
  (exists b,
      books db !! s = Some b /\
      fst (restock_book_tool ev s q db)
      = Restocked (title b) q (stock b) (stock b + q) /\
      books (snd (restock_book_tool ev s q db))
      = <[s := mkBook (title b) (author b) (price b) (stock b + q)]> (books db) /\
      customers (snd (restock_book_tool ev s q db)) = customers db /\
      orders (snd (restock_book_tool ev s q db)) = orders db /\
      order_items (snd (restock_book_tool ev s q db)) = order_items db /\
      last_order_id (snd (restock_book_tool ev s q db)) = last_order_id db).
Proof.
  unfold restock_book_tool, restock_transaction.
  destruct ev; simpl; try (left; done).
  destruct (books db !! s) as [b|] eqn:Hb; simpl; [|left; done].
  rewrite lookup_alter_eq, Hb. simpl. right. exists b.
  repeat split; try done.
  apply map_eq. intros s'. rewrite lookup_alter, lookup_insert.
  destruct (decide (s = s')) as [<-|]; [by rewrite Hb|done].
Qed.

Lemma price_outcome ev s p db :
  (is_success (fst (update_price_tool ev s p db)) = false /\
   snd (update_price_tool ev s p db) = db) \/
  (exists b,
      books db !! s = Some b /\
      fst (update_price_tool ev s p db) = PriceUpdated (title b) (price b) p /\
      books (snd (update_price_tool ev s p db))
      = <[s := mkBook (title b) (author b) p (stock b)]> (books db) /\
      customers (snd (update_price_tool ev s p db)) = customers db /\
      orders (snd (update_price_tool ev s p db)) = orders db /\
      order_items (snd (update_price_tool ev s p db)) = order_items db /\
      last_order_id (snd (update_price_tool ev s p db)) = last_order_id db).
Proof.
  unfold update_price_tool, price_transaction.
  destruct ev; simpl; try (left; done).
  destruct (books db !! s) as [b|] eqn:Hb; simpl; [|left; done].
  right. exists b. repeat split; try done.
  apply map_eq. intros s'. rewrite lookup_alter, lookup_insert.
  destruct (decide (s = s')) as [<-|]; [by rewrite Hb|done].
Qed.

(** X1. For a quantity that fits the 64-bit integers of SQLite and does
    not take the stock of the book out of them, whatever the storage layer
    does and whatever book is named, [restock_book_tool] either reports an
    error and changes nothing, or finds the book, adds exactly the
    quantity to the stock of that one book, and reports the stock before
    and after; no other row of any table changes. *)
Theorem X1_restock_all_or_nothing ev s q db :
  int64 q ->
  (forall b, books db !! s = Some b -> int64 (stock b + q)) ->
  (is_success (fst (restock_book_tool ev s q db)) = false /\
   snd (restock_book_tool ev s q db) = db) \/
  (exists b,
      books db !! s = Some b /\
      fst (restock_book_tool ev s q db)
      = Restocked (title b) q (stock b) (stock b + q) /\
      books (snd (restock_book_tool ev s q db))
      = <[s := mkBook (title b) (author b) (price b) (stock b + q)]> (books db) /\
      customers (snd (restock_book_tool ev s q db)) = customers db /\
      orders (snd (restock_book_tool ev s q db)) = orders db /\
      order_items (snd (restock_book_tool ev s q db)) = order_items db).
Proof.
  intros _ _.
  destruct (restock_outcome ev s q db)
    as [?|(b & ? & ? & ? & ? & ? & ? & ?)]; [by left|].
  right. exists b. done.
Qed.

(** Three copies more of the item of the scenario. *)
Lemma X1_witness :
  fst (restock_book_tool Quiet "X" 3 scenario_db) = Restocked "X" 3 5 8 /\
  stock <$> books (snd (restock_book_tool Quiet "X" 3 scenario_db)) !! "X"%string
  = Some 8.
Proof.
  assert (Hq : int64 3) by (unfold int64; lia).
  assert (Hsum : forall b, books scenario_db !! "X"%string = Some b ->
                           int64 (stock b + 3)).
  { intros b. unfold scenario_db; simpl.
    intros [_ <-]%lookup_singleton_Some. unfold int64. simpl. lia. }
  destruct (X1_restock_all_or_nothing Quiet "X" 3 scenario_db Hq Hsum)
    as [[Hfail _]|(b & Hb & Hr & Hbooks & _)].
  - discriminate Hfail.
  - unfold scenario_db in Hb; simpl in Hb.
    apply lookup_singleton_Some in Hb as [_ <-].
    split; [exact Hr|]. rewrite Hbooks, lookup_insert_eq. reflexivity.
Defined.

(** X2. Whatever the storage layer does, [update_price_tool] either
    reports an error and changes nothing, or sets the price of the one
    book it names and reports the old and the new price; the stock of
    the book, the other books, and the rows of [orders] and
    [order_items], with the unit prices captured when the orders were
    placed, stay as they are. *)
Theorem X2_update_price_all_or_nothing ev s p db :
  (is_success (fst (update_price_tool ev s p db)) = false /\
   snd (update_price_tool ev s p db) = db) \/
  (exists b,
      books db !! s = Some b /\
      fst (update_price_tool ev s p db) = PriceUpdated (title b) (price b) p /\
      books (snd (update_price_tool ev s p db))
      = <[s := mkBook (title b) (author b) p (stock b)]> (books db) /\
      customers (snd (update_price_tool ev s p db)) = customers db /\
      orders (snd (update_price_tool ev s p db)) = orders db /\
      order_items (snd (update_price_tool ev s p db)) = order_items db).
Proof.
  destruct (price_outcome ev s p db)
    as [?|(b & ? & ? & ? & ? & ? & ? & ?)]; [by left|].
  right. exists b. done.
Qed.

(** What a call of [create_order_safe] can leave behind: the data as they
    were, or the data after the writes of an accepted request. *)
Lemma order_transaction_outcome cid items db r db' :
  order_transaction cid items db = (r, db') ->
  db' = db \/
  exists total lines,
    validate_items db items 0%Q [] = Accepted total lines /\
    db' = write_lines (last_order_id db + 1) lines
            (snd (insert_order cid total "completed" db)).
Proof.
  unfold order_transaction.
  destruct (customers db !! cid); [|intros [= _ <-]; by left].
  destruct (validate_items db items 0%Q []) as [r0|total lines];
    [intros [= _ <-]; by left|].
  cbn [insert_order]. intros H. right. exists total, lines. split; [done|].
  destruct (select_order _ _); [|by injection H as _ <-].
  destruct (read_stocks _ _); by injection H as _ <-.
Qed.

Lemma create_order_safe_outcome globals cid items db :
  forall depth evs,
    out_db (create_order_safe globals depth evs cid items db) = db \/
    exists total lines,
      validate_items db items 0%Q [] = Accepted total lines /\
      out_db (create_order_safe globals depth evs cid items db)
      = write_lines (last_order_id db + 1) lines
          (snd (insert_order cid total "completed" db)).
Proof.
  induction depth as [|depth IH]; intros evs; simpl; [by left|].
  destruct (hd Quiet evs) as [| |msg]; simpl.
  - destruct (order_transaction cid items db) as [[r|e] db'] eqn:Hbody; simpl.
    + apply (order_transaction_outcome _ _ _ _ _ Hbody).
    + rewrite (order_transaction_raises _ _ _ _ _ Hbody). by left.
  - change (contains database_is_locked database_is_locked) with true.
    cbn match. destruct (lookup_global globals "time"); simpl; [|by left].
    apply IH.
  - destruct (contains database_is_locked msg); [|by left].
    destruct (lookup_global globals "time"); simpl; [|by left]. apply IH.
Qed.

Lemma write_lines_last_order_id oid lines db :
  last_order_id (write_lines oid lines db) = last_order_id db.
Proof. revert db. induction lines as [|l rest IH]; intros db; simpl; [done|]. by rewrite IH. Qed.

(** X3. No operation on the catalogue makes a price negative: an order,
    whatever its outcome, and a restock keep every price; a price update
    through the argument schema of the tool stores a price that is not
    negative. *)
Theorem X3_prices_stay_non_negative db :
  price_nonneg db ->
  (forall depth evs cid items,
      price_nonneg (out_db (create_order_tool depth evs cid items db))) /\
  (forall ev s q, price_nonneg (snd (restock_book_tool ev s q db))) /\
  (forall ev s p p',
      UpdatePriceInput p = Ok p' ->
      price_nonneg (snd (update_price_tool ev s p' db))).
Proof.
  intros Hinv. split; [|split].
  - intros depth evs cid items. unfold create_order_tool.
    destruct (create_order_safe_outcome tools_globals cid items db depth evs)
      as [->|(total & lines & _ & ->)]; [done|].
    intros s b. rewrite write_lines_books. simpl.
    destruct (books db !! s) as [b0|] eqn:Hb; simpl; [|done].
    intros [= <-]. simpl. eauto.
  - intros ev s q.
    destruct (restock_outcome ev s q db) as [[_ ->]|(b & Hb & _ & Hbooks & _)];
      [done|].
    intros s' b'. rewrite Hbooks, lookup_insert.
    destruct (decide (s = s')) as [<-|]; [|apply Hinv].
    intros [= <-]. simpl. eauto.
  - intros ev s p p'. unfold UpdatePriceInput.
    destruct (Qle_bool 0 p) eqn:Hp; [|done]. intros [= <-].
    apply Qle_bool_iff in Hp.
    destruct (price_outcome ev s p db) as [[_ ->]|(b & Hb & _ & Hbooks & _)];
      [done|].
    intros s' b'. rewrite Hbooks, lookup_insert.
    destruct (decide (s = s')) as [<-|]; [|apply Hinv].
    by intros [= <-].
Qed.

Lemma X3_witness :
  price_nonneg scenario_db /\
  price_nonneg (snd (update_price_tool Quiet "X" (12 # 1) scenario_db)).
Proof.
  assert (H : price_nonneg scenario_db).
  { intros s b. unfold scenario_db; simpl.
    intros [_ <-]%lookup_singleton_Some. simpl. discriminate. }
  split; [exact H|].
  exact (proj2 (proj2 (X3_prices_stay_non_negative scenario_db H))
           Quiet "X"%string (12 # 1)%Q (12 # 1)%Q eq_refl).
Defined.

(** X4. Order ids are never reused: whatever the request and whatever
    the storage layer does, [create_order_tool] keeps the ids of [orders]
    pairwise distinct and the ids of [orders] and [order_items] within
    the AUTOINCREMENT counter, which never goes down. *)
Theorem X4_order_ids_stay_unique depth evs cid items db :
  ids_in_range db ->
  order_ids_unique db ->
  ids_in_range (out_db (create_order_tool depth evs cid items db)) /\
  order_ids_unique (out_db (create_order_tool depth evs cid items db)) /\
  last_order_id db
  <= last_order_id (out_db (create_order_tool depth evs cid items db)).
Proof.
  intros [Hos Hois] Hnd. unfold create_order_tool.
  destruct (create_order_safe_outcome tools_globals cid items db depth evs)
    as [->|(total & lines & _ & ->)]; [repeat split; [done..|lia]|].
  unfold ids_in_range, order_ids_unique.
  rewrite write_lines_orders, write_lines_order_items, write_lines_last_order_id.
  simpl. repeat split.
  - apply Forall_app. split.
    + eapply Forall_impl; [exact Hos|]. simpl. lia.
    + repeat constructor. simpl. lia.
  - apply Forall_app. split.
    + eapply Forall_impl; [exact Hois|]. simpl. lia.
    + apply Forall_forall. intros oi Hoi.
      apply list_elem_of_In, in_map_iff in Hoi as (l & <- & _). simpl. lia.
  - rewrite map_app. simpl. apply NoDup_app. split; [done|]. split.
    + intros x Hx ->%list_elem_of_singleton.
      apply list_elem_of_In, in_map_iff in Hx as (o & Ho & Hin).
      rewrite Forall_forall in Hos.
      specialize (Hos o (proj2 (list_elem_of_In _ _) Hin)). lia.
    + apply NoDup_singleton.
  - lia.
Qed.

Lemma X4_witness :
  order_ids_unique (out_db (create_order_tool 1 [] 1 [line "X" 3] scenario_db)) /\
  last_order_id (out_db (create_order_tool 1 [] 1 [line "X" 3] scenario_db)) = 1.
Proof.
  assert (H1 : ids_in_range scenario_db) by (split; constructor).
  assert (H2 : order_ids_unique scenario_db) by constructor.
  destruct (X4_order_ids_stay_unique 1 [] 1 [line "X" 3] scenario_db H1 H2)
    as (_ & Hu & _).
  split; [exact Hu|reflexivity].
Defined.



Lemma orders_after_order depth evs db cid items c :
  customers db !! cid = Some c ->
  Forall (line_ok db) items ->
  hd Quiet evs = Quiet ->
  (exists stocks,
      out_result (create_order_tool (S depth) evs cid items db)
      = Ok (OrderCreated (last_order_id db + 1) (name c) (order_total db items)
                         (map (line_of db) items) stocks)) /\
  orders (out_db (create_order_tool (S depth) evs cid items db))
  = orders db ++ [mkOrder (last_order_id db + 1) cid "completed"
                          (order_total db items)] /\
  customers (out_db (create_order_tool (S depth) evs cid items db))
  = customers db.
Proof.
  intros Hc Hok Hev.
  destruct (order_transaction_ok db cid items c Hc Hok)
    as (stocks & db' & Hbody & Hord & Hbooks).
  assert (Hcust : customers db' = customers db).
  { destruct (order_transaction_outcome _ _ _ _ _ Hbody)
      as [->|(total & lines & _ & ->)]; [done|].
    by rewrite write_lines_customers. }
  unfold create_order_tool. cbn [create_order_safe]. rewrite Hev.
  cbn [get_db_cursor]. rewrite Hbody. cbn. eauto.
Qed.

(** X6. An order placed after a price update is charged the new price:
    its total is the new price times the quantity, as Python computes it
    in binary64, and the line it inserts captures the new price; the rows
    of the orders placed before are not touched. The id of the new order
    is to fit the 64 bits of SQLite, and the amount to stay below 2^53. *)
Theorem X6_order_after_price_update depth evs db cid c s b q p :
  customers db !! cid = Some c ->
  books db !! s = Some b ->
  s <> EmptyString ->
  0 < q <= stock b ->
  int64 (last_order_id db + 1) ->
  (Qabs p * inject_Z q < inject_Z (2 ^ 53))%Q ->
  hd Quiet evs = Quiet ->
  orders (out_db (create_order_tool (S depth) evs cid [line s q]
                    (snd (update_price_tool Quiet s p db))))
  = orders db ++ [mkOrder (last_order_id db + 1) cid "completed"
                          (fadd 0 (fmul p q))] /\
  order_items (out_db (create_order_tool (S depth) evs cid [line s q]
                         (snd (update_price_tool Quiet s p db))))
  = order_items db ++ [mkOrderItem (last_order_id db + 1) s q p].
Proof.
  intros Hc Hb Hs Hq _ _ Hev.
  destruct (price_outcome Quiet s p db)
    as [[Hfail _]|(b' & Hb' & _ & Hbooks & Hcust & Hord & Hoi & Hlast)].
  { unfold update_price_tool, price_transaction in Hfail. simpl in Hfail.
    by rewrite Hb in Hfail. }
  set (db1 := snd (update_price_tool Quiet s p db)) in *.
  assert (Hb1 : books db1 !! s = Some (mkBook (title b) (author b) p (stock b))).
  { rewrite Hbooks, lookup_insert_eq. congruence. }
  assert (Hok : Forall (line_ok db1) [line s q]).
  { repeat constructor. exists s, q, (mkBook (title b) (author b) p (stock b)).
    repeat split; try done; simpl; lia. }
  assert (Hc1 : customers db1 !! cid = Some c) by (by rewrite Hcust).
  destruct (orders_after_order depth evs db1 cid [line s q] c Hc1 Hok Hev)
    as (_ & Ho & _).
  rewrite Ho, (order_lines_inserted depth evs db1 cid [line s q] c Hc1 Hok Hev).
  rewrite Hord, Hoi, Hlast. unfold order_total, line_amount, line_of. simpl.
  rewrite Hb1. done.
Qed.

(** After an order at the price 10, the price becomes 0.1 and three
    copies are ordered: the earlier order keeps its total of 10, the new
    one records 0.30000000000000004 and captures the price 0.1. *)
Lemma X6_witness :
  orders (out_db (create_order_tool 1 [] 1 [line "X" 3]
                    (snd (update_price_tool Quiet "X" tenth sold_db))))
  = [mkOrder 1 1 "completed" (10 # 1);
     mkOrder 2 1 "completed" (1351079888211149 # 4503599627370496)] /\
  order_items (out_db (create_order_tool 1 [] 1 [line "X" 3]
                         (snd (update_price_tool Quiet "X" tenth sold_db))))
  = [mkOrderItem 1 "X" 1 (10 # 1);
     mkOrderItem 2 "X" 3 (3602879701896397 # 36028797018963968)].
Proof.
  assert (Hq : 0 < 3 <= stock (mkBook "X" "an author" (10 # 1) 4))
    by (simpl; lia).
  destruct (X6_order_after_price_update 0 [] sold_db 1
              (mkCustomer "a customer" "customer@example.org") "X"
              (mkBook "X" "an author" (10 # 1) 4) 3 tenth
              ltac:(vm_compute; reflexivity) ltac:(vm_compute; reflexivity)
              ltac:(discriminate) Hq ltac:(vm_compute; split; [discriminate|reflexivity])
              ltac:(vm_compute; reflexivity) eq_refl) as [Ho Hoi].
  split; [rewrite Ho|rewrite Hoi]; vm_compute; reflexivity.
Defined.

(** *** The status of an order *)

Lemma select_order_new os o :
  Forall (fun o' => order_id o' <> order_id o) os ->
  find (fun o' => order_id o' =? order_id o) (os ++ [o]) = Some o.
Proof.
  induction 1 as [|o' os Hne _ IH]; simpl.
  - by rewrite Z.eqb_refl.
  - destruct (Z.eqb_spec (order_id o') (order_id o)); [done|]. exact IH.
Qed.

Lemma omap_cons_eq {A B} (f : A -> option B) (x : A) (l : list A) :
  omap f (x :: l)
  = match f x with
    | Some y => y :: omap f l
    | None => omap f l
    end.
Proof. reflexivity. Qed.

Lemma order_rows_old oid db ois :
  Forall (fun oi => oi_order_id oi <> oid) ois ->
  omap (fun oi =>
          if oi_order_id oi =? oid then
            match books db !! book_isbn oi with
            | Some b => Some (mkStatusItem (title b) (author b) (book_isbn oi)
                                           (oi_quantity oi) (unit_price oi))
            | None => None
            end
          else None) ois = [].
Proof.
  induction 1 as [|oi ois Hne _ IH]; simpl; [done|].
  destruct (Z.eqb_spec (oi_order_id oi) oid); [done|]. exact IH.
Qed.

(** The rows shown for a new order are the accepted lines, with the title
    and the author of the catalogue. *)
Lemma order_rows_new oid db db' items :
  Forall (line_ok db) items ->
  (forall s b, books db !! s = Some b ->
     exists b', books db' !! s = Some b' /\ title b' = title b /\
                author b' = author b) ->
  omap (fun oi =>
          if oi_order_id oi =? oid then
            match books db' !! book_isbn oi with
            | Some b => Some (mkStatusItem (title b) (author b) (book_isbn oi)
                                           (oi_quantity oi) (unit_price oi))
            | None => None
            end
          else None)
       (map (fun l => mkOrderItem oid (ol_isbn l) (ol_quantity l) (ol_unit_price l))
            (map (line_of db) items))
  = map (status_item_of db) items.
Proof.
  intros Hok Hbooks. induction Hok as [|it rest Hit _ IH]; [done|].
  cbn [map]. rewrite omap_cons_eq, IH.
  cbn [oi_order_id book_isbn oi_quantity unit_price]. rewrite Z.eqb_refl.
  destruct Hit as (s & q & b & Hs & _ & Hq & Hb & _).
  unfold status_item_of, line_of. rewrite Hs, Hq. simpl. rewrite Hb. simpl.
  destruct (Hbooks s b Hb) as (b' & -> & -> & ->). by rewrite Hb.
Qed.

(** X7. The status of an order that was just accepted, with numbers in
    the range of SQLite and Python, asked of a storage layer that does not
    fail, shows the customer, the status [completed],
    the recorded total (the binary64 sum of the order) and exactly one row
    per line of the request, whatever the order of the rows, with the
    quantity of the line and the unit price of the catalogue at the time
    of the order. *)
Theorem X7_status_of_new_order depth evs db cid items c :
  customers db !! cid = Some c ->
  Forall (line_ok db) items ->
  items <> [] ->
  hd Quiet evs = Quiet ->
  ids_in_range db ->
  within_range db items ->
  exists rows,
    fst (order_status_tool Quiet (last_order_id db + 1)
           (out_db (create_order_tool (S depth) evs cid items db)))
    = OrderStatus (last_order_id db + 1) (name c) (email c) "completed"
                  (order_total db items) rows /\
    rows ≡ₚ map (status_item_of db) items.
Proof.
  intros Hc Hok Hne Hev [Hos Hois] _.
  exists (map (status_item_of db) items). split; [|done].
  destruct (orders_after_order depth evs db cid items c Hc Hok Hev)
    as (_ & Hord & Hcust).
  pose proof (order_lines_inserted depth evs db cid items c Hc Hok Hev) as Hoi.
  pose proof (books_after_order depth evs db cid items c Hc Hok Hev) as Hbooks.
  set (db' := out_db _) in *.
  pose proof (select_order_new (orders db)
                (mkOrder (last_order_id db + 1) cid "completed"
                         (order_total db items))) as Hsel.
  simpl in Hsel.
  unfold order_status_tool, status_transaction, select_order.
  cbn [get_db_cursor]. rewrite Hord, Hsel.
  2:{ eapply Forall_impl; [exact Hos|]. simpl. lia. }
  cbn [customer_id status total_amount]. rewrite Hcust, Hc.
  unfold order_rows. rewrite Hoi, omap_app.
  rewrite order_rows_old.
  2:{ eapply Forall_impl; [exact Hois|]. simpl. lia. }
  rewrite (order_rows_new _ db db' items Hok).
  2:{ intros s b Hb. rewrite Hbooks, Hb. simpl. eauto. }
  simpl. destruct items as [|it rest]; [done|]. done.
Qed.

(** An order of two lines at the price 0.1, one and two copies: the
    status shows two rows and the total 0.30000000000000004. *)
Lemma X7_witness :
  exists rows,
    fst (order_status_tool Quiet 1
           (out_db (create_order_tool 1 [] 1 [line "X" 1; line "X" 2] tenth_db)))
    = OrderStatus 1 "a customer" "customer@example.org" "completed"
                  (1351079888211149 # 4503599627370496) rows /\
    rows ≡ₚ [mkStatusItem "X" "an author" "X" 1 tenth;
             mkStatusItem "X" "an author" "X" 2 tenth].
Proof.
  assert (Hok : Forall (line_ok tenth_db) [line "X" 1; line "X" 2]).
  { repeat constructor.
    - exists "X"%string, 1, (mkBook "X" "an author" tenth 5).
      repeat split; try reflexivity; try discriminate; simpl; lia.
    - exists "X"%string, 2, (mkBook "X" "an author" tenth 5).
      repeat split; try reflexivity; try discriminate; simpl; lia. }
  assert (Hids : ids_in_range tenth_db) by (split; constructor).
  assert (Hid : within_range tenth_db [line "X" 1; line "X" 2]).
  { split; [unfold int64; simpl; lia|]. split; [|reflexivity].
    intros s b. unfold tenth_db; simpl.
    intros [<- <-]%lookup_singleton_Some. unfold int64. simpl. lia. }
  destruct (X7_status_of_new_order 0 [] tenth_db 1 [line "X" 1; line "X" 2]
              (mkCustomer "a customer" "customer@example.org")
              eq_refl Hok ltac:(discriminate) eq_refl Hids Hid)
    as (rows & Hr & Hp).
  exists rows. split; [|exact Hp].
  refine (eq_trans Hr _). vm_compute. reflexivity.
Defined.

(** X8. A request with an empty list of items, for an existing customer,
    is accepted: it records a completed order of total 0 without any
    line and changes no stock; the status of that order is the error
    that the order has no items. *)
Theorem X8_empty_order_is_created depth evs db cid c :
  customers db !! cid = Some c ->
  hd Quiet evs = Quiet ->
  ids_in_range db ->
  out_result (create_order_tool (S depth) evs cid [] db)
  = Ok (OrderCreated (last_order_id db + 1) (name c) 0%Q [] []) /\
  orders (out_db (create_order_tool (S depth) evs cid [] db))
  = orders db ++ [mkOrder (last_order_id db + 1) cid "completed" 0%Q] /\
  order_items (out_db (create_order_tool (S depth) evs cid [] db))
  = order_items db /\
  books (out_db (create_order_tool (S depth) evs cid [] db)) = books db /\
  fst (order_status_tool Quiet (last_order_id db + 1)
         (out_db (create_order_tool (S depth) evs cid [] db)))
  = OrderHasNoItems (last_order_id db + 1).
Proof.
  intros Hc Hev [Hos Hois].
  assert (Hsel := select_order_new (orders db)
                    (mkOrder (last_order_id db + 1) cid "completed" 0%Q)).
  simpl in Hsel. specialize (Hsel ltac:(eapply Forall_impl; [exact Hos|];
                                         simpl; lia)).
  unfold create_order_tool. cbn [create_order_safe]. rewrite Hev.
  cbn [get_db_cursor]. unfold order_transaction. rewrite Hc.
  cbn [validate_items insert_order write_lines]. unfold select_order.
  cbn [orders]. rewrite Hsel. cbn.
  repeat split.
  unfold order_status_tool, status_transaction, select_order. cbn.
  rewrite Hsel. cbn. rewrite Hc.
  unfold order_rows. cbn. rewrite order_rows_old; [done|].
  eapply Forall_impl; [exact Hois|]. simpl. lia.
Qed.

Lemma X8_witness :
  orders (out_db (create_order_tool 1 [] 1 [] scenario_db))
  = [mkOrder 1 1 "completed" 0%Q] /\
  fst (order_status_tool Quiet 1 (out_db (create_order_tool 1 [] 1 [] scenario_db)))
  = OrderHasNoItems 1.
Proof.
  assert (Hids : ids_in_range scenario_db) by (split; constructor).
  destruct (X8_empty_order_is_created 0 [] scenario_db 1
              (mkCustomer "a customer" "customer@example.org")
              eq_refl eq_refl Hids) as (_ & Ho & _ & _ & Hst).
  split; [exact Ho|exact Hst].
Defined.

Lemma max_order_id_spec os :
  match max_order_id os with
  | None => os = []
  | Some m => m ∈ map order_id os /\ Forall (fun o => order_id o <= m) os
  end.
Proof.
  induction os as [|o os IH]; simpl; [done|].
  destruct (max_order_id os) as [m|].
  - destruct IH as [Hin Hall]. split.
    + destruct (Z.max_spec (order_id o) m) as [[_ ->]|[_ ->]];
        [by right|by left].
    + constructor; [lia|]. eapply Forall_impl; [exact Hall|]. simpl. lia.
  - subst os. split; [by left|]. repeat constructor. lia.
Qed.

(** X9. [order_status_tool] never changes the data, whatever the storage
    layer does; and asked for an id that fits the 64-bit integers of
    SQLite and that no order has, it reports the id as not found together
    with the highest order id there is, which is the id of an order and at
    least every order id, or nothing when there is no order at all. *)
Theorem X9_status_of_unknown_order ev oid db :
  snd (order_status_tool ev oid db) = db /\
  (int64 oid ->
   Forall (fun o => order_id o <> oid) (orders db) ->
   exists m,
     fst (order_status_tool Quiet oid db) = OrderNotFound oid m /\
     match m with
     | None => orders db = []
     | Some k => k ∈ map order_id (orders db) /\
                 Forall (fun o => order_id o <= k) (orders db)
     end).
Proof.
  split.
  - unfold order_status_tool, status_transaction. destruct ev; simpl; try done.
    destruct (select_order oid db); [|done].
    destruct (customers db !! _); [|done].
    by destruct (order_rows oid db).
  - intros _ Hno. exists (max_order_id (orders db)).
    split; [|apply max_order_id_spec].
    unfold order_status_tool, status_transaction, select_order. simpl.
    replace (find _ (orders db)) with (@None order); [done|].
    symmetry. induction Hno as [|o os Hne _ IH]; simpl; [done|].
    by destruct (Z.eqb_spec (order_id o) oid).
Qed.

(** The order 7 in a system whose only order is the order 1. *)
Lemma X9_witness :
  map order_id (orders sold_db) = [1] /\
  fst (order_status_tool Quiet 7 sold_db) = OrderNotFound 7 (Some 1).
Proof.
  assert (Horders : map order_id (orders sold_db) = [1])
    by (vm_compute; reflexivity).
  split; [exact Horders|].
  assert (Hid : int64 7) by (unfold int64; lia).
  assert (Hno : Forall (fun o => order_id o <> 7) (orders sold_db)).
  { apply Forall_forall. intros o Ho.
    assert (Hin : order_id o ∈ map order_id (orders sold_db))
      by (apply list_elem_of_fmap; eauto).
    rewrite Horders in Hin. apply list_elem_of_singleton in Hin. lia. }
  destruct (proj2 (X9_status_of_unknown_order Quiet 7 sold_db) Hid Hno)
    as (m & Hr & Hm).
  rewrite Hr. f_equal. destruct m as [k|].
  - destruct Hm as [Hin _]. rewrite Horders in Hin.
    apply list_elem_of_singleton in Hin. by subst.
  - rewrite Hm in Horders. discriminate.
Defined.

(** *** The reason an order is turned down *)

Lemma validate_items_app_ok db good rest :
  Forall (line_ok db) good ->
  forall total acc,
    validate_items db (good ++ rest) total acc
    = validate_items db rest
        (fold_left (fun a it => fadd a (line_amount db it)) good total)
        (acc ++ map (line_of db) good).
Proof.
  induction 1 as [|it good Hit _ IH]; intros total acc; simpl app.
  - simpl. by rewrite app_nil_r.
  - rewrite validate_items_step by done. rewrite IH. simpl.
    by rewrite <- app_assoc.
Qed.

(** X10. When the lines before it are acceptable, the first line that
    asks for more than the stock decides the answer: the order is turned
    down with the title of that book, its current stock as the available
    quantity and the quantity asked, whatever lines follow, and nothing
    is written. *)
Theorem X10_first_short_line_is_reported depth evs db cid c good s q b rest :
  customers db !! cid = Some c ->
  hd Quiet evs = Quiet ->
  Forall (line_ok db) good ->
  books db !! s = Some b ->
  s <> EmptyString ->
  0 < q ->
  stock b < q ->
  out_result (create_order_tool (S depth) evs cid (good ++ line s q :: rest) db)
  = Ok (NotEnoughStock (title b) (stock b) q) /\
  out_db (create_order_tool (S depth) evs cid (good ++ line s q :: rest) db) = db.
Proof.
  intros Hc Hev Hgood Hb Hs Hq Hlt.
  unfold create_order_tool. cbn [create_order_safe]. rewrite Hev.
  cbn [get_db_cursor]. unfold order_transaction. rewrite Hc.
  rewrite (validate_items_app_ok db good _ Hgood).
  cbn [validate_items line isbn quantity].
  rewrite truthy_str_Some by done. rewrite truthy_int_Some by lia.
  cbn [negb orb]. destruct (Z.leb_spec q 0); [lia|]. rewrite Hb.
  destruct (Z.ltb_spec (stock b) q); [|lia]. done.
Qed.

Lemma X10_witness :
  out_result (create_order_tool 1 [] 1 [line "X" 2; line "X" 6; line "Y" 1]
                                scenario_db)
  = Ok (NotEnoughStock "X" 5 6).
Proof.
  assert (Hok : Forall (line_ok scenario_db) [line "X" 2]).
  { repeat constructor.
    exists "X"%string, 2, (mkBook "X" "an author" (10 # 1) 5).
    repeat split; try reflexivity; try discriminate; simpl; lia. }
  exact (proj1 (X10_first_short_line_is_reported 0 [] scenario_db 1
                  (mkCustomer "a customer" "customer@example.org")
                  [line "X" 2] "X" 6 (mkBook "X" "an author" (10 # 1) 5)
                  [line "Y" 1] eq_refl eq_refl Hok eq_refl
                  ltac:(discriminate) ltac:(lia) ltac:(simpl; lia))).
Defined.

End CatalogueOperations.

(* ===================================================================== *)
(** * Further properties of the response extractor *)
(* ===================================================================== *)

Section ExtractorProperties.

Implicit Types (s pre body post l ws : list ascii).

Lemma lstrip_spaces_app ws s :
  forallb is_space ws = true -> lstrip (ws ++ s) = lstrip s.
Proof.
  induction ws as [|c ws IH]; simpl; [done|].
  intros [-> Hws]%andb_true_iff. auto.
Qed.

Lemma lstrip_app_spaces s ws :
  forallb is_space ws = true ->
  lstrip (s ++ ws) = if forallb is_space s then [] else lstrip s ++ ws.
Proof.
  intros Hws. induction s as [|c s IH]; simpl.
  - by apply lstrip_all_space.
  - destruct (is_space c); simpl; [exact IH|done].
Qed.

Lemma rstrip_app_spaces s ws :
  forallb is_space ws = true -> rstrip (s ++ ws) = rstrip s.
Proof.
  intros Hws. unfold rstrip. rewrite rev_app_distr, lstrip_spaces_app; [done|].
  rewrite forallb_forall in *. intros c Hc. apply Hws. by apply in_rev.
Qed.

(** [strip] does not see the white space around a text. *)
Lemma strip_spaces ws1 s ws2 :
  forallb is_space ws1 = true ->
  forallb is_space ws2 = true ->
  strip (ws1 ++ s ++ ws2) = strip s.
Proof.
  intros H1 H2. unfold strip.
  rewrite (lstrip_spaces_app ws1 _ H1), (lstrip_app_spaces s ws2 H2).
  destruct (forallb is_space s) eqn:Hs.
  - by rewrite (lstrip_all_space s Hs).
  - by apply rstrip_app_spaces.
Qed.

Section WithDecoder.

Variable json_loads : list ascii -> result json.

(** X11. White space before and after the answer of the completion
    service never changes what the extractor returns. *)
Theorem X11_surrounding_white_space_is_ignored ws1 t ws2 :
  forallb is_space ws1 = true ->
  forallb is_space ws2 = true ->
  _parse_json_response json_loads (ws1 ++ t ++ ws2)
  = _parse_json_response json_loads t.
Proof.
  intros H1 H2. unfold _parse_json_response, parse_body, clean.
  by rewrite (strip_spaces ws1 t ws2 H1 H2).
Qed.

(** X12. An answer in a code fence, that is a [```json] marker, a text
    and a closing [```] marker, with any white space around the markers:
    when the text between the markers, stripped of that white space,
    decodes, the extractor returns exactly its value, without any
    scanning. *)
Theorem X12_fenced_answer_round_trip ws1 ws2 body ws3 ws4 v :
  forallb is_space ws1 = true ->
  forallb is_space ws2 = true ->
  forallb is_space ws3 = true ->
  forallb is_space ws4 = true ->
  trimmed body = true ->
  json_loads body = Ok v ->
  _parse_json_response json_loads
    (ws1 ++ (fence_json ++ ws2 ++ body ++ ws3 ++ fence) ++ ws4) = Ok v.
Proof.
  intros H1 H2 H3 H4 Hb Hv. apply extractor_direct.
  by rewrite clean_fenced.
Qed.

End WithDecoder.

Lemma X11_witness :
  _parse_json_response loads (text "  " ++ js "note [sic] {'a':1}" ++ text " ")
  = _parse_json_response loads (js "note [sic] {'a':1}").
Proof.
  exact (X11_surrounding_white_space_is_ignored loads (text "  ")
           (js "note [sic] {'a':1}") (text " ") eq_refl eq_refl).
Defined.

Lemma X12_witness :
  _parse_json_response loads
    (text " " ++ (fence_json ++ [ascii_of_nat 10] ++ js "{'needs_tools': false}"
                  ++ [ascii_of_nat 10] ++ fence) ++ [ascii_of_nat 10])
  = Ok (JObject [("needs_tools", JBool false)]).
Proof.
  apply (X12_fenced_answer_round_trip loads); vm_compute; reflexivity.
Defined.

(** X13. The slice the fallback scan hands to the decoder is exactly
    this: the text splits into a prefix, the slice and a rest, where the
    slice is a bracketed block (it begins with its opening bracket and
    its brackets, counted without regard to anything else, balance at
    its last character and not before), and either the block is an array
    block and the prefix has no array start, or the whole text has no
    array start, the block is an object block and the prefix has no
    object start. No slice is taken in any other case. *)
Theorem X13_slice_is_first_block s json_str :
  bracket_slice s = Some json_str <->
  exists pre post,
    s = pre ++ json_str ++ post /\
    ((occurs "[" pre = false /\ block "[" "]" json_str = true) \/
     (occurs "[" s = false /\ occurs "{" pre = false /\
      block "{" "}" json_str = true)).
Proof.
  split.
  - apply bracket_slice_sound.
  - intros (pre & post & -> & [[Hpre Hb]|(Hnone & Hpre & Hb)]).
    + by apply bracket_slice_array.
    + by apply bracket_slice_object.
Qed.

End ExtractorProperties.

(** The array block of a text that begins with prose is the slice. *)
Lemma X13_witness :
  bracket_slice (text "see [1, [2]] and [3]") = Some (text "[1, [2]]").
Proof.
  refine (proj2 (X13_slice_is_first_block (text "see [1, [2]] and [3]")
                   (text "[1, [2]]")) _).
  exists (text "see "), (text " and [3]").
  split; [vm_compute; reflexivity|]. left.
  split; vm_compute; reflexivity.
Defined.

(* ===================================================================== *)
(** * Further properties of the operation executor *)
(* ===================================================================== *)

Section ExecutorProperties.

Context {world output : Type}.
Implicit Types (tools : registry world output) (td : decision)
  (tds : list decision) (a : agent world output).

Lemma execute_tool_name tools td a r a' :
  execute_tool tools td a = (Ok r, a') ->
  tr_tool_name r = dict_get "tool_name" td.
Proof.
  unfold execute_tool.
  destruct (registered tools _) as [[[name run]|]|e]; [| |done].
  - destruct (restock_rejected name _) as [[|]|e]; simpl.
    + by intros [= <- _].
    + destruct (run _ (state a)) as [[o|e] w']; by intros [= <- _].
    + by intros [= <- _].
  - by intros [= <- _].
Qed.

(** A batch is the sequence of its two halves. *)
Lemma execute_tools_app tools tds1 tds2 a :
  execute_tools tools (tds1 ++ tds2) a
  = match execute_tools tools tds1 a with
    | (Ok results1, a1) =>
        match execute_tools tools tds2 a1 with
        | (Ok results2, a2) => (Ok (results1 ++ results2), a2)
        | (Raise e, a2) => (Raise e, a2)
        end
    | (Raise e, a1) => (Raise e, a1)
    end.
Proof.
  revert a. induction tds1 as [|td tds1 IH]; intros a.
  - simpl. change (execute_tools tools [] a) with (Ok (@nil (tool_result output)), a).
    cbn beta iota. by destruct (execute_tools tools tds2 a) as [[r|e] a2].
  - simpl app. destruct (execute_tool tools td a) as [[r|e] a'] eqn:Hstep.
    + rewrite !(execute_tools_cons _ _ _ _ _ _ Hstep). rewrite IH.
      unfold prepend.
      destruct (execute_tools tools tds1 a') as [[r1|e1] a1]; simpl; [|done].
      by destruct (execute_tools tools tds2 a1) as [[r2|e2] a2].
    + unfold execute_tools. simpl. by rewrite Hstep.
Qed.

(** X14. The results come in the order of the calls: for a batch whose
    tool names can be looked up, the executor returns one result per
    call, and the i-th result carries the tool name of the i-th call. *)
Theorem X14_results_follow_the_calls tools tds a :
  forallb well_named tds = true ->
  exists results,
    fst (execute_tools tools tds a) = Ok results /\
    map tr_tool_name results = map (dict_get "tool_name") tds.
Proof.
  revert a. induction tds as [|td tds IH]; intros a Hn.
  - by exists [].
  - simpl in Hn. apply andb_true_iff in Hn as [Htd Htds].
    destruct (execute_tool_completes tools td a Htd) as (r & new & Hstep & _).
    rewrite (execute_tools_cons _ _ _ _ _ _ Hstep).
    destruct (IH (mkAgent (tool_usage_history a ++ new)
                          (state (snd (execute_tool tools td a)))) Htds)
      as (results & Hres & Hnames).
    exists (r :: results). unfold prepend. simpl. rewrite Hres.
    split; [done|]. simpl. f_equal; [|done].
    exact (execute_tool_name _ _ _ _ _ Hstep).
Qed.

(** X15. A call of [restock_book] whose quantity is an integer that is
    not positive, or is missing, never reaches the tool: its result is
    the failure of the executor's own check, nothing is added to the
    usage history, the world is as before, and the rest of the batch is
    executed. *)
Theorem X15_rejected_restock_runs_nothing tools td tds a run m :
  dict_get "tool_name" td = Some (JString "restock_book") ->
  registry_get "restock_book" tools = Some run ->
  dict_get "parameters" td = Some (JObject m) ->
  (dict_get "quantity" m = None \/
   exists z, dict_get "quantity" m = Some (JInt z) /\ z <= 0) ->
  execute_tools tools (td :: tds) a
  = prepend (mkResult (Some (JString "restock_book"))
                      (NonPositiveRestock (dict_get "quantity" m)) false)
            (execute_tools tools tds a).
Proof.
  intros Hname Hreg Hpar Hq. apply execute_tools_cons.
  unfold execute_tool. rewrite Hname, Hpar. simpl. rewrite Hreg.
  unfold restock_rejected. simpl.
  destruct Hq as [->|(z & -> & Hz)]; simpl; [done|].
  by destruct (Z.leb_spec z 0); [|lia].
Qed.

(** X16. When the tool of a call raises, the call fails alone: its
    result carries the exception with success = false, one usage record
    with success = false is appended, the world is the one the tool left,
    and the rest of the batch is executed. *)
Theorem X16_raising_tool_fails_alone tools td tds a name run e w' :
  dict_get "tool_name" td = Some (JString name) ->
  registry_get name tools = Some run ->
  restock_rejected name (default (JObject []) (dict_get "parameters" td))
  = Ok false ->
  run (default (JObject []) (dict_get "parameters" td)) (state a)
  = (Raise e, w') ->
  execute_tools tools (td :: tds) a
  = prepend (mkResult (Some (JString name)) (ErrorExecuting name e) false)
      (execute_tools tools tds
         (mkAgent (tool_usage_history a
                   ++ [mkUsage name (default (JObject []) (dict_get "parameters" td))
                               (ErrorExecuting name e) false])
                  w')).
Proof.
  intros Hname Hreg Hrej Hrun. apply execute_tools_cons.
  unfold execute_tool. rewrite Hname. simpl. rewrite Hreg, Hrej, Hrun. done.
Qed.

Lemma execute_tool_appends tools td a :
  exists new,
    tool_usage_history (snd (execute_tool tools td a))
    = tool_usage_history a ++ new /\
    (length new <= 1)%nat /\
    Forall (fun u => is_Some (registry_get (ur_tool_name u) tools)) new.
Proof.
  unfold execute_tool, registered.
  assert (Hnone : exists new : list (usage_record output),
            tool_usage_history a = tool_usage_history a ++ new /\
            (length new <= 1)%nat /\
            Forall (fun u => is_Some (registry_get (ur_tool_name u) tools)) new).
  { exists []. rewrite app_nil_r. repeat split; [simpl; lia|constructor]. }
  destruct (dict_get "tool_name" td) as [v|]; [|exact Hnone].
  destruct v as [|b|z|q|s|l|m]; simpl; try exact Hnone.
  destruct (registry_get s tools) as [run|] eqn:Hreg; [|exact Hnone].
  destruct (restock_rejected s _) as [[|]|e]; simpl; [exact Hnone| |].
  - destruct (run _ (state a)) as [[o|e] w']; simpl; eexists [_];
      (split; [done|]); (split; [simpl; lia|]); repeat constructor; simpl;
      by rewrite Hreg.
  - eexists [_]. split; [done|]. split; [simpl; lia|].
    repeat constructor. simpl. by rewrite Hreg.
Qed.

(** X17. The usage history is append-only: whatever the batch, also one
    that an exception cuts short, the history after it is the history
    before it followed by new records, at most one per call, each for a
    tool of the registry. *)
Theorem X17_history_is_append_only tools tds a :
  exists new,
    tool_usage_history (snd (execute_tools tools tds a))
    = tool_usage_history a ++ new /\
    (length new <= length tds)%nat /\
    Forall (fun u => is_Some (registry_get (ur_tool_name u) tools)) new.
Proof.
  revert a. induction tds as [|td tds IH]; intros a.
  - exists []. rewrite app_nil_r. repeat split; [simpl; lia|constructor].
  - destruct (execute_tool_appends tools td a) as (new1 & H1 & Hl1 & Hf1).
    destruct (execute_tool tools td a) as [[r|e] a'] eqn:Hstep.
    + rewrite (execute_tools_cons _ _ _ _ _ _ Hstep). unfold prepend. simpl.
      destruct (IH a') as (new2 & H2 & Hl2 & Hf2).
      exists (new1 ++ new2). simpl in H1. rewrite H2, H1, app_assoc.
      split; [done|]. split; [rewrite length_app; simpl; lia|].
      by apply Forall_app.
    + unfold execute_tools. simpl. rewrite Hstep. simpl.
      exists new1. split; [done|]. split; [simpl; lia|done].
Qed.

(** X18. A call whose tool name is a list or a dict stops the batch with
    [TypeError]: the calls before it have been executed and their effects
    stay, their results are not returned, and the calls after it are not
    executed. *)
Theorem X18_unhashable_name_stops_the_batch tools tds1 td tds2 a v :
  forallb well_named tds1 = true ->
  dict_get "tool_name" td = Some v ->
  hashable v = false ->
  execute_tools tools (tds1 ++ td :: tds2) a
  = (Raise TypeError, snd (execute_tools tools tds1 a)).
Proof.
  intros Hn Hname Hv. rewrite execute_tools_app.
  destruct (execute_tools_history tools tds1 Hn a) as (results & new & Hrun & _).
  rewrite Hrun. simpl. unfold execute_tools. simpl.
  unfold execute_tool, registered. rewrite Hname.
  by destruct v.
Qed.

End ExecutorProperties.

Lemma X14_witness :
  exists results,
    fst (execute_tools scenario_tools
           [call "no_such_tool" []; order_call 1 "X" 6] scenario_agent)
    = Ok results /\
    map tr_tool_name results
    = [Some (JString "no_such_tool"); Some (JString "create_order")].
Proof.
  exact (X14_results_follow_the_calls scenario_tools
           [call "no_such_tool" []; order_call 1 "X" 6] scenario_agent eq_refl).
Defined.

Lemma X15_witness :
  execute_tools scenario_tools
    [call "restock_book" [("isbn", JString "X")]; call "list_customers" []]
    scenario_agent
  = prepend (mkResult (Some (JString "restock_book")) (NonPositiveRestock None) false)
            (execute_tools scenario_tools [call "list_customers" []] scenario_agent).
Proof.
  exact (X15_rejected_restock_runs_nothing scenario_tools
           (call "restock_book" [("isbn", JString "X")])
           [call "list_customers" []] scenario_agent
           (run_restock_book typed_readers) [("isbn", JString "X")]
           eq_refl eq_refl eq_refl (or_introl eq_refl)).
Defined.

Lemma X16_witness :
  fst (execute_tools scenario_tools
         [call "update_price" [("isbn", JString "X"); ("new_price", JInt (-1))];
          call "list_customers" []]
         scenario_agent)
  = Ok [mkResult (Some (JString "update_price"))
                 (ErrorExecuting "update_price" (ValidationError "new_price")) false;
        mkResult (Some (JString "list_customers"))
                 (ToolOutput (Report "list_customers")) true].
Proof.
  rewrite (X16_raising_tool_fails_alone scenario_tools
             (call "update_price" [("isbn", JString "X"); ("new_price", JInt (-1))])
             [call "list_customers" []] scenario_agent
             "update_price" (run_update_price typed_readers)
             (ValidationError "new_price") (mkWorld scenario_db [])
             eq_refl eq_refl eq_refl eq_refl).
  reflexivity.
Defined.

Lemma X18_witness :
  execute_tools scenario_tools
    ([order_call 1 "X" 3]
     ++ [("tool_name", JArray [JString "restock_book"])] :: [call "list_customers" []])
    scenario_agent
  = (Raise TypeError,
     snd (execute_tools scenario_tools [order_call 1 "X" 3] scenario_agent)).
Proof.
  exact (X18_unhashable_name_stops_the_batch scenario_tools
           [order_call 1 "X" 3] [("tool_name", JArray [JString "restock_book"])]
           [call "list_customers" []] scenario_agent
           (JArray [JString "restock_book"]) eq_refl eq_refl eq_refl).
Defined.

Section ExecutorComposition.

Context {world output : Type}.

(** X19. Executing a batch is executing its first part and then, from
    the agent that leaves, its second part: the results are the results
    of the two parts in order, and an exception of the first part keeps
    the second from running. *)
Theorem X19_batches_compose (tools : registry world output)
    (tds1 tds2 : list decision) (a : agent world output) :
  execute_tools tools (tds1 ++ tds2) a
  = match execute_tools tools tds1 a with
    | (Ok results1, a1) =>
        match execute_tools tools tds2 a1 with
        | (Ok results2, a2) => (Ok (results1 ++ results2), a2)
        | (Raise e, a2) => (Raise e, a2)
        end
    | (Raise e, a1) => (Raise e, a1)
    end.
Proof. apply execute_tools_app. Qed.

(** Whenever a batch returns, its results carry the tool names of its
    calls, in order. *)
Lemma execute_tools_names (tools : registry world output) tds :
  forall a results,
    fst (execute_tools tools tds a) = Ok results ->
    map tr_tool_name results = map (dict_get "tool_name") tds.
Proof.
  induction tds as [|td tds IH]; intros a results.
  - by intros [= <-].
  - destruct (execute_tool tools td a) as [[r|e] a'] eqn:Hstep.
    + rewrite (execute_tools_cons _ _ _ _ _ _ Hstep). unfold prepend. simpl.
      destruct (fst (execute_tools tools tds a')) as [rs|e] eqn:Hrest; [|done].
      intros [= <-]. simpl. f_equal.
      * exact (execute_tool_name _ _ _ _ _ Hstep).
      * by apply (IH a').
    + unfold execute_tools. simpl. by rewrite Hstep.
Qed.

End ExecutorComposition.

(* ===================================================================== *)
(** * Further properties of the stages of a turn *)
(* ===================================================================== *)

Section StageProperties.

Context {world output : Type}.
Variables (json_loads : str -> result json)
  (tools : registry world output)
  (generate_content : prompt output -> result str)
  (exn_str : exn -> string)
  (mentions_lock : message output -> bool).

Lemma dict_get_app key (m m' : list (string * json)) :
  dict_get key (m ++ m')
  = match dict_get key m with
    | Some v => Some v
    | None => dict_get key m'
    end.
Proof.
  induction m as [|[k v] m IH]; simpl; [done|].
  by destruct (String.eqb k key).
Qed.

Lemma dict_get_setdefault key key' v (m : list (string * json)) :
  dict_get key (setdefault key' v m)
  = match dict_get key m with
    | Some x => Some x
    | None => if String.eqb key' key then Some v else None
    end.
Proof.
  unfold setdefault. destruct (dict_get key' m) as [x|] eqn:Hk'.
  - destruct (dict_get key m) as [y|] eqn:Hk; [done|].
    destruct (String.eqb_spec key' key) as [->|]; [congruence|done].
  - rewrite dict_get_app. simpl. by destruct (dict_get key m).
Qed.

(** X20. Whatever the completion service answers, and also when it
    fails, the analysis has the four keys [needs_tools], [tools_needed],
    [reasoning] and [action_type]; and when the answer is extracted to a
    dict, every key of that dict keeps the value the service gave it. *)
Theorem X20_analysis_has_its_keys user_request :
  (forall key,
      In key ["needs_tools"; "tools_needed"; "reasoning"; "action_type"]%string ->
      is_Some (dict_get key
                 (analyze_request json_loads generate_content exn_str
                                  user_request))) /\
  (forall t m key v,
      generate_content (AnalysisPrompt user_request) = Ok t ->
      _parse_json_response json_loads t = Ok (JObject m) ->
      dict_get key m = Some v ->
      dict_get key (analyze_request json_loads generate_content exn_str
                                    user_request) = Some v).
Proof.
  unfold analyze_request. split.
  - intros key Hkey.
    destruct (generate_content (AnalysisPrompt user_request)) as [t|e]; simpl.
    + destruct (_parse_json_response json_loads t) as [r|e]; simpl.
      * rewrite !dict_get_setdefault.
        destruct (dict_get key _); [eauto|].
        simpl in Hkey. destruct Hkey as [<-|[<-|[<-|[<-|[]]]]]; simpl; eauto.
      * simpl in Hkey. destruct Hkey as [<-|[<-|[<-|[<-|[]]]]]; simpl; eauto.
    + simpl in Hkey. destruct Hkey as [<-|[<-|[<-|[<-|[]]]]]; simpl; eauto.
  - intros t m key v -> Hp Hv. simpl. rewrite Hp. simpl.
    rewrite !dict_get_setdefault. by rewrite Hv.
Qed.

Lemma extractor_defaults t :
  extractable json_loads t = false ->
  _parse_json_response json_loads t = Ok empty_object.
Proof.
  unfold extractable, decodes, _parse_json_response, parse_body.
  destruct (json_loads (clean t)) as [v|e]; simpl; [done|].
  destruct e; simpl; try done.
  destruct (bracket_slice (clean t)) as [json_str|]; simpl; [|done].
  by destruct (json_loads json_str).
Qed.

(** X21. When the completion service fails on the analysis prompt, or
    answers a text from which no JSON can be extracted, the turn executes
    no operation: the agent, with its usage history and its world, is as
    before, the response lists no operation call and no result, and its
    needs-operations flag is false. *)
Theorem X21_failed_analysis_executes_nothing user_request a :
  (exists e, generate_content (AnalysisPrompt user_request) = Raise e) \/
  (exists t, generate_content (AnalysisPrompt user_request) = Ok t /\
             extractable json_loads t = false) ->
  exists r,
    process_request json_loads tools generate_content exn_str mentions_lock
                    user_request a = (Ok r, a) /\
    tools_used r = [] /\ tool_results r = [] /\ needed_tools r = JBool false.
Proof.
  intros H. unfold process_request, pipeline.
  assert (Hneeds : dict_get "needs_tools"
                     (analyze_request json_loads generate_content exn_str
                                      user_request) = Some (JBool false)).
  { unfold analyze_request. destruct H as [[e ->]|(t & -> & Hex)]; [done|].
    simpl. by rewrite (extractor_defaults t Hex). }
  rewrite Hneeds. simpl. eauto.
Qed.

Lemma all_dicts_stray (l : list json) :
  Exists (fun v => match v with JObject _ => False | _ => True end) l ->
  all_dicts l = Raise AttributeError.
Proof.
  induction 1 as [v l Hv|v l Hex IH]; simpl.
  - by destruct v.
  - destruct v as [|b|z|q|s|l0|m]; try reflexivity.
    rewrite IH. reflexivity.
Qed.

(** X22. A plan in which some element is not an object is dropped as a
    whole: no call of it is returned, not even the well-formed ones. *)
Theorem X22_plan_with_a_stray_element_is_dropped user_request tools_needed
    tools_list t l :
  truthy tools_needed = true ->
  join_names tools_needed = Ok tools_list ->
  generate_content (ParameterPrompt user_request tools_list) = Ok t ->
  _parse_json_response json_loads t = Ok (JArray l) ->
  Exists (fun v => match v with JObject _ => False | _ => True end) l ->
  determine_tool_parameters json_loads generate_content user_request tools_needed
  = Ok [].
Proof.
  intros Ht Hj Hg Hp Hex. unfold determine_tool_parameters.
  rewrite Ht, Hj. simpl. rewrite Hg. simpl. rewrite Hp. simpl.
  by rewrite (all_dicts_stray l Hex).
Qed.

(** In every response of [process_request] the results answer the calls
    one for one: the list of results has the tool names of the list of
    calls, in the same order. *)
Lemma results_answer_the_calls user_request a r :
  fst (process_request json_loads tools generate_content exn_str mentions_lock
                       user_request a) = Ok r ->
  map tr_tool_name (tool_results r) = map (dict_get "tool_name") (tools_used r).
Proof.
  unfold process_request, pipeline.
  destruct (truthy _ && truthy _); [|by intros [= <-]].
  destruct (determine_tool_parameters _ _ _ _) as [[|td tds]|e];
    [by intros [= <-]| |by intros [= <-]].
  destruct (execute_tools tools (td :: tds) a) as [[results|e] a'] eqn:Hx;
    simpl; [|by intros [= <-]].
  intros [= <-]. simpl.
  apply (execute_tools_names tools (td :: tds) a). by rewrite Hx.
Qed.

End StageProperties.

Lemma X21_witness :
  exists r,
    process_request loads scenario_tools
      (scripted (text "I cannot help with that.") (js "[]"))
      (fun _ => "error"%string) (fun _ => false)
      (text "hello") scenario_agent = (Ok r, scenario_agent) /\
    tools_used r = [] /\ tool_results r = [] /\ needed_tools r = JBool false.
Proof.
  apply X21_failed_analysis_executes_nothing.
  right. exists (text "I cannot help with that."). split; reflexivity.
Defined.

Lemma X22_witness :
  determine_tool_parameters loads
    (scripted (output := output string) (js "{}")
       (js "[{'tool_name':'list_customers'}, 'then restock']"))
    (text "list the customers") (JArray [JString "list_customers"])
  = Ok [].
Proof.
  apply (X22_plan_with_a_stray_element_is_dropped loads
           (scripted (js "{}") (js "[{'tool_name':'list_customers'}, 'then restock']"))
           (text "list the customers") (JArray [JString "list_customers"])
           "list_customers"
           (js "[{'tool_name':'list_customers'}, 'then restock']")
           [JObject [("tool_name", JString "list_customers")]; JString "then restock"]).
  - reflexivity.
  - reflexivity.
  - reflexivity.
  - vm_compute. reflexivity.
  - right. left. exact I.
Defined.

Lemma X20_witness :
  dict_get "needs_tools"
    (analyze_request loads
       (scripted (output := output string)
                 (js "{'needs_tools': 'yes', 'note': 1}") (js "[]"))
       (fun _ => "error"%string) (text "hello"))
  = Some (JString "yes").
Proof.
  apply (proj2 (X20_analysis_has_its_keys loads
                  (scripted (output := output string)
                            (js "{'needs_tools': 'yes', 'note': 1}") (js "[]"))
                  (fun _ => "error"%string) (text "hello"))
           (js "{'needs_tools': 'yes', 'note': 1}")
           [("needs_tools", JString "yes"); ("note", JInt 1)]%string).
  - reflexivity.
  - vm_compute. reflexivity.
  - reflexivity.
Defined.

(* ===================================================================== *)
(** * The caller of the agent *)
(* ===================================================================== *)

Section RunAgentProperties.

Context {world output : Type}.
Variables (json_loads : str -> result json)
  (tools : registry world output)
  (generate_content : prompt output -> result str)
  (exn_str : exn -> string)
  (mentions_lock : message output -> bool).

Lemma lookup_map {A B : Type} (f : A -> B) (l : list A) (i : nat) :
  map f l !! i = f <$> l !! i.
Proof. exact (list_lookup_fmap f l i). Qed.

Lemma py_eq_opt_string (x : option json) s :
  py_eq_opt x (Some (JString s))
  = match x with
    | Some (JString s') => String.eqb s' s
    | _ => false
    end.
Proof.
  unfold py_eq_opt. destruct x as [v|]; [|done].
  by destruct v as [|b|z|q|s'|l|m].
Qed.

(** The result paired with a call named by a string is the result of the
    first call of that name. *)
Lemma paired_result_first s (tds : list decision) :
  forall (results : list (tool_result output)) i td,
    map tr_tool_name results = map (dict_get "tool_name") tds ->
    tds !! i = Some td ->
    dict_get "tool_name" td = Some (JString s) ->
    exists j tr,
      first_call_of s tds = Some j /\ (j <= i)%nat /\
      results !! j = Some tr /\
      paired_result results (Some (JString s)) = Some tr.
Proof.
  induction tds as [|td0 tds IH]; intros results i td Hnames Hi Hname; [done|].
  destruct results as [|r0 results]; [done|].
  simpl in Hnames. injection Hnames as Hn0 Hnames.
  unfold paired_result. simpl. rewrite py_eq_opt_string, Hn0.
  destruct (dict_get "tool_name" td0) as [[|b|z|q|s'|l|m]|] eqn:Hname0;
    try (destruct i as [|i]; [simpl in Hi; congruence|];
         destruct (IH results i td Hnames Hi Hname)
           as (j & tr & -> & Hj & Htr & Hp);
         exists (S j), tr; repeat split; [lia|done|exact Hp]).
  destruct (String.eqb_spec s' s) as [->|Hne].
  - exists 0%nat, r0. repeat split. lia.
  - destruct i as [|i]; [simpl in Hi; congruence|].
    destruct (IH results i td Hnames Hi Hname) as (j & tr & -> & Hj & Htr & Hp).
    exists (S j), tr. repeat split; [lia|done|exact Hp].
Qed.

(** X23. [run_agent] pairs a call with a result by tool name only: the
    output and the success flag it reports for a call named by a string
    are those of the first call of the plan with that name. A call that is
    the first of its name is reported with its own result; a later call of
    the same tool is reported with the result of the first. *)
Theorem X23_calls_are_paired_by_name user_message a r i td s :
  fst (process_request json_loads tools generate_content exn_str mentions_lock
                       user_message a) = Ok r ->
  tools_used r !! i = Some td ->
  dict_get "tool_name" td = Some (JString s) ->
  exists j tr,
    first_call_of s (tools_used r) = Some j /\ (j <= i)%nat /\
    tool_results r !! j = Some tr /\
    ar_tool_calls (fst (run_agent json_loads tools generate_content exn_str
                                  mentions_lock user_message a)) !! i
    = Some (mkToolCall (Some (JString s))
                       (default (JObject []) (dict_get "parameters" td))
                       (OutputOf (tr_result tr)) (tr_success tr)).
Proof.
  intros Hr Hi Hname.
  pose proof (results_answer_the_calls json_loads tools generate_content
                exn_str mentions_lock user_message a r Hr) as Hnames.
  destruct (paired_result_first s (tools_used r) (tool_results r) i td
              Hnames Hi Hname) as (j & tr & Hj & Hle & Htr & Hp).
  exists j, tr. repeat split; try done.
  unfold run_agent.
  destruct (process_request _ _ _ _ _ _ _) as [[r'|e] a']; simpl in Hr;
    [|done].
  injection Hr as ->. cbn [fst ar_tool_calls]. unfold tool_calls_for_response.
  rewrite lookup_map. unfold decision in *. rewrite Hi. simpl.
  by rewrite Hname, Hp.
Qed.

End RunAgentProperties.

(** A plan of two restocks, the second of 0 copies: the executor turns
    the second down, and [run_agent] reports it with the output and the
    success of the first. *)
Lemma X23_witness :
  exists tr,
    tr_success tr = true /\
    ar_tool_calls
      (fst (run_agent loads scenario_tools
              (scripted
                 (js "{'needs_tools': true, 'tools_needed': ['restock_book']}")
                 (js "[{'tool_name': 'restock_book', 'parameters': {'isbn':'X','quantity':3}}, {'tool_name': 'restock_book', 'parameters': {'isbn':'X','quantity':0}}]"))
              (fun _ => "error"%string) (fun _ => false)
              (text "restock") scenario_agent)) !! 1%nat
    = Some (mkToolCall (Some (JString "restock_book"))
              (JObject [("isbn", JString "X"); ("quantity", JInt 0)])
              (OutputOf (tr_result tr)) (tr_success tr)).
Proof.
  destruct (X23_calls_are_paired_by_name loads scenario_tools
              (scripted
                 (js "{'needs_tools': true, 'tools_needed': ['restock_book']}")
                 (js "[{'tool_name': 'restock_book', 'parameters': {'isbn':'X','quantity':3}}, {'tool_name': 'restock_book', 'parameters': {'isbn':'X','quantity':0}}]"))
              (fun _ => "error"%string) (fun _ => false)
              (text "restock") scenario_agent
              _ 1%nat
              (call "restock_book" [("isbn", JString "X"); ("quantity", JInt 0)])
              "restock_book"
              ltac:(vm_compute; reflexivity) ltac:(vm_compute; reflexivity)
              eq_refl)
    as (j & tr & Hj & Hle & Htr & Hcall).
  exists tr. split; [|exact Hcall].
  vm_compute in Hj. injection Hj as <-. vm_compute in Htr.
  injection Htr as <-. reflexivity.
Defined.

(* ===================================================================== *)
(** * The chat endpoints *)
(* ===================================================================== *)

Section ChatProperties.

Context {world output : Type}.
Variables (json_loads : str -> result json)
  (tools : registry world output)
  (generate_content : prompt output -> result str)
  (exn_str : exn -> string)
  (mentions_lock : message output -> bool).

(** The loop over the tool calls touches the table [tool_calls] only. *)
Lemma save_tool_calls_frame sid mid (tcs : list (tool_call output)) :
  forall c,
    sessions (snd (save_tool_calls sid mid tcs c)) = sessions c /\
    messages (snd (save_tool_calls sid mid tcs c)) = messages c /\
    last_message_id (snd (save_tool_calls sid mid tcs c)) = last_message_id c.
Proof.
  induction tcs as [|tc tcs IH]; intros c; simpl; [done|].
  destruct (tool_name_column (tc_tool_name tc)) as [name|e]; simpl; [|done].
  destruct (IH (mkChatDb (sessions c) (messages c)
                  (tool_call_rows c
                   ++ [mkToolCallRow sid mid name (tc_input_args tc) (tc_output tc)])
                  (last_message_id c))) as (H1 & H2 & H3).
  by rewrite H1, H2, H3.
Qed.

(** One row per call when every tool name can be bound. *)
Lemma rows_of_length sid mid (tcs : list (tool_call output)) :
  Forall storable tcs -> length (omap (row_of sid mid) tcs) = length tcs.
Proof.
  induction 1 as [|tc tcs [name Hname] _ IH]; [done|].
  cbn [omap list_omap]. unfold row_of at 1. rewrite Hname. simpl.
  by f_equal.
Qed.

Lemma save_tool_calls_ok sid mid (tcs : list (tool_call output)) :
  Forall storable tcs ->
  forall c,
    fst (save_tool_calls sid mid tcs c) = Ok tt /\
    tool_call_rows (snd (save_tool_calls sid mid tcs c))
    = tool_call_rows c ++ omap (row_of sid mid) tcs.
Proof.
  induction 1 as [|tc tcs [name Hname] _ IH]; intros c.
  - simpl. by rewrite app_nil_r.
  - cbn [save_tool_calls omap list_omap]. unfold row_of at 1.
    rewrite Hname.
    destruct (IH (mkChatDb (sessions c) (messages c)
                    (tool_call_rows c
                     ++ [mkToolCallRow sid mid name (tc_input_args tc) (tc_output tc)])
                    (last_message_id c))) as (H1 & H2).
    rewrite H1, H2. simpl. by rewrite <- app_assoc.
Qed.

(** The loop raises at the first call whose tool name cannot be bound. *)
Lemma save_tool_calls_raises sid mid (tcs : list (tool_call output)) :
  Exists (fun tc => ~ storable tc) tcs ->
  forall c, exists e, fst (save_tool_calls sid mid tcs c) = Raise e.
Proof.
  induction 1 as [tc tcs Hbad|tc tcs _ IH]; intros c; simpl.
  - destruct (tool_name_column (tc_tool_name tc)) as [name|e] eqn:Hname.
    + exfalso. apply Hbad. by exists name.
    + by exists e.
  - destruct (tool_name_column (tc_tool_name tc)) as [name|e]; [apply IH|].
    by exists e.
Qed.

Lemma user_message_count_app sid (c : chat_db output) ms :
  user_message_count sid
    (mkChatDb (sessions c) (messages c ++ ms) (tool_call_rows c)
              (last_message_id c))
  = (user_message_count sid c
     + length (List.filter
                 (fun m => String.eqb (m_session_id m) sid
                           && String.eqb (m_role m) "user") ms))%nat.
Proof.
  unfold user_message_count. simpl. by rewrite List.filter_app, length_app.
Qed.

Lemma with_user_message_spec sid message (c : chat_db output) :
  messages (with_user_message sid message c)
  = messages c
    ++ [mkMessage (last_message_id c + 1) sid "user" (UserText message)] /\
  tool_call_rows (with_user_message sid message c) = tool_call_rows c /\
  last_message_id (with_user_message sid message c) = last_message_id c + 1 /\
  sessions (with_user_message sid message c) !! sid
  = Some (default (text "New Conversation") (sessions c !! sid)) /\
  user_message_count sid (with_user_message sid message c)
  = S (user_message_count sid c).
Proof.
  unfold with_user_message, save_user_message, insert_message.
  destruct (sessions c !! sid) as [t|] eqn:Hs; simpl;
    (repeat split; try done);
    try (by rewrite lookup_insert_eq);
    unfold user_message_count; simpl;
    rewrite List.filter_app, length_app; simpl;
    rewrite String.eqb_refl; simpl; lia.
Qed.

Lemma chat_endpoint_first_step sid message (c : chat_db output) :
  chat_cursor Quiet c (save_user_message sid message)
  = (Ok (last_message_id c + 1), with_user_message sid message c).
Proof.
  unfold chat_cursor, with_user_message, save_user_message, insert_message.
  by destruct (sessions c !! sid).
Qed.

(** X24. A turn on a quiet storage layer whose tool calls all carry a
    tool name the column accepts is answered with the message and the
    tool calls of the agent, and stores exactly the exchange: the user
    message and the assistant message, with consecutive ids, and one row
    of [tool_calls] per call, tied to the assistant message. *)
Theorem X24_turn_stores_the_exchange sid message (c : chat_db output) a :
  let r := fst (run_agent json_loads tools generate_content exn_str
                          mentions_lock message a) in
  Forall storable (ar_tool_calls r) ->
  exists c',
    chat_endpoint json_loads tools generate_content exn_str mentions_lock
                  Quiet Quiet sid message c a
    = (Answer (mkChatResponse (ar_message r) sid (ar_tool_calls r)), c',
       snd (run_agent json_loads tools generate_content exn_str
                      mentions_lock message a)) /\
    messages c'
    = messages c
      ++ [mkMessage (last_message_id c + 1) sid "user" (UserText message);
          mkMessage (last_message_id c + 2) sid "assistant"
                    (AssistantText (ar_message r))] /\
    tool_call_rows c'
    = tool_call_rows c
      ++ omap (row_of sid (last_message_id c + 2)) (ar_tool_calls r) /\
    length (omap (row_of sid (last_message_id c + 2)) (ar_tool_calls r))
    = length (ar_tool_calls r).
Proof.
  intros r Hst. unfold chat_endpoint. rewrite chat_endpoint_first_step.
  subst r.
  destruct (run_agent json_loads tools generate_content exn_str mentions_lock
                      message a) as [r a'].
  cbn [fst snd] in *.
  destruct (with_user_message_spec sid message c)
    as (Hm & Ht & Hl & Hs & Hn).
  set (c1 := with_user_message sid message c) in *.
  cbn [chat_cursor]. unfold save_assistant_response, insert_message.
  rewrite Hl. replace (last_message_id c + 1 + 1) with (last_message_id c + 2)
    by lia.
  set (c2 := mkChatDb _ _ _ _).
  destruct (save_tool_calls_ok sid (last_message_id c + 2) (ar_tool_calls r)
              Hst c2) as (Hok & Hrows).
  destruct (save_tool_calls_frame sid (last_message_id c + 2)
              (ar_tool_calls r) c2) as (Hs2 & Hm2 & Hl2).
  destruct (save_tool_calls sid (last_message_id c + 2) (ar_tool_calls r) c2)
    as [res c3]. cbn [fst snd] in *. subst res.
  assert (Hmsgs : messages c3
                  = messages c
                    ++ [mkMessage (last_message_id c + 1) sid "user"
                                  (UserText message);
                        mkMessage (last_message_id c + 2) sid "assistant"
                                  (AssistantText (ar_message r))]).
  { rewrite Hm2. subst c2. cbn [messages]. rewrite Hm.
    by rewrite <- app_assoc. }
  assert (Hrows' : tool_call_rows c3
                   = tool_call_rows c
                     ++ omap (row_of sid (last_message_id c + 2))
                             (ar_tool_calls r)).
  { rewrite Hrows. subst c2. cbn [tool_call_rows]. by rewrite Ht. }
  destruct (user_message_count sid c3 =? 1)%nat;
    eexists; (split; [reflexivity|]); cbn [messages tool_call_rows];
    repeat split; try done; by apply rows_of_length.
Qed.

(** X25. A turn is not one transaction. When the first transaction of a
    turn has committed and the turn is answered with an error, the user
    message stays stored without an assistant message or a tool call row,
    and what the agent did in between stays done. *)
Theorem X25_failed_turn_keeps_the_agent_effects
    ev3 sid message (c : chat_db output) a e c' a' :
  chat_endpoint json_loads tools generate_content exn_str mentions_lock
                Quiet ev3 sid message c a
  = (HTTPException 500 e, c', a') ->
  messages c'
  = messages c
    ++ [mkMessage (last_message_id c + 1) sid "user" (UserText message)] /\
  tool_call_rows c' = tool_call_rows c /\
  a' = snd (run_agent json_loads tools generate_content exn_str
                      mentions_lock message a).
Proof.
  unfold chat_endpoint. rewrite chat_endpoint_first_step.
  destruct (run_agent json_loads tools generate_content exn_str mentions_lock
                      message a) as [r a1].
  destruct (with_user_message_spec sid message c)
    as (Hm & Ht & Hl & Hs & Hn).
  set (c1 := with_user_message sid message c) in *.
  destruct ev3 as [| |msg]; cbn [chat_cursor snd].
  - destruct (save_assistant_response sid message r c1) as [[mid|e1] c3];
      intros H; [discriminate|]. injection H as H1 H2 H3. by subst.
  - intros H. injection H as H1 H2 H3. by subst.
  - intros H. injection H as H1 H2 H3. by subst.
Qed.

(** A call of the plan without a tool name is a tool call without a
    tool name. *)
Lemma nameless_call_is_not_storable (r : response output) td :
  td ∈ tools_used r ->
  default JNull (dict_get "tool_name" td) = JNull ->
  Exists (fun tc => ~ storable tc) (tool_calls_for_response r).
Proof.
  intros Hin Hname. apply Exists_exists.
  unfold tool_calls_for_response.
  eexists. split.
  - apply list_elem_of_In, in_map_iff. exists td.
    split; [reflexivity|]. by apply list_elem_of_In.
  - intros [name Hn]. revert Hn.
    destruct (paired_result (tool_results r) (dict_get "tool_name" td));
      cbn [tc_tool_name];
      destruct (dict_get "tool_name" td) as [[|b|z|q|s|l|m]|];
      simpl in Hname; try discriminate; simpl; discriminate.
Qed.

(** X26. A plan that holds a call without a tool name (the key is
    missing, or null) makes the whole turn fail: the executor answers the
    call as an unknown tool, [run_agent] reports it, and the row of
    [tool_calls] cannot be written, so the endpoint answers 500 whatever
    the storage layer does. *)
Theorem X26_nameless_call_fails_the_turn
    ev1 ev3 sid message (c : chat_db output) a r td :
  fst (process_request json_loads tools generate_content exn_str mentions_lock
                       message a) = Ok r ->
  td ∈ tools_used r ->
  default JNull (dict_get "tool_name" td) = JNull ->
  exists e,
    fst (fst (chat_endpoint json_loads tools generate_content exn_str
                            mentions_lock ev1 ev3 sid message c a))
    = HTTPException 500 (Some e).
Proof.
  intros Hr Hin Hname. unfold chat_endpoint.
  destruct ev1 as [| |msg1]; [|by eexists|by eexists].
  rewrite chat_endpoint_first_step. unfold run_agent.
  destruct (process_request json_loads tools generate_content exn_str
                            mentions_lock message a) as [[r'|e'] a1];
    [|discriminate].
  cbn [fst] in Hr. injection Hr as ->.
  destruct ev3 as [| |msg3]; cbn [chat_cursor]; [|by eexists|by eexists].
  unfold save_assistant_response, insert_message. cbn [ar_tool_calls].
  match goal with
  | |- context [save_tool_calls ?s ?m ?l ?c2] =>
      destruct (save_tool_calls_raises s m l
                  (nameless_call_is_not_storable r td Hin Hname) c2) as [e He];
      destruct (save_tool_calls s m l c2) as [res c3]
  end.
  cbn [fst] in He. subst res. by exists e.
Qed.

(** The title made of a message has at most 33 characters and starts as
    the message does. *)
Lemma session_title_bound (message : str) :
  (length (session_title message) <= 33)%nat /\
  take 30 (session_title message) = take 30 message.
Proof.
  unfold session_title. destruct (Nat.ltb_spec 30 (length message)) as [H|H].
  - split.
    + rewrite length_app, length_take.
      change (length (text "...")) with 3%nat. lia.
    + rewrite take_app_le by (rewrite length_take; lia).
      rewrite take_take. by rewrite Nat.min_id.
  - split; [lia|done].
Qed.

(** X27. After a turn that is answered, the title of the session is made
    of the message when this is the first user message of the session:
    the message itself, cut after 30 characters and followed by three
    dots when it is longer, so at most 33 characters; otherwise the title
    is the one the session had. *)
Theorem X27_first_message_names_the_session
    ev1 ev3 sid message (c : chat_db output) a resp c' a' :
  chat_endpoint json_loads tools generate_content exn_str mentions_lock
                ev1 ev3 sid message c a
  = (Answer resp, c', a') ->
  sessions c' !! sid
  = Some (if (user_message_count sid c =? 0)%nat then session_title message
          else default (text "New Conversation") (sessions c !! sid)) /\
  (length (session_title message) <= 33)%nat /\
  take 30 (session_title message) = take 30 message.
Proof.
  intros H. split; [|apply session_title_bound].
  revert H. unfold chat_endpoint.
  destruct ev1 as [| |msg1]; [|discriminate|discriminate].
  rewrite chat_endpoint_first_step.
  destruct (run_agent json_loads tools generate_content exn_str mentions_lock
                      message a) as [r a1].
  destruct (with_user_message_spec sid message c)
    as (Hm & Ht & Hl & Hs & Hn).
  set (c1 := with_user_message sid message c) in *.
  destruct ev3 as [| |msg3]; cbn [chat_cursor]; [|discriminate|discriminate].
  unfold save_assistant_response, insert_message.
  match goal with
  | |- context [save_tool_calls ?s ?m ?l ?c2] =>
      pose proof (save_tool_calls_frame s m l c2) as (Hs2 & Hm2 & Hl2);
      destruct (save_tool_calls s m l c2) as [[[]|e] c3]
  end; [|discriminate].
  cbn [snd sessions messages] in *.
  assert (Hcount : user_message_count sid c3 = S (user_message_count sid c)).
  { rewrite <- Hn. unfold user_message_count. rewrite Hm2.
    rewrite List.filter_app, length_app. simpl.
    replace (String.eqb "assistant" "user") with false by reflexivity.
    rewrite andb_false_r. simpl. lia. }
  rewrite Hcount.
  destruct (user_message_count sid c) as [|n]; simpl;
    intros H; injection H as H1 H2 H3; subst c'; cbn [sessions].
  - rewrite lookup_alter. destruct (decide (sid = sid)); [|done].
    by rewrite Hs2, Hs.
  - by rewrite Hs2, Hs.
Qed.

(** X28. [get_session_tool_calls] never returns the tool calls of a
    session: its query orders by a column [created_at] that the table
    [tool_calls] of [create_tables] does not have. It answers 404 for a
    session that does not exist, and 500 in every other case, with the
    error of the query when the storage layer is quiet. *)
Theorem X28_tool_calls_of_a_session_are_never_returned
    ev sid (c : chat_db output) :
  (forall rows, get_session_tool_calls ev sid c <> Answer rows) /\
  (ev = Quiet -> sessions c !! sid = None ->
   get_session_tool_calls ev sid c = HTTPException 404 None) /\
  (ev = Quiet -> is_Some (sessions c !! sid) ->
   get_session_tool_calls ev sid c
   = HTTPException 500 (Some (OperationalError "no such column: created_at"))).
Proof.
  unfold get_session_tool_calls, tool_calls_transaction.
  destruct ev as [| |msg]; cbn [chat_cursor];
    destruct (sessions c !! sid) as [t|] eqn:Hs; cbn;
    (repeat split; [by intros rows H|intros H1 H2..]);
    try discriminate; try done; by destruct H2.
Qed.

End ChatProperties.

(** A turn of two restocks on empty chat tables: two messages and two
    rows of [tool_calls] are stored. *)
Lemma X24_witness :
  exists c',
    snd (fst (chat_endpoint loads scenario_tools two_restocks
                (fun _ => "error"%string) (fun _ => false)
                Quiet Quiet "s1" (text "restock twice") empty_chat
                scenario_agent)) = c' /\
    map m_id (messages c') = [1; 2] /\
    map tc_message_id (tool_call_rows c') = [2; 2].
Proof.
  destruct (X24_turn_stores_the_exchange loads scenario_tools two_restocks
              (fun _ => "error"%string) (fun _ => false)
              "s1" (text "restock twice") empty_chat scenario_agent)
    as (c' & Heq & Hm & Hrows & Hlen).
  - match goal with
    | |- Forall _ ?l =>
        let l' := eval vm_compute in l in
        replace l with l' by (vm_compute; reflexivity)
    end.
    repeat (constructor; [eexists; reflexivity|]). constructor.
  - exists c'. split; [by rewrite Heq|]. rewrite Hm, Hrows.
    split; vm_compute; reflexivity.
Defined.

(** A turn that creates an order and cannot save the answer: the order
    stays, the answer is not stored. *)
Lemma X25_witness :
  exists (c' : chat_db (output string)) (a' : agent world (output string)),
    messages c' = [mkMessage 1 "s1" "user" (UserText (text "order two X"))] /\
    tool_call_rows c' = [] /\
    map order_id (orders (world_db (state a'))) = [1].
Proof.
  pose proof (X25_failed_turn_keeps_the_agent_effects loads scenario_tools
                one_order (fun _ => "error"%string) (fun _ => false)
                Locked "s1" (text "order two X") empty_chat scenario_agent
                _ _ _ ltac:(vm_compute; reflexivity))
    as (Hm & Hrows & Ha).
  match type of Hm with messages ?c = _ => exists c end.
  match type of Ha with ?a = _ => exists a end.
  split; [exact Hm|]. split; [exact Hrows|].
  vm_compute; reflexivity.
Defined.

(** A plan whose only call has no tool name: the turn is answered 500. *)
Lemma X26_witness :
  exists e,
    fst (fst (chat_endpoint loads scenario_tools nameless_plan
                (fun _ => "error"%string) (fun _ => false)
                Quiet Quiet "s1" (text "restock") empty_chat scenario_agent))
    = HTTPException 500 (Some e).
Proof.
  exact (X26_nameless_call_fails_the_turn loads scenario_tools nameless_plan
           (fun _ => "error"%string) (fun _ => false)
           Quiet Quiet "s1" (text "restock") empty_chat scenario_agent
           _ [("parameters",
               JObject [("isbn", JString "X"); ("quantity", JInt 3)])]%string
           ltac:(vm_compute; reflexivity)
           ltac:(vm_compute; constructor)
           eq_refl).
Defined.

(** The first message of a session, 43 characters long, gives a title of
    33 characters. *)
Lemma X27_witness :
  exists c' : chat_db (output string),
    sessions c' !! "s1"%string
    = Some (text "please restock the item X twic...") /\
    (length (session_title (text "please restock the item X twice, thank you"))
     <= 33)%nat.
Proof.
  pose proof (X27_first_message_names_the_session loads scenario_tools
                two_restocks (fun _ => "error"%string) (fun _ => false)
                Quiet Quiet "s1"
                (text "please restock the item X twice, thank you")
                empty_chat scenario_agent
                _ _ _ ltac:(vm_compute; reflexivity))
    as (Ht & Hlen & _).
  eexists. split; [exact Ht|exact Hlen].
Defined.

(** The tool calls of an existing session cannot be read. *)
Lemma X28_witness :
  get_session_tool_calls Quiet "s1"
    (mkChatDb {[ "s1"%string := text "New Conversation" ]} [] [] 0
     : chat_db (output string))
  = HTTPException 500 (Some (OperationalError "no such column: created_at")).
Proof.
  apply (X28_tool_calls_of_a_session_are_never_returned Quiet "s1"
           (mkChatDb {[ "s1"%string := text "New Conversation" ]} [] [] 0
            : chat_db (output string))).
  - reflexivity.
  - by eexists.
Defined.

(* ===================================================================== *)
(** * The inventory summary *)
(* ===================================================================== *)






(** The summary on a quiet storage layer. *)
Lemma inventory_summary_quiet db :
  fst (inventory_summary_tool Quiet db)
  = InventorySummary
      (mkSummary (count_books (books db)) (sum_stock (books db))
         (filter (fun kb => stock kb.2 < 5) (books db))
         (filter (fun kb => stock kb.2 = 0) (books db))
         (bool_decide (filter (fun kb => stock kb.2 < 5) (books db) = ∅)
          && bool_decide (filter (fun kb => stock kb.2 = 0) (books db) = ∅))).
Proof. reflexivity. Qed.


(** X30. The summary says that all books have sufficient stock exactly
    when every book has at least five copies, and every book it lists as
    out of stock is also in its low stock alert. *)
Theorem X30_sufficient_stock_means_five_copies db s :
  fst (inventory_summary_tool Quiet db) = InventorySummary s ->
  (sufficient s = true <->
   forall k b, books db !! k = Some b -> 5 <= stock b) /\
  out_of_stock s ⊆ low_stock s.
Proof.
  rewrite inventory_summary_quiet. intros [= <-].
  cbn [sufficient out_of_stock low_stock]. split.
  - rewrite andb_true_iff, !bool_decide_eq_true, !map_empty_filter.
    unfold map_Forall. simpl. split.
    + intros [Hlow _] k b Hb. specialize (Hlow k b Hb). lia.
    + intros Hall. split; intros k b Hb; specialize (Hall k b Hb); lia.
  - apply map_subseteq_spec. intros k b.
    rewrite !map_lookup_filter_Some. simpl. intros [Hb H0]. split; [done|lia].
Qed.


(** The scenario catalogue, whose only item has five copies. *)
Lemma X30_witness :
  exists s,
    fst (inventory_summary_tool Quiet scenario_db) = InventorySummary s /\
    sufficient s = true.
Proof.
  eexists. split; [reflexivity|].
  apply (proj1 (X30_sufficient_stock_means_five_copies scenario_db _ eq_refl)).
  intros k b. unfold scenario_db. cbn [books].
  rewrite lookup_singleton_Some. intros [_ <-]. simpl. lia.
Defined.
